(** * Remote Job Finder scraper: a shallow embedding of
      [scraper/job_scraper.py] and the properties of its pipeline.

    The program is a linear fetch -> parse -> classify -> filter ->
    serialize pipeline (class [RemoteJobScraper]).  Python [str] values
    are sequences of Unicode code points, mutable object state
    ([self.jobs]) and the effects of the run (log lines, HTTP requests,
    sleeps, clock reads, the file written) are threaded through a small
    state-and-exception monad, and the two libraries the pipeline calls
    (the HTTP session and the HTML query interface of BeautifulSoup) are
    taken through narrow interfaces. *)

From Stdlib Require Import List ZArith NArith Bool Lia String Ascii.
From Stdlib Require DecimalN DecimalFacts DecimalPos DecimalNat.
Import ListNotations.

Set Implicit Arguments.
Set Warnings "-register-all".

(* ------------------------------------------------------------------ *)
(** ** Python strings *)

Module PyStr.

(** A Python [str] is a sequence of code points; [len], slicing and the
    substring test [in] all count code points. *)
Definition char := N.
Definition pystr := list char.

Definition eqb (a b : pystr) : bool :=
  if list_eq_dec N.eq_dec a b then true else false.

(** Literals are written as in the source file, which is UTF-8 encoded:
    [u8] decodes the bytes of a Rocq string into code points. *)
Definition byte_val (a : ascii) : N := N_of_ascii a.

Fixpoint utf8_decode (fuel : nat) (bs : list N) : pystr :=
  match fuel with
  | O => []
  | S fuel' =>
    match bs with
    | [] => []
    | b0 :: r0 =>
      if (b0 <? 128)%N then b0 :: utf8_decode fuel' r0
      else if (b0 <? 224)%N then
        match r0 with
        | b1 :: r1 =>
            ((b0 - 192) * 64 + (b1 - 128))%N :: utf8_decode fuel' r1
        | _ => []
        end
      else if (b0 <? 240)%N then
        match r0 with
        | b1 :: b2 :: r2 =>
            ((b0 - 224) * 4096 + (b1 - 128) * 64 + (b2 - 128))%N
              :: utf8_decode fuel' r2
        | _ => []
        end
      else
        match r0 with
        | b1 :: b2 :: b3 :: r3 =>
            ((b0 - 240) * 262144 + (b1 - 128) * 4096
             + (b2 - 128) * 64 + (b3 - 128))%N :: utf8_decode fuel' r3
        | _ => []
        end
    end
  end.

Definition u8 (s : string) : pystr :=
  let bs := List.map byte_val (list_ascii_of_string s) in
  utf8_decode (List.length bs) bs.

(** [s.startswith(p)] *)
Fixpoint startswith (p s : pystr) : bool :=
  match p, s with
  | [], _ => true
  | _ :: _, [] => false
  | a :: p', b :: s' => (a =? b)%N && startswith p' s'
  end.

(** [needle in hay]: the substring test of Python. *)
Fixpoint contains (needle hay : pystr) : bool :=
  startswith needle hay
  || match hay with
     | [] => false
     | _ :: t => contains needle t
     end.

(** [s.endswith(p)] *)
Definition endswith (p s : pystr) : bool :=
  startswith (rev p) (rev s).

(** [s[:n]] for a non-negative [n]. *)
Definition slice_to (n : nat) (s : pystr) : pystr := firstn n s.

(** [any(p(x) for x in xs)] *)
Definition any {A} (p : A -> bool) (xs : list A) : bool := existsb p xs.

End PyStr.

Import PyStr.


(* ------------------------------------------------------------------ *)
(** ** JSON documents: [json.dump(.., ensure_ascii=False, indent=2)] and
       [json.load]

    The values the program serializes are dicts, lists, strings, ints and
    booleans.  A dict is an insertion-ordered list of pairs with distinct
    keys.  Floats are outside this fragment: the decoder gives no result
    on a number with a fraction or an exponent.  Ints are unbounded; the
    limit CPython puts on the number of digits of an int written in
    decimal is not modelled.  The encoder follows [json.encoder]
    ([encode_basestring], [_make_iterencode]), the decoder follows
    [json.decoder] and [json.scanner] ([scanstring], [JSONObject],
    [JSONArray], [scan_once], [NUMBER_RE]). *)

Module Json.

Inductive json : Type :=
| JNull
| JBool (b : bool)
| JInt (z : Z)
| JStr (s : pystr)
| JArr (items : list json)
| JObj (members : list (pystr * json)).

(** [d[k]] on a dict, [None] when the key is absent. *)
Fixpoint lookup (k : pystr) (members : list (pystr * json)) : option json :=
  match members with
  | [] => None
  | (k', v) :: rest => if PyStr.eqb k k' then Some v else lookup k rest
  end.

Definition get (k : pystr) (v : json) : option json :=
  match v with
  | JObj members => lookup k members
  | _ => None
  end.

(** [d[k] = v]: replaces the value of an existing key in place, appends
    a new key at the end. *)
Fixpoint dict_set (d : list (pystr * json)) (k : pystr) (v : json)
  : list (pystr * json) :=
  match d with
  | [] => [(k, v)]
  | (k', v') :: rest =>
      if PyStr.eqb k k' then (k', v) :: rest else (k', v') :: dict_set rest k v
  end.

(** [dict(pairs)] *)
Definition dict_of_pairs (pairs : list (pystr * json)) : list (pystr * json) :=
  fold_left (fun d kv => dict_set d (fst kv) (snd kv)) pairs [].

(** Every dict inside the value has distinct keys. *)
Fixpoint well_formed (v : json) : Prop :=
  match v with
  | JArr items => fold_right (fun x acc => well_formed x /\ acc) True items
  | JObj members =>
      NoDup (map fst members)
      /\ fold_right (fun kv acc => well_formed (snd kv) /\ acc) True members
  | _ => True
  end.

(** *** Characters *)

Definition c_quote : char := 34%N.
Definition c_backslash : char := 92%N.
Definition c_slash : char := 47%N.
Definition c_comma : char := 44%N.
Definition c_colon : char := 58%N.
Definition c_space : char := 32%N.
Definition c_newline : char := 10%N.
Definition c_lbrace : char := 123%N.
Definition c_rbrace : char := 125%N.
Definition c_lbracket : char := 91%N.
Definition c_rbracket : char := 93%N.
Definition c_minus : char := 45%N.
Definition c_plus : char := 43%N.
Definition c_dot : char := 46%N.
Definition c_zero : char := 48%N.

(** *** Encoder *)

(** Lower-case hexadecimal digit of a value below 16. *)
Definition hex_digit (n : N) : char :=
  (if n <? 10 then 48 + n else 87 + n)%N.

(** One character of [encode_basestring]: the escape table
    [ESCAPE_DCT] of [json.encoder], with [\u00xx] for the remaining
    control characters. *)
Definition escape_char (c : char) : pystr :=
  if (c =? c_quote)%N then [c_backslash; c_quote]
  else if (c =? c_backslash)%N then [c_backslash; c_backslash]
  else if (c =? 8)%N then [c_backslash; 98%N]
  else if (c =? 12)%N then [c_backslash; 102%N]
  else if (c =? 10)%N then [c_backslash; 110%N]
  else if (c =? 13)%N then [c_backslash; 114%N]
  else if (c =? 9)%N then [c_backslash; 116%N]
  else if (c <? 32)%N then
    [c_backslash; 117%N; c_zero; c_zero;
     hex_digit (c / 16); hex_digit (c mod 16)]
  else [c].

Definition encode_basestring (s : pystr) : pystr :=
  c_quote :: flat_map escape_char s ++ [c_quote].

Fixpoint digits_of_uint (d : Decimal.uint) : pystr :=
  match d with
  | Decimal.Nil => []
  | Decimal.D0 d' => 48%N :: digits_of_uint d'
  | Decimal.D1 d' => 49%N :: digits_of_uint d'
  | Decimal.D2 d' => 50%N :: digits_of_uint d'
  | Decimal.D3 d' => 51%N :: digits_of_uint d'
  | Decimal.D4 d' => 52%N :: digits_of_uint d'
  | Decimal.D5 d' => 53%N :: digits_of_uint d'
  | Decimal.D6 d' => 54%N :: digits_of_uint d'
  | Decimal.D7 d' => 55%N :: digits_of_uint d'
  | Decimal.D8 d' => 56%N :: digits_of_uint d'
  | Decimal.D9 d' => 57%N :: digits_of_uint d'
  end.

(** [int.__repr__] *)
Definition encode_int (z : Z) : pystr :=
  if (z <? 0)%Z then c_minus :: digits_of_uint (N.to_uint (Z.abs_N z))
  else digits_of_uint (N.to_uint (Z.abs_N z)).

(** ['\n' + ' ' * (2 * level)] *)
Definition newline_indent (level : nat) : pystr :=
  c_newline :: repeat c_space (2 * level).

Fixpoint join (sep : pystr) (chunks : list pystr) : pystr :=
  match chunks with
  | [] => []
  | [c] => c
  | c :: rest => c ++ sep ++ join sep rest
  end.

(** [_iterencode] of [json.encoder] at indentation [level], with
    item separator [','] and key separator [': ']. *)
Fixpoint encode (level : nat) (v : json) : pystr :=
  match v with
  | JNull => u8 "null"
  | JBool true => u8 "true"
  | JBool false => u8 "false"
  | JInt z => encode_int z
  | JStr s => encode_basestring s
  | JArr [] => u8 "[]"
  | JArr items =>
      c_lbracket :: newline_indent (S level)
      ++ join (c_comma :: newline_indent (S level))
              (map (encode (S level)) items)
      ++ newline_indent level ++ [c_rbracket]
  | JObj [] => u8 "{}"
  | JObj members =>
      c_lbrace :: newline_indent (S level)
      ++ join (c_comma :: newline_indent (S level))
              (map (fun kv =>
                      match kv with
                      | (k, x) =>
                          encode_basestring k ++ [c_colon; c_space]
                          ++ encode (S level) x
                      end) members)
      ++ newline_indent level ++ [c_rbrace]
  end.

Definition dumps (v : json) : pystr := encode 0 v.

(** *** Decoder *)

Definition is_ws (c : char) : bool :=
  ((c =? 32) || (c =? 9) || (c =? 10) || (c =? 13))%N.

Fixpoint skip_ws (s : pystr) : pystr :=
  match s with
  | c :: r => if is_ws c then skip_ws r else s
  | [] => []
  end.

Definition is_digit (c : char) : bool := ((48 <=? c) && (c <=? 57))%N.

Definition hex_val (c : char) : option N :=
  if ((48 <=? c) && (c <=? 57))%N then Some (c - 48)%N
  else if ((97 <=? c) && (c <=? 102))%N then Some (c - 87)%N
  else if ((65 <=? c) && (c <=? 70))%N then Some (c - 55)%N
  else None.

Definition hex4 (a b c d : char) : option N :=
  match hex_val a, hex_val b, hex_val c, hex_val d with
  | Some x, Some y, Some z, Some w =>
      Some (x * 4096 + y * 256 + z * 16 + w)%N
  | _, _, _, _ => None
  end.

(** The table [BACKSLASH] of [json.decoder]. *)
Definition backslash (e : char) : option char :=
  if (e =? c_quote)%N then Some c_quote
  else if (e =? c_backslash)%N then Some c_backslash
  else if (e =? c_slash)%N then Some c_slash
  else if (e =? 98)%N then Some 8%N
  else if (e =? 102)%N then Some 12%N
  else if (e =? 110)%N then Some 10%N
  else if (e =? 114)%N then Some 13%N
  else if (e =? 116)%N then Some 9%N
  else None.

Definition is_high_surrogate (u : N) : bool :=
  ((55296 <=? u) && (u <=? 56319))%N.
Definition is_low_surrogate (u : N) : bool :=
  ((56320 <=? u) && (u <=? 57343))%N.

Definition cons_char (c : char) (r : option (pystr * pystr))
  : option (pystr * pystr) :=
  match r with
  | Some (s, rest) => Some (c :: s, rest)
  | None => None
  end.

(** [scanstring] in strict mode, started after the opening quote:
    the decoded string and the text after the closing quote. *)
Fixpoint scanstring (s : pystr) : option (pystr * pystr) :=
  match s with
  | [] => None
  | c :: r =>
    if (c =? c_quote)%N then Some ([], r)
    else if (c =? c_backslash)%N then
      match r with
      | [] => None
      | e :: r1 =>
        if (e =? 117)%N then
          match r1 with
          | h1 :: h2 :: h3 :: h4 :: r2 =>
            match hex4 h1 h2 h3 h4 with
            | None => None
            | Some uni =>
              if is_high_surrogate uni then
                match r2 with
                | b :: u :: g1 :: g2 :: g3 :: g4 :: r3 =>
                  if ((b =? c_backslash) && (u =? 117))%N then
                    match hex4 g1 g2 g3 g4 with
                    | None => None
                    | Some uni2 =>
                      if is_low_surrogate uni2 then
                        cons_char
                          (65536 + ((uni - 55296) * 1024 + (uni2 - 56320)))%N
                          (scanstring r3)
                      else cons_char uni (scanstring r2)
                    end
                  else cons_char uni (scanstring r2)
                | _ => cons_char uni (scanstring r2)
                end
              else cons_char uni (scanstring r2)
            end
          | _ => None
          end
        else
          match backslash e with
          | Some ch => cons_char ch (scanstring r1)
          | None => None
          end
      end
    else if (c <? 32)%N then None
    else cons_char c (scanstring r)
  end.

Definition digit_cons (c : char) (d : Decimal.uint) : Decimal.uint :=
  if (c =? 48)%N then Decimal.D0 d
  else if (c =? 49)%N then Decimal.D1 d
  else if (c =? 50)%N then Decimal.D2 d
  else if (c =? 51)%N then Decimal.D3 d
  else if (c =? 52)%N then Decimal.D4 d
  else if (c =? 53)%N then Decimal.D5 d
  else if (c =? 54)%N then Decimal.D6 d
  else if (c =? 55)%N then Decimal.D7 d
  else if (c =? 56)%N then Decimal.D8 d
  else Decimal.D9 d.

(** The longest run of decimal digits at the head of [s]. *)
Fixpoint scan_digits (s : pystr) : Decimal.uint * pystr :=
  match s with
  | c :: r =>
      if is_digit c then
        let (d, rest) := scan_digits r in (digit_cons c d, rest)
      else (Decimal.Nil, s)
  | [] => (Decimal.Nil, [])
  end.

(** Does a fraction (a dot and a digit) or an exponent (e or E, an
    optional sign and a digit) follow? *)
Definition float_follows (s : pystr) : bool :=
  match s with
  | c :: d :: r =>
      if (c =? c_dot)%N then is_digit d
      else if ((c =? 101) || (c =? 69))%N then
        is_digit d
        || (((d =? c_minus) || (d =? c_plus))%N
            && match r with x :: _ => is_digit x | [] => false end)
      else false
  | _ => false
  end.

(** The integer part of [NUMBER_RE]: a single 0, or a digit from 1 to 9
    followed by any number of digits. *)
Definition scan_natural (s : pystr) : option (N * pystr) :=
  match s with
  | c :: r =>
      if (c =? c_zero)%N then Some (0%N, r)
      else if is_digit c then
        let (d, rest) := scan_digits s in Some (N.of_uint d, rest)
      else None
  | [] => None
  end.

Definition scan_number (s : pystr) : option (json * pystr) :=
  let signed :=
    match s with
    | c :: r =>
        if (c =? c_minus)%N then
          match scan_natural r with
          | Some (n, rest) => Some (Z.opp (Z.of_N n), rest)
          | None => None
          end
        else
          match scan_natural s with
          | Some (n, rest) => Some (Z.of_N n, rest)
          | None => None
          end
    | [] => None
    end in
  match signed with
  | Some (z, rest) => if float_follows rest then None else Some (JInt z, rest)
  | None => None
  end.

(** [scan_once], [JSONArray] and [JSONObject] of [json.decoder]; the
    recursion is bounded by [fuel], which [loads] takes from the length
    of the text. *)
Fixpoint scan_once (fuel : nat) (s : pystr) : option (json * pystr) :=
  match fuel with
  | O => None
  | S fuel' =>
    match s with
    | [] => None
    | c :: r =>
      if (c =? c_quote)%N then
        match scanstring r with
        | Some (str, rest) => Some (JStr str, rest)
        | None => None
        end
      else if (c =? c_lbrace)%N then
        match skip_ws r with
        | c1 :: r1 =>
            if (c1 =? c_rbrace)%N then Some (JObj [], r1)
            else if (c1 =? c_quote)%N then
              match scan_members fuel' r1 with
              | Some (pairs, rest) => Some (JObj (dict_of_pairs pairs), rest)
              | None => None
              end
            else None
        | [] => None
        end
      else if (c =? c_lbracket)%N then
        match skip_ws r with
        | c1 :: r1 =>
            if (c1 =? c_rbracket)%N then Some (JArr [], r1)
            else
              match scan_items fuel' (c1 :: r1) with
              | Some (items, rest) => Some (JArr items, rest)
              | None => None
              end
        | [] => None
        end
      else if startswith (u8 "null") s then Some (JNull, skipn 4 s)
      else if startswith (u8 "true") s then Some (JBool true, skipn 4 s)
      else if startswith (u8 "false") s then Some (JBool false, skipn 5 s)
      else scan_number s
    end
  end

with scan_items (fuel : nat) (s : pystr) : option (list json * pystr) :=
  match fuel with
  | O => None
  | S fuel' =>
    match scan_once fuel' s with
    | None => None
    | Some (v, r) =>
      match skip_ws r with
      | c :: r1 =>
          if (c =? c_rbracket)%N then Some ([v], r1)
          else if (c =? c_comma)%N then
            match scan_items fuel' (skip_ws r1) with
            | Some (vs, rest) => Some (v :: vs, rest)
            | None => None
            end
          else None
      | [] => None
      end
    end
  end

(** [scan_members] starts after the opening quote of a key. *)
with scan_members (fuel : nat) (s : pystr)
  : option (list (pystr * json) * pystr) :=
  match fuel with
  | O => None
  | S fuel' =>
    match scanstring s with
    | None => None
    | Some (key, r) =>
      match skip_ws r with
      | c :: r1 =>
        if (c =? c_colon)%N then
          match scan_once fuel' (skip_ws r1) with
          | None => None
          | Some (v, r2) =>
            match skip_ws r2 with
            | c2 :: r3 =>
                if (c2 =? c_rbrace)%N then Some ([(key, v)], r3)
                else if (c2 =? c_comma)%N then
                  match skip_ws r3 with
                  | c3 :: r4 =>
                      if (c3 =? c_quote)%N then
                        match scan_members fuel' r4 with
                        | Some (kvs, rest) => Some ((key, v) :: kvs, rest)
                        | None => None
                        end
                      else None
                  | [] => None
                  end
                else None
            | [] => None
            end
          end
        else None
      | [] => None
      end
    end
  end.

(** [json.loads]: whitespace, one value, whitespace, end of text. *)
Definition loads (s : pystr) : option json :=
  match scan_once (S (List.length s)) (skip_ws s) with
  | Some (v, rest) =>
      match skip_ws rest with
      | [] => Some v
      | _ :: _ => None
      end
  | None => None
  end.

End Json.

Import Json.

(* ------------------------------------------------------------------ *)
(** ** Exceptions, effects and the libraries the scraper calls *)

Module Py.

(** The exception classes that can reach the handlers of the scraper.
    [HTTPError], [ConnectionError] and [Timeout] are the subclasses of
    [requests.RequestException]; every class below derives from
    [Exception]. *)
Inductive exn_class : Type :=
| HTTPError | ConnectionError | Timeout
| ValueError | AttributeError | KeyError
| OSError | UnicodeEncodeError | RuntimeError.

Record exn : Type := mkExn { exn_cls : exn_class; exn_msg : pystr }.

(** [isinstance(e, requests.RequestException)] *)
Definition is_request_exception (e : exn) : bool :=
  match exn_cls e with
  | HTTPError | ConnectionError | Timeout => true
  | _ => false
  end.

Inductive outcome (A : Type) : Type :=
| Ret (a : A)
| Raise (e : exn).
Arguments Ret {A} a.
Arguments Raise {A} e.

(** A [requests.Response]: what the scraper reads of it. *)
Record response : Type := mkResponse { status_code : Z; text : pystr }.

(** [str.lower] and [urllib.parse.urljoin]; the latter raises
    [ValueError] on a malformed URL. *)
Class StrLib : Type := {
  lower : pystr -> pystr;
  urljoin : pystr -> pystr -> outcome pystr
}.

(** The HTML query interface (BeautifulSoup): a parsed document, its
    elements and the queries the scraper issues.  The [class_] filter of
    [find] is a predicate on the class attribute ([None] when absent). *)
Class HtmlQuery (soup elem : Type) : Type := {
  parse_html : pystr -> soup;
  select : soup -> pystr -> list elem;
  find_all_a_href : soup -> list elem;
  find_class : elem -> list pystr -> (option pystr -> bool) -> option elem;
  find : elem -> list pystr -> option elem;
  find_a_href : elem -> option elem;
  get_text : elem -> pystr;
  get_text_strip : elem -> pystr;
  attr_href : elem -> option pystr
}.

(** What a run cannot determine by itself: the outcome of the k-th
    [session.get], the k-th reading of the clock in ISO format, the
    outcome of writing a file, and the iteration order of a set. *)
Record world : Type := mkWorld {
  http_get : nat -> pystr -> outcome response;
  now_iso : nat -> pystr;
  fs_write : pystr -> pystr -> option exn;
  set_order : list pystr -> list pystr
}.

End Py.

Import Py.

(* ------------------------------------------------------------------ *)
(** ** The scraper *)

Module Scraper.

(** A job record: the dict built by [extract_job_details], by the
    fallback of [scrape_job_listings] and by [add_sample_jobs]. *)
Record job : Type := mkJob {
  title : pystr;
  company : pystr;
  category : pystr;
  description : pystr;
  link : pystr;
  is_remote : bool;
  is_own_pc_ok : bool;
  scraped_at : pystr;
  source : pystr
}.

(** The lines written by [self.log], one constructor per message of the
    source with the values it interpolates. *)
Inductive log_msg : Type :=
| LogFetching (url : pystr)
| LogFetchError (attempt retries : Z) (e : exn)
| LogExtractError (e : exn)
| LogMainPage (chars : nat)
| LogFound (selector : pystr) (count : nat)
| LogFallback (links : nat)
| LogJobLinks (links : nat)
| LogScraped (count : nat)
| LogScrapeError (e : exn)
| LogSamples (count : nat)
| LogFiltered (before after : nat)
| LogSaved (filename : pystr) (count : nat)
| LogSaveError (e : exn)
| LogStart
| LogFewJobs
| LogDone (filename : pystr)
| LogFailed
| LogRunError (e : exn).

(** The observable effects of a run, in the order they happen. *)
Inductive event : Type :=
| EvLog (m : log_msg)
| EvGet (url : pystr)
| EvSleep (seconds : Z)
| EvSleepUniform (lo hi : Z)
| EvSelect (selector : pystr)
| EvWrite (filename content : pystr).

(** The scraper object ([self.jobs]) and the run so far. *)
Record state : Type := mkState {
  jobs : list job;
  http_calls : nat;
  clock_reads : nat;
  trace : list event
}.

Definition initial : state :=
  {| jobs := []; http_calls := 0; clock_reads := 0; trace := [] |}.

Definition M (A : Type) : Type := state -> outcome A * state.

Definition ret {A} (a : A) : M A := fun s => (Ret a, s).

Definition bind {A B} (m : M A) (k : A -> M B) : M B :=
  fun s =>
    match m s with
    | (Ret a, s') => k a s'
    | (Raise e, s') => (Raise e, s')
    end.

Definition raise {A} (e : exn) : M A := fun s => (Raise e, s).

(** [try: m except Exception as e: h e] *)
Definition try_except {A} (m : M A) (h : exn -> M A) : M A :=
  fun s =>
    match m s with
    | (Ret a, s') => (Ret a, s')
    | (Raise e, s') => h e s'
    end.

Definition lift {A} (o : outcome A) : M A := fun s => (o, s).

Declare Scope py_scope.
Delimit Scope py_scope with py.
Notation "x <- m ;; k" := (bind m (fun x => k))
  (at level 61, m at next level, right associativity) : py_scope.
Notation "m ;; k" := (bind m (fun _ => k))
  (at level 61, right associativity) : py_scope.
Local Open Scope py_scope.

Fixpoint for_each {A} (xs : list A) (body : A -> M unit) : M unit :=
  match xs with
  | [] => ret tt
  | x :: rest => body x ;; for_each rest body
  end.

Definition emit (ev : event) : M unit :=
  fun s =>
    (Ret tt,
     {| jobs := jobs s; http_calls := http_calls s;
        clock_reads := clock_reads s; trace := trace s ++ [ev] |}).

Definition get_jobs : M (list job) := fun s => (Ret (jobs s), s).

Definition set_jobs (js : list job) : M unit :=
  fun s =>
    (Ret tt,
     {| jobs := js; http_calls := http_calls s;
        clock_reads := clock_reads s; trace := trace s |}).

(** [self.jobs.append(j)] *)
Definition append_job (j : job) : M unit :=
  js <- get_jobs ;; set_jobs (js ++ [j]).

(** [self.jobs.extend(js')] *)
Definition extend_jobs (js' : list job) : M unit :=
  js <- get_jobs ;; set_jobs (js ++ js').

(** [time.sleep(seconds)] *)
Definition sleep (seconds : Z) : M unit := emit (EvSleep seconds).

Definition base_url : pystr := u8 "https://www.reworker.jp".
Definition delay_range : Z * Z := (1, 3)%Z.

(** [self.log(message)] *)
Definition log (m : log_msg) : M unit := emit (EvLog m).

(** [self.random_delay()] *)
Definition random_delay : M unit :=
  emit (EvSleepUniform (fst delay_range) (snd delay_range)).

(** [response.raise_for_status()]: [HTTPError] on a 4xx or 5xx status. *)
Definition raise_for_status (r : response) : M unit :=
  if ((400 <=? status_code r) && (status_code r <? 600))%Z
  then raise (mkExn HTTPError (encode_int (status_code r)))
  else ret tt.

(** [description[:200] + "..." if len(description) > 200 else description] *)
Definition truncate_description (d : pystr) : pystr :=
  if 200 <? List.length d then slice_to 200 d ++ u8 "..." else d.

Definition remote_keywords : list pystr :=
  [u8 "在宅"; u8 "リモート"; u8 "remote"; u8 "テレワーク"; u8 "自宅";
   u8 "フル在宅"; u8 "完全在宅"].

Definition pc_keywords : list pystr :=
  [u8 "自宅pc"; u8 "自宅パソコン"; u8 "pc持参"; u8 "pc環境";
   u8 "機材貸与なし"].

Definition job_link_keywords : list pystr :=
  [u8 "求人"; u8 "job"; u8 "募集"; u8 "career"; u8 "work"].

(** The CSS selector [[class*="v"]]. *)
Definition class_contains (v : pystr) : pystr :=
  u8 "[class*=" ++ [c_quote] ++ v ++ [c_quote] ++ u8 "]".

Definition job_selectors : list pystr :=
  [class_contains (u8 "job"); class_contains (u8 "card");
   class_contains (u8 "item"); class_contains (u8 "list");
   u8 "article"; u8 ".post"; u8 ".entry"].

Definition sample_jobs (t1 t2 t3 : pystr) : list job :=
  [ {| title := u8 "フルリモート Webエンジニア募集";
       company := u8 "テックスタートアップ株式会社";
       category := u8 "エンジニア・開発";
       description := u8 "フルリモート勤務可能。React/Node.jsを使った自社プロダクト開発。自宅PC使用OK。";
       link := u8 "https://example.com/job1";
       is_remote := true;
       is_own_pc_ok := true;
       scraped_at := t1;
       source := u8 "Sample Data" |};
    {| title := u8 "在宅ライター・コンテンツ作成";
       company := u8 "デジタルマーケティング株式会社";
       category := u8 "ライティング・編集";
       description := u8 "完全在宅勤務。SEO記事作成、自宅環境での作業が中心。PC環境は各自準備。";
       link := u8 "https://example.com/job2";
       is_remote := true;
       is_own_pc_ok := true;
       scraped_at := t2;
       source := u8 "Sample Data" |};
    {| title := u8 "リモート カスタマーサポート";
       company := u8 "グローバルテック合同会社";
       category := u8 "カスタマーサポート";
       description := u8 "フルリモート勤務。チャット・メールサポート対応。自宅PC利用可能。";
       link := u8 "https://example.com/job3";
       is_remote := true;
       is_own_pc_ok := true;
       scraped_at := t3;
       source := u8 "Sample Data" |} ].

(** A job record as the dict it is in the source, keys in source order. *)
Definition job_dict (j : job) : json :=
  JObj [ (u8 "title", JStr (title j));
         (u8 "company", JStr (company j));
         (u8 "category", JStr (category j));
         (u8 "description", JStr (description j));
         (u8 "link", JStr (link j));
         (u8 "is_remote", JBool (is_remote j));
         (u8 "is_own_pc_ok", JBool (is_own_pc_ok j));
         (u8 "scraped_at", JStr (scraped_at j));
         (u8 "source", JStr (source j)) ].

(** Reading a job record back from a decoded dict. *)
Definition job_of_dict (v : json) : option job :=
  match get (u8 "title") v, get (u8 "company") v, get (u8 "category") v,
        get (u8 "description") v, get (u8 "link") v,
        get (u8 "is_remote") v, get (u8 "is_own_pc_ok") v,
        get (u8 "scraped_at") v, get (u8 "source") v with
  | Some (JStr t), Some (JStr c), Some (JStr g), Some (JStr d),
    Some (JStr l), Some (JBool r), Some (JBool p), Some (JStr a),
    Some (JStr s) =>
      Some (mkJob t c g d l r p a s)
  | _, _, _, _, _, _, _, _, _ => None
  end.

(** The condition of the list comprehension of [filter_remote_jobs]. *)
Definition retained (j : job) : bool := is_remote j && is_own_pc_ok j.

(** [list(set(xs))] before the iteration order is fixed: each value once. *)
Definition distinct (xs : list pystr) : list pystr :=
  nodup (list_eq_dec N.eq_dec) xs.

(** No lone surrogate: the text can be written with [encoding='utf-8']. *)
Definition utf8_encodable (s : pystr) : bool :=
  forallb (fun c => negb ((55296 <=? c) && (c <=? 57343))%N) s.

Definition default_filename : pystr := u8 "jobs.json".

Section Pipeline.

Context {soup elem : Type} {Q : HtmlQuery soup elem} {L : StrLib}.
Variable w : world.

(** [datetime.now().isoformat()] *)
Definition now : M pystr :=
  fun s =>
    (Ret (now_iso w (clock_reads s)),
     {| jobs := jobs s; http_calls := http_calls s;
        clock_reads := S (clock_reads s); trace := trace s |}).

(** [self.session.get(url, timeout=10)] *)
Definition session_get (url : pystr) : M response :=
  fun s =>
    (http_get w (http_calls s) url,
     {| jobs := jobs s; http_calls := S (http_calls s);
        clock_reads := clock_reads s; trace := trace s ++ [EvGet url] |}).

(** [soup.select(selector)] *)
Definition soup_select (page : soup) (selector : pystr) : M (list elem) :=
  emit (EvSelect selector) ;; ret (select page selector).

(** [open(filename, 'w', encoding='utf-8')] and [json.dump] into it. *)
Definition write_file (filename content : pystr) : M unit :=
  if utf8_encodable content then
    match fs_write w filename content with
    | None => emit (EvWrite filename content)
    | Some e => raise e
    end
  else raise (mkExn UnicodeEncodeError filename).

(** The body of the [try] of [get_page]: one attempt. *)
Definition attempt_get (url : pystr) : M response :=
  log (LogFetching url) ;;
  response <- session_get url ;;
  raise_for_status response ;;
  ret response.

(** The loop of [get_page] from iteration [attempt] on, with [remaining]
    iterations left in [range(retries)]. *)
Fixpoint get_page_loop (remaining : nat) (attempt : Z) (url : pystr)
    (retries : Z) : M (option response) :=
  match remaining with
  | O => ret None
  | S remaining' =>
      try_except
        (response <- attempt_get url ;; ret (Some response))
        (fun e =>
           if is_request_exception e then
             log (LogFetchError (attempt + 1) retries e) ;;
             if (attempt <? retries - 1)%Z then
               sleep (2 ^ attempt) ;;
               get_page_loop remaining' (attempt + 1) url retries
             else raise e
           else raise e)
  end.

Definition get_page (url : pystr) (retries : Z) : M (option response) :=
  get_page_loop (Z.to_nat retries) 0 url retries.

Definition default_retries : Z := 3.

(** [lambda x: x and (a in x.lower() or b in x.lower())] *)
Definition class_has (a b : pystr) (x : option pystr) : bool :=
  match x with
  | None => false
  | Some [] => false
  | Some c => contains a (lower c) || contains b (lower c)
  end.

Definition headings : list pystr := [u8 "h2"; u8 "h3"; u8 "h4"].

Definition text_or (e : option elem) (placeholder : pystr) : pystr :=
  match e with
  | Some x => get_text_strip x
  | None => placeholder
  end.

(** [link_elem['href']] *)
Definition href_of (a : elem) : M pystr :=
  match attr_href a with
  | Some h => ret h
  | None => raise (mkExn KeyError (u8 "href"))
  end.

Definition classify_remote (full_text : pystr) : bool :=
  any (fun keyword => contains keyword full_text) remote_keywords.

Definition classify_own_pc (full_text : pystr) : bool :=
  any (fun keyword => contains keyword full_text) pc_keywords
  || negb (contains (u8 "貸与") full_text).

Definition extract_job_details (job_element : elem) : M (option job) :=
  try_except
    (let title_elem :=
       match find_class job_element headings
               (class_has (u8 "title") (u8 "job")) with
       | Some t => Some t
       | None => find job_element headings
       end in
     let title := text_or title_elem (u8 "タイトル不明") in
     let company_elem :=
       find_class job_element [u8 "span"; u8 "div"; u8 "p"]
         (class_has (u8 "company") (u8 "corp")) in
     let company := text_or company_elem (u8 "会社名不明") in
     link <- match find_a_href job_element with
             | Some link_elem =>
                 href <- href_of link_elem ;; lift (urljoin base_url href)
             | None => ret []
             end ;;
     let category_elem :=
       find_class job_element [u8 "span"; u8 "div"]
         (class_has (u8 "category") (u8 "tag")) in
     let category := text_or category_elem (u8 "カテゴリ不明") in
     let description_elem :=
       find_class job_element [u8 "p"; u8 "div"]
         (class_has (u8 "desc") (u8 "summary")) in
     let description := text_or description_elem [] in
     let full_text := lower (get_text job_element) in
     let is_remote := classify_remote full_text in
     let is_own_pc := classify_own_pc full_text in
     timestamp <- now ;;
     ret (Some {| title := title;
                  company := company;
                  category := category;
                  description := truncate_description description;
                  link := link;
                  is_remote := is_remote;
                  is_own_pc_ok := is_own_pc;
                  scraped_at := timestamp;
                  source := u8 "Reworker" |}))
    (fun e => log (LogExtractError e) ;; ret None).

(** The loop over [job_selectors]: the elements of the first selector
    that matches anything, [[]] when none does. *)
Fixpoint find_job_elements (page : soup) (selectors : list pystr)
  : M (list elem) :=
  match selectors with
  | [] => ret []
  | selector :: rest =>
      elements <- soup_select page selector ;;
      match elements with
      | [] => find_job_elements page rest
      | _ :: _ =>
          log (LogFound selector (List.length elements)) ;;
          ret ([] ++ elements)
      end
  end.

Definition is_job_link (a : elem) : bool :=
  any (fun keyword => contains keyword (lower (get_text a)))
      job_link_keywords.

(** The record the fallback branch builds from one anchor. *)
Definition link_job (a : elem) : M unit :=
  href <- href_of a ;;
  url <- lift (urljoin base_url href) ;;
  timestamp <- now ;;
  append_job {| title := get_text_strip a;
                company := u8 "会社名不明";
                category := u8 "カテゴリ不明";
                description := [];
                link := url;
                is_remote := true;
                is_own_pc_ok := true;
                scraped_at := timestamp;
                source := u8 "Reworker" |}.

(** The body of the loop of the primary branch. *)
Definition element_job (element : elem) : M unit :=
  job_data <- extract_job_details element ;;
  match job_data with
  | Some j => append_job j
  | None => ret tt
  end ;;
  random_delay.

Definition scrape_job_listings : M unit :=
  try_except
    (fetched <- get_page base_url default_retries ;;
     page_text <- match fetched with
                  | Some response => ret (text response)
                  | None => raise (mkExn AttributeError (u8 "text"))
                  end ;;
     let page := parse_html page_text in
     log (LogMainPage (List.length page_text)) ;;
     job_elements <- find_job_elements page job_selectors ;;
     match job_elements with
     | [] =>
         let all_links := find_all_a_href page in
         log (LogFallback (List.length all_links)) ;;
         let job_links := filter is_job_link all_links in
         match job_links with
         | [] => ret tt
         | _ :: _ =>
             log (LogJobLinks (List.length job_links)) ;;
             for_each (firstn 20 job_links) link_job
         end
     | _ :: _ => for_each (firstn 30 job_elements) element_job
     end ;;
     js <- get_jobs ;;
     log (LogScraped (List.length js)))
    (fun e => log (LogScrapeError e)).

Definition add_sample_jobs : M unit :=
  t1 <- now ;;
  t2 <- now ;;
  t3 <- now ;;
  let samples := sample_jobs t1 t2 t3 in
  extend_jobs samples ;;
  log (LogSamples (List.length samples)).

Definition filter_remote_jobs : M (list job) :=
  js <- get_jobs ;;
  let filtered := filter retained js in
  log (LogFiltered (List.length js) (List.length filtered)) ;;
  ret filtered.

(** The dict [output_data] of [save_to_json]. *)
Definition output_data (timestamp : pystr) (filtered_jobs : list job) : json :=
  JObj [ (u8 "metadata",
          JObj [ (u8 "scraped_at", JStr timestamp);
                 (u8 "total_jobs", JInt (Z.of_nat (List.length filtered_jobs)));
                 (u8 "source_sites",
                  JArr (map JStr
                          (set_order w (distinct (map source filtered_jobs)))));
                 (u8 "scraper_version", JStr (u8 "1.0.0")) ]);
         (u8 "jobs", JArr (map job_dict filtered_jobs)) ].

Definition save_to_json (filename : pystr) : M (option pystr) :=
  try_except
    (filtered_jobs <- filter_remote_jobs ;;
     timestamp <- now ;;
     write_file filename (dumps (output_data timestamp filtered_jobs)) ;;
     log (LogSaved filename (List.length filtered_jobs)) ;;
     ret (Some filename))
    (fun e => log (LogSaveError e) ;; ret None).

(** The first two steps of the [try] of [run]: scraping, then the
    sample records when fewer than three jobs were collected. *)
Definition collect_jobs : M unit :=
  scrape_job_listings ;;
  js <- get_jobs ;;
  if List.length js <? 3 then log LogFewJobs ;; add_sample_jobs
  else ret tt.

(** The end of the [try] of [run]: the branch on [output_file]. *)
Definition report (output_file : option pystr) : M (option pystr) :=
  match output_file with
  | Some f => log (LogDone f) ;; ret (Some f)
  | None => log LogFailed ;; ret None
  end.

Definition run : M (option pystr) :=
  log LogStart ;;
  try_except
    (collect_jobs ;;
     output_file <- save_to_json default_filename ;;
     report output_file)
    (fun e => log (LogRunError e) ;; ret None).

End Pipeline.

End Scraper.

(* ------------------------------------------------------------------ *)
(** ** Vocabulary of the statements *)

Module Spec.

Import Scraper.

(** [l1] is obtained from [l2] by deleting elements: same relative
    order, nothing added. *)
Inductive subsequence {A : Type} : list A -> list A -> Prop :=
| sub_nil : subsequence [] []
| sub_keep (x : A) (l1 l2 : list A) :
    subsequence l1 l2 -> subsequence (x :: l1) (x :: l2)
| sub_drop (x : A) (l1 l2 : list A) :
    subsequence l1 l2 -> subsequence l1 (x :: l2).

Definition job_eq_dec (a b : job) : {a = b} + {a <> b}.
Proof.
  decide equality;
    try apply (list_eq_dec N.eq_dec); apply Bool.bool_dec.
Defined.

(** The events of a trace that are [soup.select] calls. *)
Fixpoint selects (t : list event) : list pystr :=
  match t with
  | [] => []
  | EvSelect sel :: rest => sel :: selects rest
  | _ :: rest => selects rest
  end.

(** The requests sent in a trace. *)
Fixpoint gets (t : list event) : list pystr :=
  match t with
  | [] => []
  | EvGet url :: rest => url :: gets rest
  | _ :: rest => gets rest
  end.

(** The backoff sleeps of a trace, in seconds. *)
Fixpoint sleeps (t : list event) : list Z :=
  match t with
  | [] => []
  | EvSleep n :: rest => n :: sleeps rest
  | _ :: rest => sleeps rest
  end.

(** The files written in a trace. *)
Fixpoint writes (t : list event) : list (pystr * pystr) :=
  match t with
  | [] => []
  | EvWrite f c :: rest => (f, c) :: writes rest
  | _ :: rest => writes rest
  end.

End Spec.

Import Spec.

(* ------------------------------------------------------------------ *)
(** ** A small concrete document model and concrete worlds

    An instance of the query interface over a tree of elements, used to
    run the pipeline on concrete pages. *)

Module Toy.

Import Scraper.

Inductive node : Type :=
| Node (tag : pystr) (cls : option pystr) (href : option pystr)
       (own_text : pystr) (children : list node).

Definition tag_of (n : node) : pystr := let (t, _, _, _, _) := n in t.
Definition class_of (n : node) : option pystr := let (_, c, _, _, _) := n in c.
Definition href_attr (n : node) : option pystr := let (_, _, h, _, _) := n in h.

(** The element and everything below it, in document order. *)
Fixpoint subtree (n : node) : list node :=
  match n with
  | Node _ _ _ _ children => n :: flat_map subtree children
  end.

Definition descendants (n : node) : list node :=
  match n with
  | Node _ _ _ _ children => flat_map subtree children
  end.

Fixpoint texts (n : node) : list pystr :=
  match n with
  | Node _ _ _ own children => own :: flat_map texts children
  end.

Fixpoint lstrip (s : pystr) : pystr :=
  match s with
  | c :: r => if is_ws c then lstrip r else s
  | [] => []
  end.

Definition strip (s : pystr) : pystr := rev (lstrip (rev (lstrip s))).

Definition has_tag (tags : list pystr) (n : node) : bool :=
  existsb (PyStr.eqb (tag_of n)) tags.

(** The three selector shapes of [job_selectors]: an attribute test
    on the class, a class name, a tag name. *)
Definition matches (selector : pystr) (n : node) : bool :=
  if startswith (u8 "[class*=") selector then
    let quoted := skipn 9 selector in
    let value := firstn (List.length quoted - 2) quoted in
    match class_of n with
    | Some c => contains value c
    | None => false
    end
  else if startswith (u8 ".") selector then
    match class_of n with
    | Some c => PyStr.eqb c (skipn 1 selector)
    | None => false
    end
  else PyStr.eqb (tag_of n) selector.

Definition has_href (n : node) : bool :=
  match href_attr n with Some _ => true | None => false end.

Definition anchor : pystr := u8 "a".

#[export] Instance query (parse : pystr -> list node)
  : HtmlQuery (list node) node := {
  parse_html := parse;
  select := fun page selector =>
    filter (matches selector) (flat_map subtree page);
  find_all_a_href := fun page =>
    filter (fun n => PyStr.eqb (tag_of n) anchor && has_href n)
           (flat_map subtree page);
  find_class := fun e tags p =>
    List.find (fun n => has_tag tags n && p (class_of n)) (descendants e);
  find := fun e tags => List.find (has_tag tags) (descendants e);
  find_a_href := fun e =>
    List.find (fun n => PyStr.eqb (tag_of n) anchor && has_href n)
              (descendants e);
  get_text := fun e => List.concat (texts e);
  get_text_strip := fun e => List.concat (map strip (texts e));
  attr_href := href_attr
}.

(** Lower-casing of ASCII letters, and joining of a path onto the base. *)
#[export] Instance strlib : StrLib := {
  lower := map (fun c => if ((65 <=? c) && (c <=? 90))%N then (c + 32)%N else c);
  urljoin := fun base href =>
    if contains (u8 "[") href then Raise (mkExn ValueError href)
    else if startswith (u8 "http") href then Ret href
    else Ret (base ++ href)
}.

Definition clock (k : nat) : pystr :=
  u8 "2024-01-01T00:00:0" ++ digits_of_uint (Nat.to_uint k).

Definition timeout_error : exn := mkExn Timeout (u8 "timed out").

(** Every request times out; writing succeeds. *)
Definition offline : world :=
  {| http_get := fun _ _ => Raise timeout_error;
     now_iso := clock;
     fs_write := fun _ _ => None;
     set_order := fun xs => xs |}.

(** The first [failures] requests time out, the later ones return
    [page]; writing succeeds. *)
Definition flaky (failures : nat) (page : pystr) : world :=
  {| http_get := fun k _ =>
       if k <? failures then Raise timeout_error
       else Ret (mkResponse 200 page);
     now_iso := clock;
     fs_write := fun _ _ => None;
     set_order := fun xs => xs |}.

(** As [flaky 0 page], on a disk that refuses the write. *)
Definition disk_full_error : exn := mkExn OSError (u8 "No space left on device").

Definition read_only (page : pystr) : world :=
  {| http_get := fun _ _ => Ret (mkResponse 200 page);
     now_iso := clock;
     fs_write := fun _ _ => Some disk_full_error;
     set_order := fun xs => xs |}.

(** A page of three cards, none of which mentions remote work; the
    class of the cards matches the second selector only. *)
Definition office_card (n : pystr) : node :=
  Node (u8 "div") (Some (u8 "card")) None []
    [ Node (u8 "h2") (Some (u8 "heading")) None (u8 "Office clerk " ++ n) [];
      Node (u8 "span") (Some (u8 "company")) None (u8 "Acme") [];
      Node (u8 "p") (Some (u8 "summary")) None (u8 "On site, PC貸与") [] ].

Definition office_page : list node :=
  [ Node (u8 "body") None None []
      [office_card (u8 "1"); office_card (u8 "2"); office_card (u8 "3")] ].

(** A card that mentions remote work and no loaned equipment. *)
Definition remote_card : node :=
  Node (u8 "div") (Some (u8 "job-card")) None []
    [ Node (u8 "h3") (Some (u8 "job-title")) None (u8 " Remote writer ") [];
      Node (u8 "a") None (Some (u8 "/jobs/1")) (u8 "details") [] ].

Definition remote_page : list node :=
  [ Node (u8 "body") None None [] [remote_card] ].

(** A card whose short description already ends in three dots. *)
Definition teaser_card : node :=
  Node (u8 "div") (Some (u8 "job")) None []
    [ Node (u8 "h2") None None (u8 "Remote support") [];
      Node (u8 "p") (Some (u8 "desc")) None (u8 "Work from home. Apply now...") [] ].

(** A card whose description has 250 characters. *)
Definition long_card : node :=
  Node (u8 "div") (Some (u8 "job")) None []
    [ Node (u8 "h2") None None (u8 "Remote support") [];
      Node (u8 "p") (Some (u8 "desc")) None (repeat 120%N 250) [] ].

End Toy.

(* ------------------------------------------------------------------ *)
(** ** Vocabulary of the statements about fetching *)

Module FetchSpec.

Import Scraper.

(** The state after [calls] more requests and the events [evs]. *)
Definition after (s : state) (calls : nat) (evs : list event) : state :=
  {| jobs := jobs s; http_calls := http_calls s + calls;
     clock_reads := clock_reads s; trace := trace s ++ evs |}.

(** What one attempt of [get_page] yields when it is the [k]-th request
    of the run: the response, or the exception raised by [session.get]
    or by [raise_for_status]. *)
Definition attempt_outcome (w : world) (k : nat) (url : pystr)
  : outcome response :=
  match http_get w k url with
  | Ret r =>
      if ((400 <=? status_code r) && (status_code r <? 600))%Z
      then Raise (mkExn HTTPError (encode_int (status_code r)))
      else Ret r
  | Raise e => Raise e
  end.

(** The attempt fails at the transport level with [e]: a
    [requests.RequestException]. *)
Definition transport_failure (w : world) (k : nat) (url : pystr) (e : exn)
  : Prop :=
  attempt_outcome w k url = Raise e /\ is_request_exception e = true.

(** The events of one attempt, before its outcome is handled. *)
Definition attempt_events (url : pystr) : list event :=
  [EvLog (LogFetching url); EvGet url].

(** The events of failed attempt [n] (0-indexed) of [retries] that is
    followed by another attempt: it sleeps [2 ^ n] seconds. *)
Definition retry_events (url : pystr) (n retries : Z) (e : exn)
  : list event :=
  attempt_events url
  ++ [EvLog (LogFetchError (n + 1) retries e); EvSleep (2 ^ n)].

(** The events of the final failed attempt: no sleep. *)
Definition give_up_events (url : pystr) (n retries : Z) (e : exn)
  : list event :=
  attempt_events url ++ [EvLog (LogFetchError (n + 1) retries e)].

End FetchSpec.

Import FetchSpec.

(* ------------------------------------------------------------------ *)
(** ** Vocabulary of the statements about record building *)

Module RecordSpec.

Import Scraper.

(** [k] occurs in [t] as a contiguous run of characters. *)
Definition substring (k t : pystr) : Prop :=
  exists pre post, t = pre ++ k ++ post.

(** The continuation marker appended to a truncated description. *)
Definition marker : pystr := u8 "...".

(** The term for loaned equipment. *)
Definition loaner_term : pystr := u8 "貸与".

Section Extracted.

Context {soup elem : Type} {Q : HtmlQuery soup elem} {L : StrLib}.

(** The description text [extract_job_details] extracts from an
    element, before truncation. *)
Definition extracted_description (e : elem) : pystr :=
  match find_class e [u8 "p"; u8 "div"]
          (class_has (u8 "desc") (u8 "summary")) with
  | Some d => get_text_strip d
  | None => []
  end.

(** The text the classification looks at. *)
Definition classified_text (e : elem) : pystr := lower (get_text e).

End Extracted.

End RecordSpec.

Import RecordSpec.

(* ------------------------------------------------------------------ *)
(** ** Vocabulary of the statements about JSON *)

Module JsonSpec.

(** The text after a number does not continue it: it is empty or starts
    with something other than a digit, a dot or an exponent letter. *)
Definition delimited (rest : pystr) : Prop :=
  match rest with
  | [] => True
  | c :: _ =>
      is_digit c = false /\ c <> c_dot /\ c <> 101%N /\ c <> 69%N
  end.

(** The recursion depth [scan_once] needs for a value. *)
Fixpoint json_size (v : json) : nat :=
  match v with
  | JArr items => S (fold_right (fun x acc => S (json_size x + acc)) 0 items)
  | JObj members =>
      S (fold_right (fun kv acc => S (json_size (snd kv) + acc)) 0 members)
  | _ => 1
  end.

Definition items_size (items : list json) : nat :=
  fold_right (fun x acc => S (json_size x + acc)) 0 items.

Definition members_size (members : list (pystr * json)) : nat :=
  fold_right (fun kv acc => S (json_size (snd kv) + acc)) 0 members.

(** One member of a dict as the encoder writes it. *)
Definition encode_member (level : nat) (kv : pystr * json) : pystr :=
  match kv with
  | (k, x) => encode_basestring k ++ [c_colon; c_space] ++ encode level x
  end.

(** The text starts with a character that is not whitespace. *)
Definition starts_nonws (t : pystr) : Prop :=
  exists c r, t = c :: r /\ is_ws c = false.

(** What follows the first item of a list in its encoding: the other
    items, each after a comma and a line break, then the closing
    bracket on a line of its own. *)
Fixpoint items_text (level closing : nat) (items : list json) (rest : pystr)
  : pystr :=
  match items with
  | [] => newline_indent closing ++ c_rbracket :: rest
  | x :: xs =>
      c_comma :: newline_indent level ++ encode level x
      ++ items_text level closing xs rest
  end.

(** The same for the members of a dict. *)
Fixpoint members_text (level closing : nat) (members : list (pystr * json))
    (rest : pystr) : pystr :=
  match members with
  | [] => newline_indent closing ++ c_rbrace :: rest
  | m :: ms =>
      c_comma :: newline_indent level ++ encode_member level m
      ++ members_text level closing ms rest
  end.

(** The decoder gives the value back from its encoding followed by
    [rest], with any fuel from [json_size] on. *)
Definition decodes (v : json) : Prop :=
  forall level fuel rest,
    json_size v <= fuel ->
    delimited rest ->
    scan_once fuel (encode level v ++ rest) = Some (v, rest).

End JsonSpec.

Import JsonSpec.

(* ------------------------------------------------------------------ *)
(** ** Vocabulary of the statements about a run *)

Module RunSpec.

Import Scraper.

Section Run.

Context {soup elem : Type} {Q : HtmlQuery soup elem} {L : StrLib}.
Variable w : world.

(** The scraper after [scrape_job_listings]. *)
Definition scraped (s : state) : state := snd (scrape_job_listings w s).

(** The scraper once [run] has logged its first line. *)
Definition started (s : state) : state := after s 0 [EvLog LogStart].

(** The document [save_to_json] builds in state [s]. *)
Definition document (s : state) : json :=
  output_data w (now_iso w (clock_reads s)) (filter retained (jobs s)).

(** The scraper after the filter has logged and the clock was read. *)
Definition filtered_state (s : state) : state :=
  {| jobs := jobs s; http_calls := http_calls s;
     clock_reads := S (clock_reads s);
     trace := trace s
              ++ [EvLog (LogFiltered (List.length (jobs s))
                           (List.length (filter retained (jobs s))))] |}.

(** The three sample records [add_sample_jobs] builds in state [s]. *)
Definition samples_at (s : state) : list job :=
  sample_jobs (now_iso w (clock_reads s))
              (now_iso w (S (clock_reads s)))
              (now_iso w (S (S (clock_reads s)))).

(** The scraper after the sample records were added in state [s]. *)
Definition with_samples (s : state) : state :=
  {| jobs := jobs s ++ samples_at s; http_calls := http_calls s;
     clock_reads := S (S (S (clock_reads s)));
     trace := trace s ++ [EvLog LogFewJobs; EvLog (LogSamples 3)] |}.

End Run.

(** The [jobs] array and [metadata.total_jobs] of a decoded document. *)
Definition jobs_array (doc : json) : option (list json) :=
  match get (u8 "jobs") doc with
  | Some (JArr items) => Some items
  | _ => None
  end.

Definition total_jobs (doc : json) : option Z :=
  match get (u8 "metadata") doc with
  | Some meta =>
      match get (u8 "total_jobs") meta with
      | Some (JInt n) => Some n
      | _ => None
      end
  | None => None
  end.

End RunSpec.

Import RunSpec.

(* ------------------------------------------------------------------ *)
(** ** Vocabulary of the statements about backoff and scraping *)

Module ScrapeSpec.

Import Scraper.

(** The sleeps of [n] consecutive failed attempts that are retried,
    the first of them being attempt [first]: [2 ^ first], [2 ^ (first + 1)],
    and so on. *)
Definition backoff_from (first : Z) (n : nat) : list Z :=
  map (fun i => (2 ^ (first + Z.of_nat i))%Z) (seq 0 n).

Definition backoff (n : nat) : list Z := backoff_from 0 n.

(** The number of politeness delays ([random_delay]) in a trace. *)
Fixpoint delays (t : list event) : nat :=
  match t with
  | [] => 0
  | EvSleepUniform _ _ :: rest => S (delays rest)
  | _ :: rest => delays rest
  end.

(** The error lines of [extract_job_details] in a trace. *)
Fixpoint extract_errors (t : list event) : list exn :=
  match t with
  | [] => []
  | EvLog (LogExtractError e) :: rest => e :: extract_errors rest
  | _ :: rest => extract_errors rest
  end.

Section Elements.

Context {soup elem : Type} {Q : HtmlQuery soup elem} {L : StrLib}.

(** The absolute URL of an anchor: [urljoin(base_url, a['href'])]. *)
Definition anchor_url (a : elem) : outcome pystr :=
  match attr_href a with
  | Some h => urljoin base_url h
  | None => Raise (mkExn KeyError (u8 "href"))
  end.

(** The link [extract_job_details] computes for an element: that of its
    first anchor with a [href], the empty string without one. *)
Definition link_outcome (e : elem) : outcome pystr :=
  match find_a_href e with
  | Some a => anchor_url a
  | None => Ret []
  end.

Definition extractable (e : elem) : bool :=
  match link_outcome e with
  | Ret _ => true
  | Raise _ => false
  end.

(** The anchors before the first one whose URL cannot be built. *)
Fixpoint take_ok (links : list elem) : list elem :=
  match links with
  | [] => []
  | a :: rest =>
      match anchor_url a with
      | Ret _ => a :: take_ok rest
      | Raise _ => []
      end
  end.

(** The anchors the fallback branch turns into records. *)
Definition job_links (page : soup) : list elem :=
  firstn 20 (filter is_job_link (find_all_a_href page)).

(** [j] is the record the fallback branch builds from anchor [a]. *)
Definition link_record (a : elem) (j : job) : Prop :=
  title j = get_text_strip a
  /\ company j = u8 "会社名不明"
  /\ category j = u8 "カテゴリ不明"
  /\ description j = []
  /\ anchor_url a = Ret (link j)
  /\ is_remote j = true
  /\ is_own_pc_ok j = true
  /\ source j = u8 "Reworker".

(** [j] is a record [extract_job_details] returns for element [e]. *)
Definition element_record (w : world) (e : elem) (j : job) : Prop :=
  exists s s', extract_job_details w e s = (Ret (Some j), s').

End Elements.

End ScrapeSpec.

Import ScrapeSpec.

(* ------------------------------------------------------------------ *)
(** ** The command line *)

Module Cli.

Import Scraper.



Section Main.

Context {soup elem : Type} {Q : HtmlQuery soup elem} {L : StrLib}.
Variable w : world.


End Main.

End Cli.

(* ------------------------------------------------------------------ *)
(** ** More concrete worlds and pages *)

Module Cases.

Import Scraper Toy.

(** The transport fails with an exception that is not a
    [RequestException]. *)
Definition broken_error : exn := mkExn RuntimeError (u8 "boom").

Definition broken : world :=
  {| http_get := fun _ _ => Raise broken_error;
     now_iso := clock;
     fs_write := fun _ _ => None;
     set_order := fun xs => xs |}.

(** Every request is answered with status 404. *)
Definition not_found : world :=
  {| http_get := fun _ _ => Ret (mkResponse 404 (u8 "Not Found"));
     now_iso := clock;
     fs_write := fun _ _ => None;
     set_order := fun xs => xs |}.

(** A listing whose second card has an anchor with a malformed URL. *)
Definition card (name href : pystr) : node :=
  Node (u8 "article") (Some (u8 "job")) None []
    [ Node (u8 "h2") None None name [];
      Node (u8 "a") None (Some href) (u8 "more") [] ].

Definition mixed_page : list node :=
  [ card (u8 "Remote editor") (u8 "/jobs/1");
    card (u8 "Remote tester") (u8 "http://[bad");
    card (u8 "Remote designer") (u8 "/jobs/3") ].

(** A page without listing elements: anchors only, the third of them
    with a malformed URL. *)
Definition link (label href : pystr) : node :=
  Node (u8 "a") None (Some href) label [].

Definition links_page : list node :=
  [ link (u8 "Job: editor") (u8 "/e");
    link (u8 "About us") (u8 "/about");
    link (u8 "Career: tester") (u8 "/t");
    link (u8 "Work: broken") (u8 "http://[bad");
    link (u8 "Job: designer") (u8 "/d") ].

Definition good_links_page : list node :=
  [ link (u8 "Job: editor") (u8 "/e");
    link (u8 "About us") (u8 "/about");
    link (u8 "Career: tester") (u8 "/t") ].

(** A page with nothing on it. *)
Definition empty_page : list node := [].

End Cases.

(* ------------------------------------------------------------------ *)
(** ** Vocabulary of the statements about what a step changes *)

Module DeltaSpec.

Import Scraper.

(** The state after [added] was appended to the job list, [calls]
    requests were sent, the clock was read [ticks] times and the events
    [evs] happened. *)
Definition grown (s : state) (added : list job) (calls ticks : nat)
    (evs : list event) : state :=
  {| jobs := jobs s ++ added;
     http_calls := http_calls s + calls;
     clock_reads := clock_reads s + ticks;
     trace := trace s ++ evs |}.

Section Links.

Context {soup elem : Type} {Q : HtmlQuery soup elem} {L : StrLib}.

(** The exception of the first anchor whose URL cannot be built. *)
Fixpoint first_error (links : list elem) : option exn :=
  match links with
  | [] => None
  | a :: rest =>
      match anchor_url a with
      | Ret _ => first_error rest
      | Raise x => Some x
      end
  end.

End Links.

(** The state in which the selectors are tried: after the fetch left
    [s1] and the size of the page was logged. *)
Definition fetched_note (s1 : state) (resp : response) : state :=
  grown s1 [] 0 0 [EvLog (LogMainPage (List.length (text resp)))].

End DeltaSpec.

Import DeltaSpec.

(* ------------------------------------------------------------------ *)
(** ** Vocabulary of the statements about the keyword lists *)

Module KeywordSpec.

(** The remote keywords that are not covered by a shorter one. *)
Definition core_remote_keywords : list pystr :=
  [u8 "在宅"; u8 "リモート"; u8 "remote"; u8 "テレワーク"; u8 "自宅"].

End KeywordSpec.

Import KeywordSpec.

(* ------------------------------------------------------------------ *)
(** * Properties *)

(** ** Strings *)

Module PyStrFacts.

Lemma eqb_eq (a b : pystr) : eqb a b = true <-> a = b.
Proof.
  unfold eqb. destruct (list_eq_dec N.eq_dec a b); split; congruence.
Qed.

Lemma startswith_spec (p s : pystr) :
  startswith p s = true <-> exists post, s = p ++ post.
Proof.
  revert s; induction p as [|a p IH]; intros s; simpl.
  - split; [intros _; now exists s | reflexivity].
  - destruct s as [|b s].
    + split; [discriminate | intros [post H]; discriminate].
    + rewrite andb_true_iff, N.eqb_eq, IH. split.
      * intros [-> [post ->]]. now exists post.
      * intros [post H]. injection H as -> ->. split; [reflexivity | now exists post].
Qed.

Lemma contains_spec (needle hay : pystr) :
  contains needle hay = true <-> exists pre post, hay = pre ++ needle ++ post.
Proof.
  induction hay as [|c hay IH]; simpl.
  - rewrite orb_false_r, startswith_spec. split.
    + intros [post H]. now exists [], post.
    + intros [pre [post H]]. destruct pre; simpl in H.
      * now exists post.
      * discriminate.
  - rewrite orb_true_iff, startswith_spec, IH. split.
    + intros [[post H] | [pre [post H]]].
      * now exists [], post.
      * exists (c :: pre), post. simpl. now rewrite H.
    + intros [pre [post H]]. destruct pre as [|d pre]; simpl in H.
      * left. now exists post.
      * right. injection H as _ H. now exists pre, post.
Qed.

Lemma endswith_spec (p s : pystr) :
  endswith p s = true <-> exists pre, s = pre ++ p.
Proof.
  unfold endswith. rewrite startswith_spec. split.
  - intros [post H]. exists (rev post).
    rewrite <- (rev_involutive s), H, rev_app_distr.
    now rewrite rev_involutive.
  - intros [pre ->]. exists (rev pre). apply rev_app_distr.
Qed.

Example u8_zaitaku : u8 "在宅" = [22312; 23429]%N.
Proof. reflexivity. Qed.
Example u8_remote : u8 "remote" = [114; 101; 109; 111; 116; 101]%N.
Proof. reflexivity. Qed.

(** The keyword lists of the classifier as code points. *)
Example remote_keywords_code_points :
  Scraper.remote_keywords
  = [ [22312; 23429]; [12522; 12514; 12540; 12488];
      [114; 101; 109; 111; 116; 101];
      [12486; 12524; 12527; 12540; 12463]; [33258; 23429];
      [12501; 12523; 22312; 23429]; [23436; 20840; 22312; 23429] ]%N.
Proof. reflexivity. Qed.

Example pc_keywords_code_points :
  Scraper.pc_keywords
  = [ [33258; 23429; 112; 99];
      [33258; 23429; 12497; 12477; 12467; 12531];
      [112; 99; 25345; 21442]; [112; 99; 29872; 22659];
      [27231; 26448; 36024; 19982; 12394; 12375] ]%N.
Proof. reflexivity. Qed.

Example loaner_term_code_points : loaner_term = [36024; 19982]%N.
Proof. reflexivity. Qed.

Example job_selectors_text :
  Scraper.job_selectors
  = [ [91; 99; 108; 97; 115; 115; 42; 61; 34; 106; 111; 98; 34; 93];
      [91; 99; 108; 97; 115; 115; 42; 61; 34; 99; 97; 114; 100; 34; 93];
      [91; 99; 108; 97; 115; 115; 42; 61; 34; 105; 116; 101; 109; 34; 93];
      [91; 99; 108; 97; 115; 115; 42; 61; 34; 108; 105; 115; 116; 34; 93];
      [97; 114; 116; 105; 99; 108; 101]; [46; 112; 111; 115; 116];
      [46; 101; 110; 116; 114; 121] ]%N.
Proof. reflexivity. Qed.

End PyStrFacts.

Import PyStrFacts.


(* ------------------------------------------------------------------ *)
(** ** The filter *)

Module FilterFacts.

Import Scraper.

Lemma filter_subsequence {A} (p : A -> bool) (l : list A) :
  subsequence (filter p l) l.
Proof.
  induction l as [|x l IH]; simpl.
  - constructor.
  - destruct (p x); now constructor.
Qed.

Lemma count_occ_filter (l : list job) (j : job) :
  count_occ job_eq_dec (filter retained l) j
  = if retained j then count_occ job_eq_dec l j else 0.
Proof.
  induction l as [|x l IH]; simpl.
  - now destruct (retained j).
  - destruct (retained x) eqn:Hx; simpl.
    + destruct (job_eq_dec x j) as [->|Hne]; rewrite IH.
      * now rewrite Hx.
      * reflexivity.
    + rewrite IH. destruct (job_eq_dec x j) as [->|Hne].
      * now rewrite Hx.
      * reflexivity.
Qed.

Lemma retained_iff (j : job) :
  retained j = true <-> is_remote j = true /\ is_own_pc_ok j = true.
Proof. unfold retained. apply andb_true_iff. Qed.

Lemma filter_remote_jobs_run (s : state) :
  filter_remote_jobs s
  = (Ret (filter retained (jobs s)),
     {| jobs := jobs s; http_calls := http_calls s;
        clock_reads := clock_reads s;
        trace := trace s
                 ++ [EvLog (LogFiltered (List.length (jobs s))
                              (List.length (filter retained (jobs s))))] |}).
Proof. reflexivity. Qed.

End FilterFacts.

(** C1. [filter_remote_jobs] returns exactly the records of [self.jobs]
    whose [is_remote] and [is_own_pc_ok] are both true: a record is in
    the output iff it is in the input with both flags set, the output is
    a subsequence of the input (relative order kept, nothing added),
    every retained record occurs as often as in the input (no
    deduplication), and [self.jobs] is left as it was. *)
Theorem filter_remote_jobs_exact (s : Scraper.state) :
  exists out s',
    Scraper.filter_remote_jobs s = (Ret out, s')
    /\ (forall j, In j out <->
                  In j (Scraper.jobs s)
                  /\ Scraper.is_remote j = true
                  /\ Scraper.is_own_pc_ok j = true)
    /\ subsequence out (Scraper.jobs s)
    /\ (forall j, Scraper.is_remote j = true ->
                  Scraper.is_own_pc_ok j = true ->
                  count_occ job_eq_dec out j
                  = count_occ job_eq_dec (Scraper.jobs s) j)
    /\ Scraper.jobs s' = Scraper.jobs s.
Proof.
  exists (filter Scraper.retained (Scraper.jobs s)).
  eexists. split; [apply FilterFacts.filter_remote_jobs_run|].
  assert (Hmem : forall j,
             In j (filter Scraper.retained (Scraper.jobs s)) <->
             In j (Scraper.jobs s)
             /\ Scraper.is_remote j = true /\ Scraper.is_own_pc_ok j = true).
  { intros j. rewrite filter_In, FilterFacts.retained_iff. tauto. }
  split; [exact Hmem|].
  split; [apply FilterFacts.filter_subsequence|].
  split.
  - intros j Hr Hp. rewrite FilterFacts.count_occ_filter.
    assert (Scraper.retained j = true) as ->
        by now apply FilterFacts.retained_iff.
    reflexivity.
  - reflexivity.
Qed.


(* ------------------------------------------------------------------ *)
(** ** Fetching with retries *)

Module FetchFacts.

Import Scraper.

Section Fetch.

Variable w : world.

Lemma after_after (s : state) (n m : nat) (e1 e2 : list event) :
  after (after s n e1) m e2 = after s (n + m) (e1 ++ e2).
Proof.
  unfold after; simpl. f_equal; [lia | now rewrite <- app_assoc].
Qed.

Lemma attempt_get_run (url : pystr) (s : state) :
  attempt_get w url s
  = (attempt_outcome w (http_calls s) url, after s 1 (attempt_events url)).
Proof.
  unfold attempt_get, attempt_outcome, after, attempt_events, bind, log,
    emit, session_get, raise_for_status; simpl.
  rewrite Nat.add_1_r, <- app_assoc; simpl.
  destruct (http_get w (http_calls s) url) as [r|e]; [|reflexivity].
  destruct ((400 <=? status_code r)%Z && (status_code r <? 600)%Z);
    reflexivity.
Qed.

(** A successful attempt returns its response: the loop ends. *)
Lemma loop_success (n : nat) (a retries : Z) (url : pystr) (s : state)
    (r : response) :
  attempt_outcome w (http_calls s) url = Ret r ->
  get_page_loop w (S n) a url retries s
  = (Ret (Some r), after s 1 (attempt_events url)).
Proof.
  intros H. simpl. unfold try_except, bind.
  now rewrite attempt_get_run, H.
Qed.

(** A failed attempt that is not the last one sleeps and goes on. *)
Lemma loop_retry (n : nat) (a retries : Z) (url : pystr) (s : state)
    (e : exn) :
  transport_failure w (http_calls s) url e ->
  (a < retries - 1)%Z ->
  get_page_loop w (S n) a url retries s
  = get_page_loop w n (a + 1) url retries
      (after s 1 (retry_events url a retries e)).
Proof.
  intros [H He] Ha. simpl. unfold try_except at 1. unfold bind at 1.
  rewrite attempt_get_run, H, He.
  apply Z.ltb_lt in Ha.
  unfold bind, log, sleep, emit; simpl. rewrite Ha.
  f_equal. unfold after, retry_events; simpl.
  now rewrite <- !app_assoc.
Qed.

(** The last failed attempt re-raises, without sleeping. *)
Lemma loop_give_up (n : nat) (a retries : Z) (url : pystr) (s : state)
    (e : exn) :
  transport_failure w (http_calls s) url e ->
  (retries - 1 <= a)%Z ->
  get_page_loop w (S n) a url retries s
  = (Raise e, after s 1 (give_up_events url a retries e)).
Proof.
  intros [H He] Ha. simpl. unfold try_except at 1. unfold bind at 1.
  rewrite attempt_get_run, H, He.
  apply Z.ltb_ge in Ha.
  unfold bind, log, emit, raise; simpl. rewrite Ha.
  f_equal. unfold after, give_up_events; simpl.
  now rewrite <- !app_assoc.
Qed.

(** An exception that is not a [RequestException] is not handled. *)
Lemma loop_other_exception (n : nat) (a retries : Z) (url : pystr)
    (s : state) (e : exn) :
  attempt_outcome w (http_calls s) url = Raise e ->
  is_request_exception e = false ->
  get_page_loop w (S n) a url retries s
  = (Raise e, after s 1 (attempt_events url)).
Proof.
  intros H He. simpl. unfold try_except, bind.
  now rewrite attempt_get_run, H, He.
Qed.

End Fetch.

End FetchFacts.

(** C2. With the default budget of 3 attempts, [get_page] (started when
    [k] requests have been sent): returns the response of the first
    attempt that succeeds, after zero, one or two failed attempts, with no
    error; raises the failure of the third attempt when all three fail at
    the transport level, without sleeping or retrying after it; and after
    failed attempt 0 it sleeps [2 ^ 0] seconds, after failed attempt 1
    [2 ^ 1] seconds. *)
Theorem get_page_three_attempts (w : world) (url : pystr)
    (s : Scraper.state) :
  let k := Scraper.http_calls s in
  (forall r,
      attempt_outcome w k url = Ret r ->
      Scraper.get_page w url Scraper.default_retries s
      = (Ret (Some r), after s 1 (attempt_events url)))
  /\ (forall e0 r,
      transport_failure w k url e0 ->
      attempt_outcome w (k + 1) url = Ret r ->
      Scraper.get_page w url Scraper.default_retries s
      = (Ret (Some r),
         after s 2 (retry_events url 0 3 e0 ++ attempt_events url)))
  /\ (forall e0 e1 r,
      transport_failure w k url e0 ->
      transport_failure w (k + 1) url e1 ->
      attempt_outcome w (k + 2) url = Ret r ->
      Scraper.get_page w url Scraper.default_retries s
      = (Ret (Some r),
         after s 3 (retry_events url 0 3 e0 ++ retry_events url 1 3 e1
                    ++ attempt_events url)))
  /\ (forall e0 e1 e2,
      transport_failure w k url e0 ->
      transport_failure w (k + 1) url e1 ->
      transport_failure w (k + 2) url e2 ->
      Scraper.get_page w url Scraper.default_retries s
      = (Raise e2,
         after s 3 (retry_events url 0 3 e0 ++ retry_events url 1 3 e1
                    ++ give_up_events url 2 3 e2))).
Proof.
  intros k. unfold Scraper.get_page, Scraper.default_retries.
  change (Z.to_nat 3) with 3.
  repeat split.
  - intros r H. now apply FetchFacts.loop_success.
  - intros e0 r H0 H1.
    rewrite FetchFacts.loop_retry with (e := e0) by (assumption || lia).
    rewrite FetchFacts.loop_success with (r := r) by assumption.
    now rewrite FetchFacts.after_after.
  - intros e0 e1 r H0 H1 H2.
    rewrite FetchFacts.loop_retry with (e := e0) by (assumption || lia).
    rewrite FetchFacts.loop_retry with (e := e1) by (assumption || lia).
    rewrite FetchFacts.loop_success with (r := r).
    + now rewrite !FetchFacts.after_after.
    + simpl. now replace (Scraper.http_calls s + 1 + 1) with (k + 2)
        by (subst k; lia).
  - intros e0 e1 e2 H0 H1 H2.
    rewrite FetchFacts.loop_retry with (e := e0) by (assumption || lia).
    rewrite FetchFacts.loop_retry with (e := e1) by (assumption || lia).
    rewrite FetchFacts.loop_give_up with (e := e2).
    + now rewrite !FetchFacts.after_after.
    + simpl. now replace (Scraper.http_calls s + 1 + 1) with (k + 2)
        by (subst k; lia).
    + lia.
Qed.


Lemma get_page_three_attempts_witness :
  Scraper.get_page (Toy.flaky 2 (u8 "<html/>")) Scraper.base_url
    Scraper.default_retries Scraper.initial
  = (Ret (Some (mkResponse 200 (u8 "<html/>"))),
     after Scraper.initial 3
       (retry_events Scraper.base_url 0 3 Toy.timeout_error
        ++ retry_events Scraper.base_url 1 3 Toy.timeout_error
        ++ attempt_events Scraper.base_url))
  /\ Scraper.get_page Toy.offline Scraper.base_url
       Scraper.default_retries Scraper.initial
     = (Raise Toy.timeout_error,
        after Scraper.initial 3
          (retry_events Scraper.base_url 0 3 Toy.timeout_error
           ++ retry_events Scraper.base_url 1 3 Toy.timeout_error
           ++ give_up_events Scraper.base_url 2 3 Toy.timeout_error)).
Proof.
  split.
  - apply (proj1 (proj2 (proj2
      (get_page_three_attempts (Toy.flaky 2 (u8 "<html/>"))
         Scraper.base_url Scraper.initial)))).
    + split; reflexivity.
    + split; reflexivity.
    + reflexivity.
  - apply (proj2 (proj2 (proj2
      (get_page_three_attempts Toy.offline
         Scraper.base_url Scraper.initial)))).
    + split; reflexivity.
    + split; reflexivity.
    + split; reflexivity.
Defined.

(** C9. With a retry budget of 0 or less, [get_page] runs no iteration
    of its loop: no request is sent, nothing is logged or slept, no
    exception is raised, and the result is [None]. *)
Theorem get_page_without_budget (w : world) (url : pystr) (retries : Z)
    (s : Scraper.state) :
  (retries <= 0)%Z ->
  Scraper.get_page w url retries s = (Ret None, s).
Proof.
  intros H. unfold Scraper.get_page.
  destruct retries as [|p|p]; try reflexivity.
  exfalso. lia.
Qed.

Lemma get_page_without_budget_witness :
  Scraper.get_page Toy.offline Scraper.base_url 0 Scraper.initial
  = (Ret None, Scraper.initial).
Proof.
  apply (@get_page_without_budget Toy.offline Scraper.base_url 0
           Scraper.initial).
  lia.
Defined.

(* ------------------------------------------------------------------ *)
(** ** Locating the listing elements *)

Module ListingFacts.

Import Scraper.

Section Listing.

Context {soup elem : Type} {Q : HtmlQuery soup elem}.

Lemma selects_app (t1 t2 : list event) :
  selects (t1 ++ t2) = selects t1 ++ selects t2.
Proof.
  induction t1 as [|ev t1 IH]; simpl; [reflexivity|].
  destruct ev; simpl; now rewrite ?IH.
Qed.

Lemma selects_map (sels : list pystr) : selects (map EvSelect sels) = sels.
Proof. induction sels; simpl; congruence. Qed.

(** The loop stops at the first selector with a match. *)
Lemma find_job_elements_first (page : soup) (pre : list pystr)
    (selector : pystr) (post : list pystr) (s : state) :
  (forall x, In x pre -> select page x = []) ->
  select page selector <> [] ->
  find_job_elements page (pre ++ selector :: post) s
  = (Ret (select page selector),
     after s 0
       (map EvSelect pre
        ++ [EvSelect selector;
            EvLog (LogFound selector (List.length (select page selector)))])).
Proof.
  revert s. induction pre as [|x pre IH]; intros s Hpre Hsel.
  - simpl. unfold bind, soup_select, emit, log, ret; simpl.
    destruct (select page selector) as [|e es] eqn:E; [congruence|].
    unfold after; simpl. rewrite Nat.add_0_r, <- app_assoc. reflexivity.
  - simpl. unfold bind at 1. unfold soup_select, bind, emit, ret; simpl.
    rewrite (Hpre x) by now left.
    rewrite IH; [|intros y Hy; apply Hpre; now right|assumption].
    unfold after; simpl. rewrite !Nat.add_0_r, <- !app_assoc. reflexivity.
Qed.

(** When no selector matches, all of them are tried and the result is
    empty. *)
Lemma find_job_elements_none (page : soup) (sels : list pystr) (s : state) :
  (forall x, In x sels -> select page x = []) ->
  find_job_elements page sels s = (Ret [], after s 0 (map EvSelect sels)).
Proof.
  revert s. induction sels as [|x sels IH]; intros s H.
  - unfold after; simpl. unfold ret. rewrite Nat.add_0_r, app_nil_r.
    now destruct s.
  - simpl. unfold bind at 1. unfold soup_select, bind, emit, ret; simpl.
    rewrite (H x) by now left.
    rewrite IH by (intros y Hy; apply H; now right).
    unfold after; simpl. rewrite !Nat.add_0_r, <- !app_assoc. reflexivity.
Qed.

(** Some selector matches: the list splits at the first one that does. *)
Lemma first_match_split (page : soup) (sels : list pystr) :
  (exists x, In x sels /\ select page x <> []) ->
  exists pre selector post,
    sels = pre ++ selector :: post
    /\ (forall x, In x pre -> select page x = [])
    /\ select page selector <> [].
Proof.
  induction sels as [|y sels IH]; intros [x [Hin Hx]].
  - destruct Hin.
  - destruct (select page y) as [|e es] eqn:E.
    + destruct Hin as [->|Hin]; [congruence|].
      destruct IH as (pre & sel & post & -> & Hpre & Hsel).
      { now exists x. }
      exists (y :: pre), sel, post. repeat split; try assumption.
      intros z [<-|Hz]; [assumption | now apply Hpre].
    + exists [], y, sels. repeat split.
      * intros z [].
      * rewrite E. discriminate.
Qed.

End Listing.

End ListingFacts.

(** C3. When some pattern of [job_selectors] matches in the document,
    the list splits at the first pattern that matches: the loop returns
    exactly the elements matched by that pattern, the patterns before it
    were evaluated and matched nothing, and the patterns after it are not
    evaluated (the [select] calls made are those of the patterns up to
    the first match, in order).  Elements of other patterns are
    therefore never mixed in. *)
Theorem first_selector_wins {soup elem : Type} {Q : HtmlQuery soup elem}
    (page : soup) (s : Scraper.state) :
  (exists x, In x Scraper.job_selectors /\ select page x <> []) ->
  exists pre selector post s',
    Scraper.job_selectors = pre ++ selector :: post
    /\ (forall x, In x pre -> select page x = [])
    /\ select page selector <> []
    /\ Scraper.find_job_elements page Scraper.job_selectors s
       = (Ret (select page selector), s')
    /\ selects (Scraper.trace s')
       = selects (Scraper.trace s) ++ pre ++ [selector]
    /\ Scraper.jobs s' = Scraper.jobs s.
Proof.
  intros H.
  destruct (ListingFacts.first_match_split page Scraper.job_selectors H)
    as (pre & selector & post & Hsplit & Hpre & Hsel).
  exists pre, selector, post. eexists.
  split; [exact Hsplit|]. split; [exact Hpre|]. split; [exact Hsel|].
  split.
  - rewrite Hsplit. now apply ListingFacts.find_job_elements_first.
  - split; [|reflexivity].
    simpl. rewrite !ListingFacts.selects_app, ListingFacts.selects_map.
    reflexivity.
Qed.

Lemma first_selector_wins_witness :
  exists pre selector post s',
    Scraper.job_selectors = pre ++ selector :: post
    /\ (forall x, In x pre ->
          select (HtmlQuery := Toy.query (fun _ => Toy.office_page))
                 Toy.office_page x = [])
    /\ select (HtmlQuery := Toy.query (fun _ => Toy.office_page))
              Toy.office_page selector <> []
    /\ Scraper.find_job_elements (Q := Toy.query (fun _ => Toy.office_page))
         Toy.office_page Scraper.job_selectors Scraper.initial
       = (Ret (select (HtmlQuery := Toy.query (fun _ => Toy.office_page))
                      Toy.office_page selector), s')
    /\ selects (Scraper.trace s')
       = selects (Scraper.trace Scraper.initial) ++ pre ++ [selector]
    /\ Scraper.jobs s' = Scraper.jobs Scraper.initial.
Proof.
  apply (first_selector_wins (Q := Toy.query (fun _ => Toy.office_page))
           Toy.office_page Scraper.initial).
  exists (Scraper.class_contains (u8 "card")). split.
  - right. left. reflexivity.
  - vm_compute. discriminate.
Defined.


(* ------------------------------------------------------------------ *)
(** ** Building a record from a listing element *)

Module RecordFacts.

Import Scraper.

Lemma truncate_long (d : pystr) :
  200 < List.length d ->
  truncate_description d = firstn 200 d ++ marker.
Proof.
  intros H. unfold truncate_description, slice_to.
  apply Nat.ltb_lt in H. now rewrite H.
Qed.

Lemma truncate_short (d : pystr) :
  List.length d <= 200 -> truncate_description d = d.
Proof.
  intros H. unfold truncate_description.
  destruct (200 <? List.length d) eqn:E; [|reflexivity].
  apply Nat.ltb_lt in E. lia.
Qed.

Lemma truncate_length (d : pystr) :
  List.length (truncate_description d) <= 203.
Proof.
  destruct (Nat.lt_ge_cases 200 (List.length d)) as [H|H].
  - rewrite truncate_long by assumption.
    rewrite length_app, firstn_length_le by lia. simpl. lia.
  - rewrite truncate_short by assumption. lia.
Qed.

Lemma any_contains (keywords : list pystr) (t : pystr) :
  any (fun keyword => contains keyword t) keywords = true
  <-> exists k, In k keywords /\ substring k t.
Proof.
  unfold any. rewrite existsb_exists.
  split; intros [k [Hin Hk]]; exists k; split; try assumption;
    now apply contains_spec.
Qed.

Section Build.

Context {soup elem : Type} {Q : HtmlQuery soup elem} {L : StrLib}.
Variable w : world.

(** The record [extract_job_details] returns, field by field. *)
Lemma extract_job_details_built (e : elem) (s s' : state) (j : job) :
  extract_job_details w e s = (Ret (Some j), s') ->
  description j = truncate_description (extracted_description e)
  /\ is_remote j = classify_remote (classified_text e)
  /\ is_own_pc_ok j = classify_own_pc (classified_text e)
  /\ scraped_at j = now_iso w (clock_reads s)
  /\ source j = u8 "Reworker".
Proof.
  unfold extract_job_details, try_except, bind, href_of, lift, now, ret,
    raise, log, emit, extracted_description, classified_text, text_or.
  destruct (find_a_href e) as [a|].
  - destruct (attr_href a) as [h|]; [|discriminate].
    destruct (urljoin base_url h) as [u|x]; [|discriminate].
    intros H. injection H as <- _. simpl. repeat split.
  - intros H. injection H as <- _. simpl. repeat split.
Qed.

End Build.

End RecordFacts.

(** C4, as the code has it.  The description stored in a built record
    is at most 203 characters long.  When the extracted description has
    more than 200 characters, the stored one is its first 200 characters
    followed by the marker (203 characters); otherwise it is stored
    unchanged.  Hence the stored description ends with the marker iff the
    extracted one had more than 200 characters or itself ended with the
    marker. *)
Theorem description_truncated {soup elem : Type} {Q : HtmlQuery soup elem}
    {L : StrLib} (w : world) (e : elem) (s s' : Scraper.state)
    (j : Scraper.job) :
  Scraper.extract_job_details w e s = (Ret (Some j), s') ->
  let original := extracted_description e in
  let stored := Scraper.description j in
  List.length stored <= 203
  /\ (200 < List.length original ->
      stored = firstn 200 original ++ marker /\ List.length stored = 203)
  /\ (List.length original <= 200 -> stored = original)
  /\ (endswith marker stored = true <->
      200 < List.length original \/ endswith marker original = true).
Proof.
  intros H original stored.
  destruct (RecordFacts.extract_job_details_built _ _ _ H) as (Hd & _).
  subst stored. fold original in Hd. rewrite Hd. clear Hd H.
  split; [apply RecordFacts.truncate_length|].
  split.
  { intros Hl. rewrite RecordFacts.truncate_long by assumption.
    split; [reflexivity|].
    rewrite length_app, firstn_length_le by lia. reflexivity. }
  split; [apply RecordFacts.truncate_short|].
  destruct (Nat.lt_ge_cases 200 (List.length original)) as [Hl|Hl].
  - rewrite RecordFacts.truncate_long by assumption. split.
    + intros _. now left.
    + intros _. apply endswith_spec. now exists (firstn 200 original).
  - rewrite RecordFacts.truncate_short by assumption. split.
    + intros Hm. now right.
    + intros [Hlt|Hm]; [lia|assumption].
Qed.

Lemma description_truncated_witness :
  exists j s',
    Scraper.extract_job_details (Q := Toy.query (fun _ => [])) (L := Toy.strlib)
      Toy.offline Toy.long_card Scraper.initial = (Ret (Some j), s')
    /\ List.length (Scraper.description j) <= 203
    /\ Scraper.description j = repeat 120%N 200 ++ marker.
Proof.
  eexists. eexists. split; [reflexivity|].
  pose proof (@description_truncated _ _ (Toy.query (fun _ => [])) Toy.strlib
                Toy.offline Toy.long_card Scraper.initial _ _ eq_refl)
    as (Hlen & Hlong & _).
  split; [exact Hlen|].
  apply Hlong. vm_compute. lia.
Defined.

(** The marker can end a stored description although the extracted one
    had at most 200 characters: a description that already ends in three
    dots is stored unchanged. *)
Lemma description_marker_counterexample :
  exists j s',
    Scraper.extract_job_details (Q := Toy.query (fun _ => [])) (L := Toy.strlib)
      Toy.offline Toy.teaser_card Scraper.initial = (Ret (Some j), s')
    /\ extracted_description (Q := Toy.query (fun _ => [])) (L := Toy.strlib) Toy.teaser_card
       = u8 "Work from home. Apply now..."
    /\ ~ (endswith marker (Scraper.description j) = true <->
          200 < List.length
                  (extracted_description (Q := Toy.query (fun _ => [])) (L := Toy.strlib)
                     Toy.teaser_card)).
Proof.
  eexists. eexists. split; [reflexivity|]. split; [reflexivity|].
  intros [Hm _].
  assert (Hlt : 200 < 28) by (apply Hm; reflexivity).
  lia.
Qed.


(** C5. A record built from a listing element is classified on the
    lower-cased text of the element: [is_remote] holds iff that text
    contains one of [remote_keywords]; [is_own_pc_ok] holds iff it
    contains one of [pc_keywords] or does not contain the loaner term,
    so a text without the loaner term is classified as own-PC whatever
    else it says. *)
Theorem classification_by_keywords {soup elem : Type}
    {Q : HtmlQuery soup elem} {L : StrLib} (w : world) (e : elem)
    (s s' : Scraper.state) (j : Scraper.job) :
  Scraper.extract_job_details w e s = (Ret (Some j), s') ->
  let full_text := lower (get_text e) in
  (Scraper.is_remote j = true <->
   exists k, In k Scraper.remote_keywords /\ substring k full_text)
  /\ (Scraper.is_own_pc_ok j = true <->
      (exists k, In k Scraper.pc_keywords /\ substring k full_text)
      \/ ~ substring loaner_term full_text)
  /\ (~ substring loaner_term full_text -> Scraper.is_own_pc_ok j = true).
Proof.
  intros H full_text.
  destruct (RecordFacts.extract_job_details_built _ _ _ H)
    as (_ & Hr & Hp & _).
  unfold classified_text in Hr, Hp. fold full_text in Hr, Hp.
  assert (Hown : Scraper.is_own_pc_ok j = true <->
                 (exists k, In k Scraper.pc_keywords /\ substring k full_text)
                 \/ ~ substring loaner_term full_text).
  { rewrite Hp. unfold Scraper.classify_own_pc.
    rewrite orb_true_iff, RecordFacts.any_contains, negb_true_iff.
    fold loaner_term.
    assert (contains loaner_term full_text = false
            <-> ~ substring loaner_term full_text) as ->; [|reflexivity].
    unfold substring. rewrite <- contains_spec.
    destruct (contains loaner_term full_text); split; congruence. }
  split.
  - rewrite Hr. apply RecordFacts.any_contains.
  - split; [exact Hown|]. intros Hno. apply Hown. now right.
Qed.

Lemma classification_by_keywords_witness :
  exists j s',
    Scraper.extract_job_details (Q := Toy.query (fun _ => []))
      (L := Toy.strlib) Toy.offline Toy.remote_card Scraper.initial
    = (Ret (Some j), s')
    /\ (Scraper.is_remote j = true <->
        exists k, In k Scraper.remote_keywords
                  /\ substring k (u8 " remote writer details"))
    /\ Scraper.is_remote j = true
    /\ Scraper.is_own_pc_ok j = true.
Proof.
  eexists. eexists. split; [reflexivity|].
  pose proof (@classification_by_keywords _ _ (Toy.query (fun _ => []))
                Toy.strlib Toy.offline Toy.remote_card Scraper.initial
                _ _ eq_refl) as (Hr & Hp & Hno).
  split; [exact Hr|]. split.
  - apply Hr. exists (u8 "remote"). split.
    + right. right. left. reflexivity.
    + now exists (u8 " "), (u8 " writer details").
  - apply Hno. intros Hsub. apply contains_spec in Hsub. discriminate.
Defined.


(* ------------------------------------------------------------------ *)
(** ** Encoding and decoding JSON *)

Module JsonFacts.

(** Induction on a JSON value with the hypothesis for every item of a
    list and every value of a dict. *)
Lemma json_induction (P : json -> Prop) :
  P JNull ->
  (forall b, P (JBool b)) ->
  (forall z, P (JInt z)) ->
  (forall s, P (JStr s)) ->
  (forall items, Forall P items -> P (JArr items)) ->
  (forall members, Forall (fun kv => P (snd kv)) members -> P (JObj members)) ->
  forall v, P v.
Proof.
  intros Hnull Hbool Hint Hstr Harr Hobj.
  fix IH 1. intros [ | b | z | s | items | members ].
  - exact Hnull.
  - apply Hbool.
  - apply Hint.
  - apply Hstr.
  - apply Harr. induction items as [|x items IHitems]; constructor.
    + apply IH.
    + exact IHitems.
  - apply Hobj. induction members as [|[k x] members IHm]; constructor.
    + apply IH.
    + exact IHm.
Qed.

(** *** Strings *)

Lemma hex4_control (c : char) :
  (c < 32)%N ->
  hex4 c_zero c_zero (hex_digit (c / 16)) (hex_digit (c mod 16)) = Some c.
Proof.
  intros H.
  rewrite <- (N2Nat.id c).
  assert (Hn : N.to_nat c < 32) by lia.
  revert Hn. generalize (N.to_nat c) as n. intros n Hn.
  do 32 (destruct n as [|n]; [reflexivity|]).
  lia.
Qed.

Lemma scanstring_escape (c : char) (tail : pystr) :
  scanstring (escape_char c ++ tail) = cons_char c (scanstring tail).
Proof.
  unfold escape_char.
  destruct (c =? c_quote)%N eqn:E1.
  { apply N.eqb_eq in E1. subst c. reflexivity. }
  destruct (c =? c_backslash)%N eqn:E2.
  { apply N.eqb_eq in E2. subst c. reflexivity. }
  destruct (c =? 8)%N eqn:E3.
  { apply N.eqb_eq in E3. subst c. reflexivity. }
  destruct (c =? 12)%N eqn:E4.
  { apply N.eqb_eq in E4. subst c. reflexivity. }
  destruct (c =? 10)%N eqn:E5.
  { apply N.eqb_eq in E5. subst c. reflexivity. }
  destruct (c =? 13)%N eqn:E6.
  { apply N.eqb_eq in E6. subst c. reflexivity. }
  destruct (c =? 9)%N eqn:E7.
  { apply N.eqb_eq in E7. subst c. reflexivity. }
  destruct (c <? 32)%N eqn:E8.
  - apply N.ltb_lt in E8.
    change (scanstring
              ([c_backslash; 117%N; c_zero; c_zero; hex_digit (c / 16);
                hex_digit (c mod 16)] ++ tail))
      with (match hex4 c_zero c_zero (hex_digit (c / 16))
                       (hex_digit (c mod 16)) with
            | None => None
            | Some uni =>
                if is_high_surrogate uni then
                  match tail with
                  | b :: u :: g1 :: g2 :: g3 :: g4 :: r3 =>
                      if ((b =? c_backslash) && (u =? 117))%N then
                        match hex4 g1 g2 g3 g4 with
                        | None => None
                        | Some uni2 =>
                            if is_low_surrogate uni2 then
                              cons_char
                                (65536 + ((uni - 55296) * 1024
                                          + (uni2 - 56320)))%N
                                (scanstring r3)
                            else cons_char uni (scanstring tail)
                        end
                      else cons_char uni (scanstring tail)
                  | _ => cons_char uni (scanstring tail)
                  end
                else cons_char uni (scanstring tail)
            end).
    rewrite hex4_control by assumption.
    assert (is_high_surrogate c = false) as ->; [|reflexivity].
    unfold is_high_surrogate. apply andb_false_iff. left.
    apply N.leb_gt. lia.
  - simpl. rewrite E1, E2, E8. reflexivity.
Qed.

(** Decoding an encoded string gives the string back. *)
Lemma scanstring_encode (s rest : pystr) :
  scanstring (flat_map escape_char s ++ c_quote :: rest) = Some (s, rest).
Proof.
  induction s as [|c s IH]; simpl.
  - reflexivity.
  - rewrite <- app_assoc, scanstring_escape, IH. reflexivity.
Qed.

(** *** Numbers *)

Lemma digits_head (d : Decimal.uint) :
  d <> Decimal.Nil ->
  exists c r, digits_of_uint d = c :: r /\ is_digit c = true.
Proof.
  destruct d; intros H; try congruence; simpl; eauto.
Qed.

Lemma scan_digits_encode (d : Decimal.uint) (rest : pystr) :
  match rest with [] => True | c :: _ => is_digit c = false end ->
  scan_digits (digits_of_uint d ++ rest) = (d, rest).
Proof.
  intros Hrest. induction d; simpl; try (rewrite IHd; reflexivity).
  destruct rest as [|c r]; [reflexivity|]. simpl. now rewrite Hrest.
Qed.

Lemma to_uint_normal (p : positive) :
  Decimal.unorm (Pos.to_uint p) = Pos.to_uint p.
Proof.
  rewrite <- (DecimalPos.Unsigned.to_of (Pos.to_uint p)).
  now rewrite DecimalPos.Unsigned.of_to.
Qed.

Lemma to_uint_no_leading_zero (p : positive) (d : Decimal.uint) :
  Pos.to_uint p <> Decimal.D0 d.
Proof.
  intros H. pose proof (to_uint_normal p) as Hn. rewrite H in Hn.
  rewrite DecimalFacts.unorm_D0 in Hn.
  destruct (Decimal.uint_eq_dec d Decimal.Nil) as [->|Hne].
  - apply (DecimalPos.Unsigned.to_uint_nonzero p). exact H.
  - pose proof (DecimalFacts.nb_digits_unorm d Hne) as Hle.
    rewrite Hn in Hle. simpl in Hle. lia.
Qed.

Lemma scan_natural_encode (n : N) (rest : pystr) :
  match rest with [] => True | c :: _ => is_digit c = false end ->
  scan_natural (digits_of_uint (N.to_uint n) ++ rest) = Some (n, rest).
Proof.
  intros Hrest. destruct n as [|p].
  - reflexivity.
  - pose proof (DecimalN.Unsigned.of_to (Npos p)) as Hof.
    pose proof (@to_uint_no_leading_zero p) as Hz.
    pose proof (DecimalPos.Unsigned.to_uint_nonnil p) as Hnil.
    simpl N.to_uint in *.
    pose proof (scan_digits_encode (Pos.to_uint p) rest Hrest) as Hscan.
    destruct (Pos.to_uint p) eqn:E; try congruence;
      try (exfalso; eapply Hz; reflexivity);
      unfold scan_natural;
      cbn [digits_of_uint app] in *;
      rewrite Hscan, <- Hof; reflexivity.
Qed.

Lemma delimited_no_digit (rest : pystr) :
  delimited rest ->
  match rest with [] => True | c :: _ => is_digit c = false end.
Proof. destruct rest; simpl; tauto. Qed.

Lemma delimited_no_float (rest : pystr) :
  delimited rest -> float_follows rest = false.
Proof.
  destruct rest as [|c [|d r]]; simpl; try reflexivity.
  intros (_ & Hdot & He & HE).
  apply N.eqb_neq in Hdot, He, HE. now rewrite Hdot, He, HE.
Qed.

Lemma encode_int_head (z : Z) :
  exists c r, encode_int z = c :: r
              /\ (c = c_minus \/ is_digit c = true).
Proof.
  unfold encode_int. destruct (z <? 0)%Z.
  - eexists; eexists; split; [reflexivity | now left].
  - destruct (@digits_head (N.to_uint (Z.abs_N z))) as (c & r & E & Hc).
    + destruct (Z.abs_N z); simpl.
      * discriminate.
      * apply DecimalPos.Unsigned.to_uint_nonnil.
    + exists c, r. split; [assumption | now right].
Qed.

Lemma scan_number_encode (z : Z) (rest : pystr) :
  delimited rest ->
  scan_number (encode_int z ++ rest) = Some (JInt z, rest).
Proof.
  intros Hrest. unfold scan_number, encode_int.
  pose proof (scan_natural_encode (Z.abs_N z) rest
                (delimited_no_digit _ Hrest)) as Hnat.
  destruct (z <? 0)%Z eqn:Ez.
  - simpl. rewrite Hnat, (delimited_no_float _ Hrest).
    apply Z.ltb_lt in Ez. do 3 f_equal. lia.
  - apply Z.ltb_ge in Ez.
    destruct (@digits_head (N.to_uint (Z.abs_N z))) as (c & r & E & Hc).
    { destruct (Z.abs_N z); simpl.
      - discriminate.
      - apply DecimalPos.Unsigned.to_uint_nonnil. }
    rewrite E in *. cbn [app] in *.
    assert (Hm : (c =? c_minus)%N = false).
    { apply N.eqb_neq. intros ->. discriminate. }
    rewrite Hm.
    rewrite Hnat, (delimited_no_float _ Hrest).
    do 3 f_equal. lia.
Qed.

(** *** Whitespace and layout *)

Lemma skip_ws_nonws (t : pystr) : starts_nonws t -> skip_ws t = t.
Proof. intros (c & r & -> & H). simpl. now rewrite H. Qed.

Lemma skip_ws_spaces (k : nat) (t : pystr) :
  skip_ws (repeat c_space k ++ t) = skip_ws t.
Proof. induction k; simpl; auto. Qed.

Lemma skip_ws_indent (level : nat) (t : pystr) :
  starts_nonws t -> skip_ws (newline_indent level ++ t) = t.
Proof.
  intros H. unfold newline_indent.
  change (skip_ws ((c_newline :: repeat c_space (2 * level)) ++ t))
    with (skip_ws (repeat c_space (2 * level) ++ t)).
  rewrite skip_ws_spaces. now apply skip_ws_nonws.
Qed.

Lemma starts_nonws_app (a b : pystr) :
  starts_nonws a -> starts_nonws (a ++ b).
Proof. intros (c & r & -> & H). now exists c, (r ++ b). Qed.

Lemma starts_nonws_cons (c : char) (r : pystr) :
  is_ws c = false -> starts_nonws (c :: r).
Proof. intros H. now exists c, r. Qed.

Lemma digit_not_ws (c : char) : is_digit c = true -> is_ws c = false.
Proof.
  unfold is_digit, is_ws. intros H.
  apply andb_true_iff in H as [H1 H2].
  apply N.leb_le in H1, H2.
  repeat (apply orb_false_iff; split); apply N.eqb_neq; lia.
Qed.

Lemma encode_starts_nonws (level : nat) (v : json) :
  starts_nonws (encode level v).
Proof.
  destruct v as [ | [|] | z | s | [|x xs] | [|m ms] ];
    try (apply starts_nonws_cons; reflexivity).
  destruct (encode_int_head z) as (c & r & E & [->|Hc]);
    simpl; rewrite E; apply starts_nonws_cons.
  - reflexivity.
  - now apply digit_not_ws.
Qed.

(** An encoded value starts with a character that opens a value: it
    is neither whitespace nor a closing bracket. *)
Lemma encode_head (level : nat) (v : json) :
  exists c r, encode level v = c :: r
              /\ is_ws c = false /\ (c =? c_rbracket)%N = false.
Proof.
  destruct v as [ | [|] | z | s | [|x xs] | [|m ms] ];
    try (eexists; eexists; split; [reflexivity|split; reflexivity]).
  destruct (encode_int_head z) as (c & r & E & Hc).
  exists c, r. split; [exact E|].
  destruct Hc as [->|Hc]; [split; reflexivity|].
  split; [now apply digit_not_ws|].
  unfold is_digit in Hc. apply andb_true_iff in Hc as [H1 H2].
  apply N.leb_le in H1, H2. apply N.eqb_neq. unfold c_rbracket. lia.
Qed.

Lemma join_items (level closing : nat) (x : json) (xs : list json)
    (rest : pystr) :
  join (c_comma :: newline_indent level) (map (encode level) (x :: xs))
  ++ newline_indent closing ++ c_rbracket :: rest
  = encode level x ++ items_text level closing xs rest.
Proof.
  revert x. induction xs as [|y ys IH]; intros x.
  - reflexivity.
  - change (map (encode level) (x :: y :: ys))
      with (encode level x :: map (encode level) (y :: ys)).
    change (join ?sep (?c :: map (encode level) (y :: ys)))
      with (c ++ sep ++ join sep (map (encode level) (y :: ys))).
    rewrite <- !app_assoc, IH. reflexivity.
Qed.

Lemma join_members (level closing : nat) (m : pystr * json)
    (ms : list (pystr * json)) (rest : pystr) :
  join (c_comma :: newline_indent level)
       (map (encode_member level) (m :: ms))
  ++ newline_indent closing ++ c_rbrace :: rest
  = encode_member level m ++ members_text level closing ms rest.
Proof.
  revert m. induction ms as [|y ys IH]; intros m.
  - reflexivity.
  - change (map (encode_member level) (m :: y :: ys))
      with (encode_member level m :: map (encode_member level) (y :: ys)).
    change (join ?sep (?c :: map (encode_member level) (y :: ys)))
      with (c ++ sep ++ join sep (map (encode_member level) (y :: ys))).
    rewrite <- !app_assoc, IH. reflexivity.
Qed.

Lemma delimited_items_text (level closing : nat) (xs : list json)
    (rest : pystr) :
  delimited (items_text level closing xs rest).
Proof. destruct xs; simpl; repeat split; discriminate. Qed.

Lemma delimited_members_text (level closing : nat)
    (ms : list (pystr * json)) (rest : pystr) :
  delimited (members_text level closing ms rest).
Proof. destruct ms; simpl; repeat split; discriminate. Qed.

(** *** Values *)

Lemma decodes_null : decodes JNull.
Proof.
  intros level [|fuel] rest Hf Hrest; [simpl in Hf; lia|]. reflexivity.
Qed.

Lemma decodes_bool (b : bool) : decodes (JBool b).
Proof.
  intros level [|fuel] rest Hf Hrest; [simpl in Hf; lia|].
  destruct b; reflexivity.
Qed.

Lemma decodes_str (s : pystr) : decodes (JStr s).
Proof.
  intros level [|fuel] rest Hf Hrest; [simpl in Hf; lia|].
  change (encode level (JStr s) ++ rest)
    with (c_quote :: (flat_map escape_char s ++ [c_quote]) ++ rest).
  rewrite <- app_assoc.
  change (scan_once (S fuel) (c_quote :: ?t))
    with (match scanstring t with
          | Some (str, rest0) => Some (JStr str, rest0)
          | None => None
          end).
  simpl app. now rewrite scanstring_encode.
Qed.

Lemma decodes_int (z : Z) : decodes (JInt z).
Proof.
  intros level [|fuel] rest Hf Hrest; [simpl in Hf; lia|].
  change (encode level (JInt z)) with (encode_int z).
  pose proof (scan_number_encode z rest Hrest) as Hnum.
  destruct (encode_int_head z) as (c & r & E & Hc).
  rewrite E in *. cbn [app] in *.
  assert (Hq : (c =? c_quote)%N = false
               /\ (c =? c_lbrace)%N = false
               /\ (c =? c_lbracket)%N = false
               /\ (c =? 110)%N = false /\ (c =? 116)%N = false
               /\ (c =? 102)%N = false).
  { destruct Hc as [->|Hc]; [repeat split|].
    unfold is_digit in Hc. apply andb_true_iff in Hc as [H1 H2].
    apply N.leb_le in H1, H2.
    unfold c_quote, c_lbrace, c_lbracket.
    repeat split; apply N.eqb_neq; lia. }
  destruct Hq as (H1 & H2 & H3 & H4 & H5 & H6).
  cbn [scan_once]. rewrite H1, H2, H3.
  change (u8 "null") with [110; 117; 108; 108]%N.
  change (u8 "true") with [116; 114; 117; 101]%N.
  change (u8 "false") with [102; 97; 108; 115; 101]%N.
  cbn [startswith]. rewrite N.eqb_sym, H4. cbn [andb].
  rewrite N.eqb_sym, H5. cbn [andb].
  rewrite N.eqb_sym, H6. cbn [andb].
  exact Hnum.
Qed.

(** The items of a list, after the first one has been located. *)
Lemma scan_items_text (level closing : nat) (xs : list json) :
  Forall decodes xs ->
  forall (x : json) (fuel : nat) (rest : pystr),
    decodes x ->
    items_size (x :: xs) <= fuel ->
    scan_items fuel (encode level x ++ items_text level closing xs rest)
    = Some (x :: xs, rest).
Proof.
  induction 1 as [|y ys Hy Hys IH];
    intros x [|fuel] rest Hx Hf; try (simpl in Hf; lia).
  - cbn [scan_items].
    rewrite Hx;
      [|simpl in Hf; lia|apply (delimited_items_text level closing [])].
    cbn [items_text]. rewrite skip_ws_indent
      by (apply starts_nonws_cons; reflexivity).
    reflexivity.
  - cbn [scan_items].
    rewrite Hx;
      [|simpl in Hf; lia|apply (delimited_items_text level closing (y :: ys))].
    cbn [items_text].
    rewrite (@skip_ws_nonws (c_comma :: _))
      by (apply starts_nonws_cons; reflexivity).
    cbv beta iota.
    change (c_comma =? c_rbracket)%N with false.
    change (c_comma =? c_comma)%N with true. cbv iota.
    rewrite skip_ws_indent
      by (apply starts_nonws_app, encode_starts_nonws).
    rewrite IH; [reflexivity|assumption|].
    unfold items_size in *. simpl in *. lia.
Qed.

Lemma member_text (level : nat) (k : pystr) (x : json) (t : pystr) :
  encode_member level (k, x) ++ t
  = c_quote
    :: (flat_map escape_char k
        ++ c_quote :: c_colon :: c_space :: encode level x ++ t).
Proof.
  unfold encode_member, encode_basestring. simpl.
  now rewrite <- !app_assoc.
Qed.

(** The members of a dict, after the opening quote of the first key. *)
Lemma scan_members_text (level closing : nat) (ms : list (pystr * json)) :
  Forall (fun kv => decodes (snd kv)) ms ->
  forall (k : pystr) (x : json) (fuel : nat) (rest : pystr),
    decodes x ->
    members_size ((k, x) :: ms) <= fuel ->
    scan_members fuel
      (flat_map escape_char k
       ++ c_quote :: c_colon :: c_space :: encode level x
       ++ members_text level closing ms rest)
    = Some ((k, x) :: ms, rest).
Proof.
  induction 1 as [|[k' y] ys Hy Hys IH];
    intros k x [|fuel] rest Hx Hf;
    try (unfold members_size in Hf; simpl in Hf; lia).
  - cbn [scan_members]. rewrite scanstring_encode.
    rewrite (@skip_ws_nonws (c_colon :: _))
      by (apply starts_nonws_cons; reflexivity).
    cbv beta iota. change (c_colon =? c_colon)%N with true. cbv iota.
    change (skip_ws (c_space :: ?t)) with (skip_ws t).
    rewrite skip_ws_nonws by (apply starts_nonws_app, encode_starts_nonws).
    rewrite Hx;
      [|unfold members_size in Hf; simpl in Hf; lia
       |apply (delimited_members_text level closing [])].
    cbn [members_text]. rewrite skip_ws_indent
      by (apply starts_nonws_cons; reflexivity).
    reflexivity.
  - cbn [scan_members]. rewrite scanstring_encode.
    rewrite (@skip_ws_nonws (c_colon :: _))
      by (apply starts_nonws_cons; reflexivity).
    cbv beta iota. change (c_colon =? c_colon)%N with true. cbv iota.
    change (skip_ws (c_space :: ?t)) with (skip_ws t).
    rewrite skip_ws_nonws by (apply starts_nonws_app, encode_starts_nonws).
    rewrite Hx;
      [|unfold members_size in Hf; simpl in Hf; lia
       |apply (delimited_members_text level closing ((k', y) :: ys))].
    cbn [members_text].
    rewrite (@skip_ws_nonws (c_comma :: _))
      by (apply starts_nonws_cons; reflexivity).
    cbv beta iota.
    change (c_comma =? c_rbrace)%N with false.
    change (c_comma =? c_comma)%N with true. cbv iota.
    rewrite member_text.
    rewrite skip_ws_indent by (apply starts_nonws_cons; reflexivity).
    cbv beta iota. change (c_quote =? c_quote)%N with true. cbv iota.
    simpl in Hy.
    rewrite IH; [reflexivity|assumption|].
    unfold members_size in *. simpl in *. lia.
Qed.

(** *** Dicts with distinct keys *)

Lemma dict_set_fresh (d : list (pystr * json)) (k : pystr) (v : json) :
  ~ In k (map fst d) -> dict_set d k v = d ++ [(k, v)].
Proof.
  induction d as [|[k' v'] d IH]; simpl; intros H; [reflexivity|].
  destruct (PyStr.eqb k k') eqn:E.
  - apply eqb_eq in E. subst k'. exfalso. apply H. now left.
  - rewrite IH; [reflexivity|]. intros Hin. apply H. now right.
Qed.

Lemma fold_dict_set (l d : list (pystr * json)) :
  NoDup (map fst (d ++ l)) ->
  fold_left (fun acc kv => dict_set acc (fst kv) (snd kv)) l d = d ++ l.
Proof.
  revert d. induction l as [|[k v] l IH]; intros d H; simpl.
  - now rewrite app_nil_r.
  - rewrite dict_set_fresh.
    + rewrite IH; rewrite <- app_assoc; [reflexivity|exact H].
    + rewrite map_app in H. simpl in H.
      apply NoDup_remove_2 in H. intros Hin. apply H.
      apply in_or_app. now left.
Qed.

Lemma dict_of_pairs_distinct (members : list (pystr * json)) :
  NoDup (map fst members) -> dict_of_pairs members = members.
Proof. intros H. unfold dict_of_pairs. now rewrite fold_dict_set. Qed.

Lemma well_formed_items (items : list json) :
  well_formed (JArr items) -> Forall well_formed items.
Proof.
  induction items as [|x xs IH]; intros H; constructor.
  - apply H.
  - apply IH. apply H.
Qed.

Lemma well_formed_members (members : list (pystr * json)) :
  well_formed (JObj members) ->
  NoDup (map fst members)
  /\ Forall (fun kv => well_formed (snd kv)) members.
Proof.
  intros [Hnd H]. split; [exact Hnd|]. clear Hnd.
  induction members as [|m ms IH]; constructor.
  - apply H.
  - apply IH. apply H.
Qed.

Lemma encode_arr_text (level : nat) (x : json) (xs : list json)
    (rest : pystr) :
  encode level (JArr (x :: xs)) ++ rest
  = c_lbracket
    :: newline_indent (S level)
       ++ encode (S level) x ++ items_text (S level) level xs rest.
Proof.
  change (encode level (JArr (x :: xs)))
    with (c_lbracket
          :: newline_indent (S level)
             ++ join (c_comma :: newline_indent (S level))
                     (map (encode (S level)) (x :: xs))
             ++ newline_indent level ++ [c_rbracket]).
  rewrite <- join_items, <- app_comm_cons, <- !app_assoc. reflexivity.
Qed.

Lemma encode_obj_text (level : nat) (k : pystr) (x : json)
    (ms : list (pystr * json)) (rest : pystr) :
  encode level (JObj ((k, x) :: ms)) ++ rest
  = c_lbrace
    :: newline_indent (S level)
       ++ c_quote
          :: (flat_map escape_char k
              ++ c_quote :: c_colon :: c_space :: encode (S level) x
              ++ members_text (S level) level ms rest).
Proof.
  change (encode level (JObj ((k, x) :: ms)))
    with (c_lbrace
          :: newline_indent (S level)
             ++ join (c_comma :: newline_indent (S level))
                     (map (encode_member (S level)) ((k, x) :: ms))
             ++ newline_indent level ++ [c_rbrace]).
  rewrite <- member_text, <- join_members, <- app_comm_cons, <- !app_assoc.
  reflexivity.
Qed.

(** Decoding the encoding of a value with distinct dict keys gives the
    value back, whatever follows it. *)
Theorem decode_encode (v : json) : well_formed v -> decodes v.
Proof.
  induction v as [ | b | z | s | items IH | members IH ]
    using json_induction; intros Hwf.
  - apply decodes_null.
  - apply decodes_bool.
  - apply decodes_int.
  - apply decodes_str.
  - assert (Hdec : Forall decodes items).
    { apply well_formed_items in Hwf.
      rewrite Forall_forall in *. intros x Hx. apply IH; auto. }
    clear IH Hwf.
    intros level [|fuel] rest Hf Hrest; [simpl in Hf; lia|].
    destruct items as [|x xs]; [reflexivity|].
    rewrite encode_arr_text.
    inversion Hdec as [|? ? Hx Hxs]; subst.
    pose proof (@scan_items_text (S level) level xs Hxs x fuel rest Hx)
      as Hitems.
    cbn [scan_once].
    change (c_lbracket =? c_quote)%N with false.
    change (c_lbracket =? c_lbrace)%N with false.
    change (c_lbracket =? c_lbracket)%N with true. cbv iota.
    rewrite skip_ws_indent by (apply starts_nonws_app, encode_starts_nonws).
    destruct (encode_head (S level) x) as (c & r & E & _ & Hc).
    rewrite E in *. cbn [app] in *. rewrite Hc, Hitems; [reflexivity|].
    simpl in Hf. unfold items_size. simpl. lia.
  - apply well_formed_members in Hwf as [Hnd Hwf].
    assert (Hdec : Forall (fun kv => decodes (snd kv)) members).
    { rewrite Forall_forall in *. intros x Hx. apply IH; auto. }
    clear IH Hwf.
    intros level [|fuel] rest Hf Hrest; [simpl in Hf; lia|].
    destruct members as [|[k x] ms]; [reflexivity|].
    rewrite encode_obj_text.
    inversion Hdec as [|? ? Hx Hxs]; subst. simpl in Hx.
    cbn [scan_once].
    change (c_lbrace =? c_quote)%N with false.
    change (c_lbrace =? c_lbrace)%N with true. cbv iota.
    rewrite skip_ws_indent by (apply starts_nonws_cons; reflexivity).
    cbv beta iota.
    change (c_quote =? c_rbrace)%N with false.
    change (c_quote =? c_quote)%N with true. cbv iota.
    rewrite (@scan_members_text (S level) level ms Hxs k x fuel rest Hx).
    + now rewrite dict_of_pairs_distinct.
    + simpl in Hf. unfold members_size. simpl. lia.
Qed.

(** *** Fuel *)

Lemma items_text_length (level closing : nat) (xs : list json)
    (rest : pystr) :
  Forall (fun x => forall l, json_size x <= List.length (encode l x)) xs ->
  items_size xs <= List.length (items_text level closing xs rest).
Proof.
  induction 1 as [|x xs Hx Hxs IH]; simpl; [lia|].
  rewrite !length_app. specialize (Hx level).
  unfold items_size in *. lia.
Qed.

Lemma members_text_length (level closing : nat) (ms : list (pystr * json))
    (rest : pystr) :
  Forall (fun kv => forall l, json_size (snd kv)
                              <= List.length (encode l (snd kv))) ms ->
  members_size ms <= List.length (members_text level closing ms rest).
Proof.
  induction 1 as [|[k x] ms Hx Hxs IH]; simpl; [lia|].
  rewrite !length_app. specialize (Hx level). simpl in Hx.
  unfold members_size in *. simpl. rewrite !length_app. simpl. lia.
Qed.

Lemma encode_nonempty (level : nat) (v : json) :
  1 <= List.length (encode level v).
Proof.
  destruct (encode_head level v) as (c & r & -> & _). simpl. lia.
Qed.

Lemma json_size_length (v : json) :
  forall level, json_size v <= List.length (encode level v).
Proof.
  induction v as [ | b | z | s | items IH | members IH ]
    using json_induction; intros level;
    try apply encode_nonempty.
  - destruct items as [|x xs]; [simpl; lia|].
    rewrite <- (app_nil_r (encode level (JArr (x :: xs)))).
    rewrite encode_arr_text.
    inversion IH as [|? ? Hx Hxs]; subst.
    pose proof (items_text_length (S level) level [] Hxs) as Hlen.
    specialize (Hx (S level)).
    simpl. rewrite !length_app. unfold items_size in *. lia.
  - destruct members as [|[k x] ms]; [simpl; lia|].
    rewrite <- (app_nil_r (encode level (JObj ((k, x) :: ms)))).
    rewrite encode_obj_text.
    inversion IH as [|? ? Hx Hxs]; subst.
    pose proof (members_text_length (S level) level [] Hxs) as Hlen.
    specialize (Hx (S level)). simpl in Hx.
    simpl. rewrite !length_app. simpl. rewrite !length_app. simpl.
    unfold members_size in *. rewrite !length_app. lia.
Qed.

(** [json.loads(json.dumps(v, ensure_ascii=False, indent=2)) == v] *)
Theorem loads_dumps (v : json) : well_formed v -> loads (dumps v) = Some v.
Proof.
  intros Hwf. unfold loads, dumps.
  rewrite skip_ws_nonws by apply encode_starts_nonws.
  pose proof (@decode_encode v Hwf 0 (S (List.length (encode 0 v))) []) as H.
  rewrite app_nil_r in H. rewrite H.
  - reflexivity.
  - pose proof (json_size_length v 0). lia.
  - exact I.
Qed.

End JsonFacts.






(* ------------------------------------------------------------------ *)
(** ** Serializing *)

Module TraceFacts.

Import Scraper.

Lemma writes_app (t1 t2 : list event) :
  writes (t1 ++ t2) = writes t1 ++ writes t2.
Proof.
  induction t1 as [|ev t1 IH]; simpl; [reflexivity|].
  destruct ev; simpl; now rewrite ?IH.
Qed.

End TraceFacts.

Module SaveFacts.

Import Scraper.

Ltac distinct_keys :=
  repeat (constructor;
          [ simpl; intros Hin;
            repeat (destruct Hin as [Hin|Hin]; [discriminate Hin|]);
            exact Hin
          | ]);
  try constructor.

Lemma well_formed_arr (items : list json) :
  Forall well_formed items -> well_formed (JArr items).
Proof. induction 1; simpl; auto. Qed.

Lemma job_dict_well_formed (j : job) : well_formed (job_dict j).
Proof.
  simpl. split; [|tauto].
  change (NoDup [u8 "title"; u8 "company"; u8 "category";
                 u8 "description"; u8 "link"; u8 "is_remote";
                 u8 "is_own_pc_ok"; u8 "scraped_at"; u8 "source"]).
  vm_compute. distinct_keys.
Qed.

Lemma job_of_dict_job_dict (j : job) : job_of_dict (job_dict j) = Some j.
Proof. destruct j. reflexivity. Qed.

Section Save.

Variable w : world.

Lemma output_data_well_formed (timestamp : pystr) (js : list job) :
  well_formed (output_data w timestamp js).
Proof.
  unfold output_data.
  assert (Hjobs : well_formed (JArr (map job_dict js))).
  { apply well_formed_arr. apply Forall_forall. intros x Hx.
    apply in_map_iff in Hx as (j & <- & _). apply job_dict_well_formed. }
  assert (Hsites : well_formed
            (JArr (map JStr (set_order w (distinct (map source js)))))).
  { apply well_formed_arr. apply Forall_forall. intros x Hx.
    apply in_map_iff in Hx as (j & <- & _). exact I. }
  split.
  - vm_compute. distinct_keys.
  - split; [|split; [exact Hjobs|exact I]].
    split; [vm_compute; distinct_keys|].
    simpl. tauto.
Qed.

(** Parsing what the serializer wrote gives the document back. *)
Lemma loads_output_data (timestamp : pystr) (js : list job) :
  loads (dumps (output_data w timestamp js))
  = Some (output_data w timestamp js).
Proof. apply JsonFacts.loads_dumps, output_data_well_formed. Qed.

Lemma jobs_array_output_data (timestamp : pystr) (js : list job) :
  jobs_array (output_data w timestamp js) = Some (map job_dict js).
Proof. reflexivity. Qed.

Lemma total_jobs_output_data (timestamp : pystr) (js : list job) :
  total_jobs (output_data w timestamp js)
  = Some (Z.of_nat (List.length js)).
Proof. reflexivity. Qed.

(** What [save_to_json] does, by the outcome of the write. *)
Lemma save_to_json_run (filename : pystr) (s : state) :
  let filtered := filter retained (jobs s) in
  let content := dumps (document w s) in
  save_to_json w filename s
  = if utf8_encodable content then
      match fs_write w filename content with
      | None =>
          (Ret (Some filename),
           after (filtered_state s) 0
             [EvWrite filename content;
              EvLog (LogSaved filename (List.length filtered))])
      | Some e =>
          (Ret None, after (filtered_state s) 0 [EvLog (LogSaveError e)])
      end
    else
      (Ret None,
       after (filtered_state s) 0
         [EvLog (LogSaveError (mkExn UnicodeEncodeError filename))]).
Proof.
  intros filtered content. subst filtered content.
  unfold document, after, filtered_state.
  cbv [save_to_json try_except bind filter_remote_jobs get_jobs
       log emit now write_file raise ret
       jobs http_calls clock_reads trace].
  rewrite Nat.add_0_r.
  destruct (utf8_encodable _).
  - destruct (fs_write w filename _) as [e|].
    + reflexivity.
    + now rewrite <- app_assoc.
  - reflexivity.
Qed.

(** [save_to_json] never lets an exception through. *)
Lemma save_to_json_returns (filename : pystr) (s : state) :
  exists r s', save_to_json w filename s = (Ret r, s').
Proof.
  rewrite save_to_json_run.
  destruct (utf8_encodable _); [destruct (fs_write _ _ _)|]; eauto.
Qed.

(** The decoded document holds the records and their number. *)
Lemma parsed_output_data (timestamp : pystr) (records : list job) :
  exists doc items,
    loads (dumps (output_data w timestamp records)) = Some doc
    /\ jobs_array doc = Some items
    /\ map job_of_dict items = map Some records
    /\ total_jobs doc = Some (Z.of_nat (List.length items)).
Proof.
  exists (output_data w timestamp records), (map job_dict records).
  split; [apply loads_output_data|].
  split; [reflexivity|]. split.
  - rewrite map_map. apply map_ext. apply job_of_dict_job_dict.
  - rewrite length_map. reflexivity.
Qed.

(** A successful [save_to_json] wrote the document of the retained
    records. *)
Lemma saved_document (filename f : pystr) (s s' : state) :
  save_to_json w filename s = (Ret (Some f), s') ->
  exists content doc items,
    writes (trace s') = writes (trace s) ++ [(filename, content)]
    /\ loads content = Some doc
    /\ jobs_array doc = Some items
    /\ map job_of_dict items = map Some (filter retained (jobs s))
    /\ total_jobs doc = Some (Z.of_nat (List.length items)).
Proof.
  intros Hsave.
  pose proof (save_to_json_run filename s) as H.
  cbv zeta in H. rewrite Hsave in H.
  destruct (utf8_encodable (dumps (document w s))); [|discriminate].
  destruct (fs_write w filename (dumps (document w s))); [discriminate|].
  injection H as -> ->.
  destruct (parsed_output_data (now_iso w (clock_reads s))
              (filter retained (jobs s)))
    as (doc & items & Hloads & Hitems & Hrec & Htotal).
  exists (dumps (document w s)), doc, items.
  split; [|now repeat split].
  simpl. rewrite !TraceFacts.writes_app. simpl. now rewrite app_nil_r.
Qed.

(** [save_to_json] leaves [self.jobs] as it is. *)
Lemma save_to_json_jobs (filename : pystr) (s : state) :
  jobs (snd (save_to_json w filename s)) = jobs s.
Proof.
  rewrite save_to_json_run.
  destruct (utf8_encodable _); [destruct (fs_write _ _ _)|]; reflexivity.
Qed.

End Save.

End SaveFacts.




(** C7, as the code has it.  When the write succeeds, [save_to_json]
    returns the file name and the file holds the encoded document.  When
    the write fails with an I/O error, the error is caught: it is logged
    and [save_to_json] returns [None], with nothing written.  No
    exception leaves [save_to_json]. *)
Theorem save_to_json_outcomes (w : world) (filename : pystr)
    (s : Scraper.state) :
  let content := dumps (document w s) in
  (Scraper.utf8_encodable content = true ->
   fs_write w filename content = None ->
   exists s',
     Scraper.save_to_json w filename s = (Ret (Some filename), s')
     /\ writes (Scraper.trace s')
        = writes (Scraper.trace s) ++ [(filename, content)])
  /\ (forall e,
       Scraper.utf8_encodable content = true ->
       fs_write w filename content = Some e ->
       exists s',
         Scraper.save_to_json w filename s = (Ret None, s')
         /\ Scraper.trace s'
            = Scraper.trace (filtered_state s)
              ++ [Scraper.EvLog (Scraper.LogSaveError e)]
         /\ writes (Scraper.trace s') = writes (Scraper.trace s))
  /\ (forall e s', Scraper.save_to_json w filename s <> (Raise e, s')).
Proof.
  intros content. pose proof (SaveFacts.save_to_json_run w filename s) as H.
  cbv zeta in H. fold content in H.
  split; [|split].
  - intros Henc Hw. rewrite Henc, Hw in H. eexists. split; [exact H|].
    simpl. rewrite !TraceFacts.writes_app. simpl.
    now rewrite app_nil_r.
  - intros e Henc Hw. rewrite Henc, Hw in H. eexists. split; [exact H|].
    split; [reflexivity|].
    simpl. rewrite !TraceFacts.writes_app. simpl.
    now rewrite !app_nil_r.
  - intros e s' Heq.
    destruct (SaveFacts.save_to_json_returns w filename s) as (r & s'' & Hr).
    congruence.
Qed.

Lemma save_to_json_outcomes_witness :
  (exists s',
      Scraper.save_to_json Toy.offline Scraper.default_filename
        Scraper.initial
      = (Ret (Some Scraper.default_filename), s'))
  /\ (exists s',
        Scraper.save_to_json (Toy.read_only (u8 "<html/>"))
          Scraper.default_filename Scraper.initial
        = (Ret None, s')).
Proof.
  split.
  - destruct (proj1 (save_to_json_outcomes Toy.offline
                       Scraper.default_filename Scraper.initial))
      as (s' & H & _); [reflexivity | reflexivity |].
    exists s'. exact H.
  - destruct (proj1 (proj2 (save_to_json_outcomes
                              (Toy.read_only (u8 "<html/>"))
                              Scraper.default_filename Scraper.initial))
                Toy.disk_full_error)
      as (s' & H & _); [reflexivity | reflexivity |].
    exists s'. exact H.
Defined.

(** The write fails with an I/O error, and [save_to_json] returns
    [None] instead of failing with an error. *)
Lemma save_failure_counterexample :
  let w := Toy.read_only (u8 "<html/>") in
  fs_write w Scraper.default_filename (dumps (document w Scraper.initial))
  = Some Toy.disk_full_error
  /\ fst (Scraper.save_to_json w Scraper.default_filename Scraper.initial)
     = Ret None
  /\ forall e,
       fst (Scraper.save_to_json w Scraper.default_filename Scraper.initial)
       <> Raise e.
Proof.
  cbv zeta. split; [reflexivity|]. split; [reflexivity|].
  intros e. discriminate.
Qed.

(** C8. Parsing the document the serializer writes for a list of
    records recovers a [jobs] array that is the list of these records,
    field for field and in the same order, and a [metadata.total_jobs]
    equal to the length of that array; and when [save_to_json] succeeds,
    the file it wrote is that document for the retained records. *)
Theorem json_round_trip (w : world) :
  (forall (timestamp : pystr) (records : list Scraper.job),
      exists doc items,
        loads (dumps (Scraper.output_data w timestamp records)) = Some doc
        /\ jobs_array doc = Some items
        /\ map Scraper.job_of_dict items = map Some records
        /\ total_jobs doc = Some (Z.of_nat (List.length items)))
  /\ (forall (filename f : pystr) (s s' : Scraper.state),
      Scraper.save_to_json w filename s = (Ret (Some f), s') ->
      let records := filter Scraper.retained (Scraper.jobs s) in
      exists content doc items,
        writes (Scraper.trace s')
        = writes (Scraper.trace s) ++ [(filename, content)]
        /\ loads content = Some doc
        /\ jobs_array doc = Some items
        /\ map Scraper.job_of_dict items = map Some records
        /\ total_jobs doc = Some (Z.of_nat (List.length items))).
Proof.
  split.
  - apply SaveFacts.parsed_output_data.
  - intros filename f s s' Hsave records.
    exact (@SaveFacts.saved_document w filename f s s' Hsave).
Qed.

Lemma json_round_trip_witness :
  exists content doc items,
    writes (Scraper.trace
              (snd (Scraper.save_to_json Toy.offline Scraper.default_filename
                      (with_samples Toy.offline Scraper.initial))))
    = [(Scraper.default_filename, content)]
    /\ loads content = Some doc
    /\ jobs_array doc = Some items
    /\ map Scraper.job_of_dict items
       = map Some (samples_at Toy.offline Scraper.initial)
    /\ total_jobs doc = Some 3%Z.
Proof.
  destruct (proj2 (json_round_trip Toy.offline)
              Scraper.default_filename Scraper.default_filename
              (with_samples Toy.offline Scraper.initial) _ eq_refl)
    as (content & doc & items & Hw & Hl & Hi & Hr & Ht).
  exists content, doc, items.
  split; [exact Hw|]. split; [exact Hl|]. split; [exact Hi|].
  split; [exact Hr|].
  rewrite Ht. f_equal.
  assert (Hlen : List.length (map Scraper.job_of_dict items) = 3)
    by now rewrite Hr.
  rewrite length_map in Hlen. now rewrite Hlen.
Defined.


(* ------------------------------------------------------------------ *)
(** ** A run *)

Module RunFacts.

Import Scraper.

Section Run.

Context {soup elem : Type} {Q : HtmlQuery soup elem} {L : StrLib}.
Variable w : world.

(** [scrape_job_listings] catches every exception. *)
Lemma scrape_job_listings_returns (s : state) :
  scrape_job_listings w s = (Ret tt, scraped w s).
Proof.
  unfold scraped, scrape_job_listings, try_except.
  match goal with
  | |- context [match ?m s with _ => _ end] => destruct (m s) as [[[]|e] s1]
  end; reflexivity.
Qed.

Lemma add_sample_jobs_run (s : state) :
  (log LogFewJobs ;; add_sample_jobs w)%py s = (Ret tt, with_samples w s).
Proof.
  cbv [add_sample_jobs bind log emit now extend_jobs get_jobs set_jobs ret
       with_samples samples_at jobs http_calls clock_reads trace].
  now rewrite <- app_assoc.
Qed.

(** The state in which [run] calls [save_to_json]. *)
Lemma collect_jobs_run (s : state) :
  collect_jobs w s
  = (Ret tt,
     if List.length (jobs (scraped w s)) <? 3
     then with_samples w (scraped w s)
     else scraped w s).
Proof.
  unfold collect_jobs. unfold bind at 1.
  rewrite scrape_job_listings_returns.
  unfold bind at 1. unfold get_jobs at 1.
  destruct (List.length (jobs (scraped w s)) <? 3).
  - apply add_sample_jobs_run.
  - reflexivity.
Qed.

Lemma report_returns (o : option pystr) (s : state) :
  exists r s', report o s = (Ret r, s').
Proof. destruct o; cbv [report bind log emit ret]; eauto. Qed.

(** [run] is the serializer and the report, run in the state that
    [collect_jobs] leaves. *)
Lemma run_run (s : state) :
  run w s
  = bind (save_to_json w default_filename) report
      (snd (collect_jobs w (started s))).
Proof.
  unfold run. unfold bind at 1. unfold log at 1. unfold emit at 1.
  assert (Hs : {| jobs := jobs s; http_calls := http_calls s;
                  clock_reads := clock_reads s;
                  trace := trace s ++ [EvLog LogStart] |} = started s).
  { unfold started, after. now rewrite Nat.add_0_r. }
  rewrite Hs. unfold try_except. unfold bind at 1.
  rewrite collect_jobs_run. cbn [snd]. unfold bind.
  destruct (SaveFacts.save_to_json_returns w default_filename
              (if List.length (jobs (scraped w (started s))) <? 3
               then with_samples w (scraped w (started s))
               else scraped w (started s))) as (r & s1 & ->).
  destruct (report_returns r s1) as (r' & s2 & ->). reflexivity.
Qed.

Lemma report_jobs (o : option pystr) (s : state) :
  jobs (snd (report o s)) = jobs s
  /\ writes (trace (snd (report o s))) = writes (trace s)
  /\ fst (report o s) = Ret o.
Proof.
  destruct o; cbv [report bind log emit ret snd fst jobs trace];
    rewrite TraceFacts.writes_app; simpl; now rewrite app_nil_r.
Qed.

End Run.

Lemma sample_jobs_shape (t1 t2 t3 : pystr) :
  let samples := sample_jobs t1 t2 t3 in
  List.length samples = 3
  /\ Forall (fun j => is_remote j = true
                      /\ is_own_pc_ok j = true
                      /\ source j = u8 "Sample Data") samples
  /\ NoDup (map title samples)
  /\ NoDup (map company samples).
Proof.
  cbv zeta. split; [reflexivity|]. split.
  - repeat constructor.
  - split; vm_compute; SaveFacts.distinct_keys.
Qed.

End RunFacts.

(** C6. [run] calls the serializer in the state that scraping leaves,
    extended as follows.  When fewer than 3 records were collected,
    exactly 3 sample records are appended to the record list: fixed
    records with [is_remote] and [is_own_pc_ok] true, source
    ["Sample Data"], pairwise distinct titles and pairwise distinct
    companies.  When 3 or more were collected, the record list is left as
    it is. *)
Theorem sample_injection {soup elem : Type} {Q : HtmlQuery soup elem}
    {L : StrLib} (w : world) (s : Scraper.state) :
  let s1 := scraped w (started s) in
  exists s2,
    Scraper.collect_jobs w (started s) = (Ret tt, s2)
    /\ Scraper.run w s
       = Scraper.bind (Scraper.save_to_json w Scraper.default_filename)
           Scraper.report s2
    /\ (List.length (Scraper.jobs s1) < 3 ->
        exists t1 t2 t3,
          let samples := Scraper.sample_jobs t1 t2 t3 in
          Scraper.jobs s2 = Scraper.jobs s1 ++ samples
          /\ List.length samples = 3
          /\ Forall (fun j => Scraper.is_remote j = true
                              /\ Scraper.is_own_pc_ok j = true
                              /\ Scraper.source j = u8 "Sample Data")
                    samples
          /\ NoDup (map Scraper.title samples)
          /\ NoDup (map Scraper.company samples))
    /\ (3 <= List.length (Scraper.jobs s1) -> s2 = s1).
Proof.
  intros s1. eexists. split; [apply RunFacts.collect_jobs_run|].
  split.
  - rewrite RunFacts.run_run, RunFacts.collect_jobs_run. reflexivity.
  - fold s1. split.
    + intros Hlt. apply Nat.ltb_lt in Hlt. rewrite Hlt.
      exists (now_iso w (Scraper.clock_reads s1)),
             (now_iso w (S (Scraper.clock_reads s1))),
             (now_iso w (S (S (Scraper.clock_reads s1)))).
      split; [reflexivity|]. apply RunFacts.sample_jobs_shape.
    + intros Hge. apply Nat.ltb_ge in Hge. now rewrite Hge.
Qed.

Lemma sample_injection_witness :
  exists s2 t1 t2 t3,
    Scraper.collect_jobs (Q := Toy.query (fun _ => [])) (L := Toy.strlib)
      Toy.offline (started Scraper.initial) = (Ret tt, s2)
    /\ Scraper.jobs s2 = Scraper.sample_jobs t1 t2 t3
    /\ (exists s3,
          Scraper.collect_jobs (Q := Toy.query (fun _ => Toy.office_page))
            (L := Toy.strlib) (Toy.flaky 0 (u8 "<html/>"))
            (started Scraper.initial) = (Ret tt, s3)
          /\ List.length (Scraper.jobs s3) = 3
          /\ Forall (fun j => Scraper.source j = u8 "Reworker")
                    (Scraper.jobs s3)).
Proof.
  destruct (@sample_injection _ _ (Toy.query (fun _ => [])) Toy.strlib
              Toy.offline Scraper.initial)
    as (s2 & Hc & _ & Hlow & _).
  destruct Hlow as (t1 & t2 & t3 & Hjobs & _); [vm_compute; lia|].
  exists s2, t1, t2, t3. split; [exact Hc|]. split; [exact Hjobs|].
  destruct (@sample_injection _ _ (Toy.query (fun _ => Toy.office_page))
              Toy.strlib (Toy.flaky 0 (u8 "<html/>")) Scraper.initial)
    as (s3 & Hc3 & _ & _ & Hhigh).
  exists s3. split; [exact Hc3|].
  rewrite Hhigh by (vm_compute; lia).
  split; [reflexivity|]. vm_compute. repeat constructor.
Defined.


(** C10. Whether sample records are added depends on the number of
    records collected, not on the number retained.  In a run that
    collects 3 or more records of which fewer than 3 are remote and
    own-PC, no sample record is added, and the file it writes has a
    [jobs] array of the retained records only, fewer than 3.  There is
    such a run whose file has an empty [jobs] array. *)
Theorem no_samples_after_filter :
  (forall (soup elem : Type) (Q : HtmlQuery soup elem) (L : StrLib)
          (w : world) (s : Scraper.state),
      let s1 := scraped w (started s) in
      let records := filter Scraper.retained (Scraper.jobs s1) in
      3 <= List.length (Scraper.jobs s1) ->
      List.length records < 3 ->
      forall f s3,
        Scraper.run w s = (Ret (Some f), s3) ->
        Scraper.jobs s3 = Scraper.jobs s1
        /\ exists content doc items,
             writes (Scraper.trace s3)
             = writes (Scraper.trace s1)
               ++ [(Scraper.default_filename, content)]
             /\ loads content = Some doc
             /\ jobs_array doc = Some items
             /\ map Scraper.job_of_dict items = map Some records
             /\ List.length items < 3)
  /\ (exists s3 content doc,
        Scraper.run (Q := Toy.query (fun _ => Toy.office_page))
          (L := Toy.strlib) (Toy.flaky 0 (u8 "<html/>")) Scraper.initial
        = (Ret (Some Scraper.default_filename), s3)
        /\ List.length (Scraper.jobs s3) = 3
        /\ writes (Scraper.trace s3) = [(Scraper.default_filename, content)]
        /\ loads content = Some doc
        /\ jobs_array doc = Some []).
Proof.
  split.
  - intros soup elem Q L w s s1 records Hge Hlt f s3 Hrun.
    rewrite RunFacts.run_run, RunFacts.collect_jobs_run in Hrun.
    fold s1 in Hrun. apply Nat.ltb_ge in Hge. rewrite Hge in Hrun.
    cbn [snd] in Hrun. unfold Scraper.bind in Hrun.
    pose proof (SaveFacts.save_to_json_jobs w Scraper.default_filename s1)
      as Hjobs.
    destruct (SaveFacts.save_to_json_returns w Scraper.default_filename s1)
      as (r & s2 & Hsave).
    rewrite Hsave in Hrun, Hjobs. cbn [snd] in Hjobs.
    destruct (RunFacts.report_jobs r s2) as (Hrj & Hrw & Hrr).
    rewrite Hrun in Hrj, Hrw, Hrr. cbn [fst snd] in Hrj, Hrw, Hrr.
    injection Hrr as <-.
    split; [congruence|].
    destruct (@SaveFacts.saved_document w _ _ _ _ Hsave)
      as (content & doc & items & Hw & Hl & Hi & Hr & _).
    exists content, doc, items.
    split; [congruence|]. split; [exact Hl|]. split; [exact Hi|].
    split; [exact Hr|].
    assert (Hlen : List.length (map Scraper.job_of_dict items)
                   = List.length (map Some records))
      by now rewrite Hr.
    rewrite !length_map in Hlen. now rewrite Hlen.
  - eexists. eexists. eexists.
    split; [vm_compute; reflexivity|].
    split; [reflexivity|]. split; [reflexivity|].
    split; [vm_compute; reflexivity|]. reflexivity.
Qed.

Lemma no_samples_after_filter_witness :
  exists s3 content doc,
    Scraper.run (Q := Toy.query (fun _ => Toy.office_page))
      (L := Toy.strlib) (Toy.flaky 0 (u8 "<html/>")) Scraper.initial
    = (Ret (Some Scraper.default_filename), s3)
    /\ List.length (Scraper.jobs s3) = 3
    /\ writes (Scraper.trace s3)
       = [] ++ [(Scraper.default_filename, content)]
    /\ loads content = Some doc
    /\ (exists items, jobs_array doc = Some items /\ List.length items < 3).
Proof.
  eexists.
  destruct (proj1 no_samples_after_filter _ _
              (Toy.query (fun _ => Toy.office_page)) Toy.strlib
              (Toy.flaky 0 (u8 "<html/>")) Scraper.initial
              ltac:(vm_compute; lia) ltac:(vm_compute; lia)
              Scraper.default_filename _ ltac:(vm_compute; reflexivity))
    as (Hjobs & content & doc & items & Hw & Hl & Hi & _ & Hlen).
  exists content, doc.
  split; [vm_compute; reflexivity|].
  split; [reflexivity|].
  split; [exact Hw|]. split; [exact Hl|].
  exists items. split; [exact Hi | exact Hlen].
Defined.


(* ------------------------------------------------------------------ *)
(** ** More on fetching: any retry budget *)

Module BackoffFacts.

Import Scraper.

Lemma gets_app (t1 t2 : list event) : gets (t1 ++ t2) = gets t1 ++ gets t2.
Proof.
  induction t1 as [|ev t1 IH]; simpl; [reflexivity|].
  destruct ev; simpl; now rewrite ?IH.
Qed.

Lemma sleeps_app (t1 t2 : list event) :
  sleeps (t1 ++ t2) = sleeps t1 ++ sleeps t2.
Proof.
  induction t1 as [|ev t1 IH]; simpl; [reflexivity|].
  destruct ev; simpl; now rewrite ?IH.
Qed.

Lemma delays_app (t1 t2 : list event) :
  delays (t1 ++ t2) = delays t1 + delays t2.
Proof.
  induction t1 as [|ev t1 IH]; simpl; [reflexivity|].
  destruct ev; simpl; now rewrite ?IH.
Qed.

Lemma extract_errors_app (t1 t2 : list event) :
  extract_errors (t1 ++ t2) = extract_errors t1 ++ extract_errors t2.
Proof.
  induction t1 as [|ev t1 IH]; simpl; [reflexivity|].
  destruct ev as [m| | | | |]; simpl; rewrite ?IH; try reflexivity.
  destruct m; simpl; now rewrite ?IH.
Qed.

Lemma backoff_from_S (a : Z) (n : nat) :
  backoff_from a (S n) = (2 ^ a)%Z :: backoff_from (a + 1) n.
Proof.
  unfold backoff_from. rewrite <- cons_seq, <- seq_shift.
  cbn [map]. rewrite map_map.
  f_equal.
  - f_equal. simpl. lia.
  - apply map_ext. intros i. f_equal. lia.
Qed.

Section Loop.

Variable w : world.
Variable url : pystr.
Variable retries : Z.

Lemma attempt_outcome_status (k : nat) (r : response) :
  attempt_outcome w k url = Ret r ->
  ((400 <=? status_code r) && (status_code r <? 600))%Z = false.
Proof.
  unfold attempt_outcome. destruct (http_get w k url) as [r'|e]; [|discriminate].
  destruct ((400 <=? status_code r') && (status_code r' <? 600))%Z eqn:E;
    [discriminate|].
  intros H. injection H as <-. exact E.
Qed.

(** Every attempt fails at the transport level: the loop makes all its
    attempts, sleeps after each but the last and raises the last
    failure. *)
Lemma loop_exhausted (m : nat) :
  forall (a : Z) (s : state) (e : nat -> exn),
    retries = (a + Z.of_nat (S m))%Z ->
    (forall i, i < S m -> transport_failure w (http_calls s + i) url (e i)) ->
    exists evs,
      get_page_loop w (S m) a url retries s = (Raise (e m), after s (S m) evs)
      /\ gets evs = repeat url (S m)
      /\ sleeps evs = backoff_from a m
      /\ writes evs = []
      /\ selects evs = [].
Proof.
  induction m as [|m IH]; intros a s e Hr Hfail.
  - pose proof (Hfail 0 ltac:(lia)) as H0. rewrite Nat.add_0_r in H0.
    exists (give_up_events url a retries (e 0)).
    rewrite (@FetchFacts.loop_give_up w 0 a retries url s (e 0) H0) by lia.
    repeat split.
  - pose proof (Hfail 0 ltac:(lia)) as H0. rewrite Nat.add_0_r in H0.
    rewrite (@FetchFacts.loop_retry w (S m) a retries url s (e 0) H0) by lia.
    destruct (IH (a + 1)%Z (after s 1 (retry_events url a retries (e 0)))
                (fun i => e (S i))) as (evs & Hrun & Hg & Hs & Hw & Hsel).
    + lia.
    + intros i Hi. simpl.
      replace (http_calls s + 1 + i) with (http_calls s + S i) by lia.
      apply Hfail. lia.
    + exists (retry_events url a retries (e 0) ++ evs).
      rewrite Hrun, FetchFacts.after_after.
      split; [reflexivity|].
      rewrite gets_app, sleeps_app, TraceFacts.writes_app,
        ListingFacts.selects_app, Hg, Hs, Hw, Hsel, backoff_from_S.
      repeat split.
Qed.

(** Whatever the transport does: the number of requests, the sleeps
    between them and the result. *)
Lemma loop_bounded (m : nat) :
  forall (a : Z) (s : state),
    retries = (a + Z.of_nat m)%Z ->
    exists r n evs,
      get_page_loop w m a url retries s = (r, after s n evs)
      /\ n <= m
      /\ (1 <= m -> 1 <= n)
      /\ gets evs = repeat url n
      /\ sleeps evs = backoff_from a (pred n)
      /\ writes evs = []
      /\ selects evs = []
      /\ delays evs = 0
      /\ match r with
         | Ret (Some resp) =>
             ((400 <=? status_code resp) && (status_code resp <? 600))%Z
             = false
         | Ret None => m = 0
         | Raise _ => True
         end.
Proof.
  induction m as [|m IH]; intros a s Hr.
  - exists (Ret None), 0, []. simpl. unfold ret, after.
    rewrite Nat.add_0_r, app_nil_r. destruct s. repeat split; lia.
  - destruct (attempt_outcome w (http_calls s) url) as [resp|e] eqn:E.
    + exists (Ret (Some resp)), 1, (attempt_events url).
      rewrite (@FetchFacts.loop_success w m a retries url s resp E).
      repeat split; try lia.
      now apply attempt_outcome_status with (k := http_calls s).
    + destruct (is_request_exception e) eqn:Ereq.
      * destruct (Z.lt_ge_cases a (retries - 1)) as [Hlt|Hge].
        -- rewrite (@FetchFacts.loop_retry w m a retries url s e
                      (conj E Ereq) Hlt).
           destruct (IH (a + 1)%Z
                       (after s 1 (retry_events url a retries e)))
             as (r & n & evs & Hrun & Hn & Hpos & Hg & Hs & Hw & Hsel
                 & Hd & Hres); [lia|].
           assert (Hn1 : 1 <= n) by (apply Hpos; lia).
           exists r, (1 + n), (retry_events url a retries e ++ evs).
           rewrite Hrun, FetchFacts.after_after.
           split; [reflexivity|].
           rewrite gets_app, sleeps_app, TraceFacts.writes_app,
             ListingFacts.selects_app, delays_app, Hg, Hs, Hw, Hsel, Hd.
           destruct n as [|n]; [lia|]. simpl pred.
           rewrite backoff_from_S.
           repeat split; try lia.
           destruct r as [[resp|]|x]; try exact Hres; try exact I. lia.
        -- exists (Raise e), 1, (give_up_events url a retries e).
           rewrite (@FetchFacts.loop_give_up w m a retries url s e
                      (conj E Ereq)) by lia.
           repeat split; lia.
      * exists (Raise e), 1, (attempt_events url).
        rewrite (@FetchFacts.loop_other_exception w m a retries url s e
                   E Ereq).
        repeat split; lia.
Qed.

End Loop.

(** [get_page] for any budget: the loop lemma from attempt 0. *)
Lemma get_page_bounded (w : world) (url : pystr) (retries : Z) (s : state) :
  exists r n evs,
    get_page w url retries s = (r, after s n evs)
    /\ n <= Z.to_nat retries
    /\ gets evs = repeat url n
    /\ sleeps evs = backoff (pred n)
    /\ writes evs = []
    /\ selects evs = []
    /\ delays evs = 0
    /\ match r with
       | Ret (Some resp) =>
           ((400 <=? status_code resp) && (status_code resp <? 600))%Z
           = false
       | Ret None => (retries <= 0)%Z
       | Raise _ => True
       end.
Proof.
  unfold get_page.
  destruct (Z.le_gt_cases retries 0) as [Hle|Hgt].
  - assert (Z.to_nat retries = 0) as -> by lia.
    exists (Ret None), 0, []. simpl. unfold ret, after.
    rewrite Nat.add_0_r, app_nil_r. destruct s. repeat split; lia.
  - destruct (@loop_bounded w url retries (Z.to_nat retries) 0%Z s)
      as (r & n & evs & Hrun & Hn & _ & Hg & Hs & Hw & Hsel & Hd & Hres);
      [lia|].
    exists r, n, evs. repeat split; try assumption.
    destruct r as [[resp|]|x]; try exact Hres. lia.
Qed.

End BackoffFacts.




(** X2. Whatever the transport does and whatever the budget, [get_page]
    sends at most [retries] requests, all to the given URL; between [n]
    requests it sleeps [2 ^ 0], ..., [2 ^ (n - 2)] seconds and never
    otherwise; it leaves the job list and the clock alone, writes no
    file and queries no document. *)
Theorem get_page_bounds (w : world) (url : pystr) (retries : Z)
    (s : Scraper.state) :
  exists r n evs,
    Scraper.get_page w url retries s = (r, after s n evs)
    /\ n <= Z.to_nat retries
    /\ gets evs = repeat url n
    /\ sleeps evs = backoff (pred n)
    /\ writes evs = []
    /\ selects evs = []
    /\ delays evs = 0.
Proof.
  destruct (BackoffFacts.get_page_bounded w url retries s)
    as (r & n & evs & H1 & H2 & H3 & H4 & H5 & H6 & H7 & _).
  exists r, n, evs. now repeat split.
Qed.

(** X3. A response returned by [get_page] never has a 4xx or 5xx
    status, and [get_page] returns [None] only with a budget of 0 or
    less. *)
Theorem get_page_result (w : world) (url : pystr) (retries : Z)
    (s s' : Scraper.state) (o : option response) :
  Scraper.get_page w url retries s = (Ret o, s') ->
  match o with
  | Some resp => (status_code resp < 400 \/ 600 <= status_code resp)%Z
  | None => (retries <= 0)%Z
  end.
Proof.
  intros H.
  destruct (BackoffFacts.get_page_bounded w url retries s)
    as (r & n & evs & Hrun & _ & _ & _ & _ & _ & _ & Hres).
  rewrite H in Hrun. injection Hrun as <- _.
  destruct o as [resp|]; [|exact Hres].
  apply andb_false_iff in Hres as [Hlo|Hhi].
  - left. now apply Z.leb_gt.
  - right. now apply Z.ltb_ge.
Qed.

Lemma get_page_result_witness :
  (200 < 400 \/ 600 <= 200)%Z.
Proof.
  exact (@get_page_result (Toy.flaky 1 (u8 "<html/>")) Scraper.base_url 3
           Scraper.initial _ (Some (mkResponse 200 (u8 "<html/>")))
           eq_refl).
Defined.

(** X4. An exception of the transport that is not a
    [RequestException] is not retried: [get_page] lets it through at
    once, with no error line and no sleep. *)
Theorem get_page_other_exception (w : world) (url : pystr) (retries : Z)
    (s : Scraper.state) (e : exn) :
  (1 <= retries)%Z ->
  attempt_outcome w (Scraper.http_calls s) url = Raise e ->
  is_request_exception e = false ->
  Scraper.get_page w url retries s
  = (Raise e, after s 1 (attempt_events url)).
Proof.
  intros Hpos Hout He. unfold Scraper.get_page.
  destruct (Z.to_nat retries) as [|m] eqn:Em; [lia|].
  now apply FetchFacts.loop_other_exception.
Qed.

Lemma get_page_other_exception_witness :
  Scraper.get_page Cases.broken Scraper.base_url 3 Scraper.initial
  = (Raise Cases.broken_error,
     after Scraper.initial 1 (attempt_events Scraper.base_url)).
Proof.
  apply (@get_page_other_exception Cases.broken Scraper.base_url 3
           Scraper.initial Cases.broken_error); [lia| |]; reflexivity.
Defined.


(* ------------------------------------------------------------------ *)
(** ** The two loops of [scrape_job_listings] *)

Module LoopFacts.

Import Scraper.

Lemma grown_nothing (s : state) : grown s [] 0 0 [] = s.
Proof.
  unfold grown. rewrite !app_nil_r, !Nat.add_0_r. now destruct s.
Qed.

Lemma grown_grown (s : state) (a1 a2 : list job) (n1 n2 c1 c2 : nat)
    (e1 e2 : list event) :
  grown (grown s a1 n1 c1 e1) a2 n2 c2 e2
  = grown s (a1 ++ a2) (n1 + n2) (c1 + c2) (e1 ++ e2).
Proof.
  unfold grown; simpl. f_equal; try lia; now rewrite <- app_assoc.
Qed.

Lemma after_grown (s : state) (n : nat) (evs : list event) :
  after s n evs = grown s [] n 0 evs.
Proof.
  unfold after, grown. now rewrite app_nil_r, Nat.add_0_r.
Qed.

Section Loops.

Context {soup elem : Type} {Q : HtmlQuery soup elem} {L : StrLib}.
Variable w : world.

(** [extract_job_details], by the outcome of the link. *)
Lemma extract_job_details_run (e : elem) (s : state) :
  match link_outcome e with
  | Ret l =>
      exists j,
        extract_job_details w e s = (Ret (Some j), grown s [] 0 1 [])
        /\ link j = l
        /\ scraped_at j = now_iso w (clock_reads s)
        /\ source j = u8 "Reworker"
  | Raise x =>
      extract_job_details w e s
      = (Ret None, grown s [] 0 0 [EvLog (LogExtractError x)])
  end.
Proof.
  unfold link_outcome, anchor_url.
  cbv [extract_job_details try_except bind href_of lift now ret raise log
       emit grown jobs http_calls clock_reads trace].
  rewrite !app_nil_r, !Nat.add_0_r, Nat.add_1_r.
  destruct (find_a_href e) as [a|].
  - destruct (attr_href a) as [h|].
    + destruct (urljoin base_url h) as [u|x].
      * eexists. split; [reflexivity|]. repeat split.
      * reflexivity.
    + reflexivity.
  - eexists. split; [reflexivity|]. repeat split.
Qed.

(** One round of the primary loop. *)
Lemma element_job_run (e : elem) (s : state) :
  exists added evs,
    element_job w e s
    = (Ret tt, grown s added 0 (List.length added) evs)
    /\ Forall2 (element_record w) (if extractable e then [e] else []) added
    /\ Forall (fun j => source j = u8 "Reworker") added
    /\ delays evs = 1
    /\ List.length (extract_errors evs)
       = (if extractable e then 0 else 1)
    /\ writes evs = [] /\ gets evs = [] /\ sleeps evs = []
    /\ selects evs = [].
Proof.
  pose proof (extract_job_details_run e s) as H.
  unfold extractable. unfold element_job. unfold bind at 1.
  destruct (link_outcome e) as [l|x].
  - destruct H as (j & Hrun & Hl & Ht & Hs). rewrite Hrun.
    exists [j], [EvSleepUniform (fst delay_range) (snd delay_range)].
    split.
    + cbv [bind append_job get_jobs set_jobs random_delay emit ret grown
           jobs http_calls clock_reads trace].
      rewrite !app_nil_r, !Nat.add_0_r. reflexivity.
    + split.
      * constructor; [|constructor]. now exists s, (grown s [] 0 1 []).
      * repeat split. now constructor.
  - rewrite H.
    exists [], [EvLog (LogExtractError x);
                EvSleepUniform (fst delay_range) (snd delay_range)].
    split.
    + cbv [bind random_delay emit ret grown
           jobs http_calls clock_reads trace].
      rewrite !app_nil_r, !Nat.add_0_r, <- app_assoc. reflexivity.
    + repeat split; constructor.
Qed.

(** The primary loop: one record per element whose link can be built,
    in order, and one politeness delay per element. *)
Lemma for_each_element_job (els : list elem) :
  forall s : state,
  exists added evs,
    for_each els (element_job w) s
    = (Ret tt, grown s added 0 (List.length added) evs)
    /\ Forall2 (element_record w) (filter extractable els) added
    /\ Forall (fun j => source j = u8 "Reworker") added
    /\ delays evs = List.length els
    /\ List.length (extract_errors evs)
       = List.length els - List.length added
    /\ writes evs = [] /\ gets evs = [] /\ sleeps evs = []
    /\ selects evs = [].
Proof.
  induction els as [|e els IH]; intros s.
  - exists [], []. simpl. unfold ret. rewrite grown_nothing.
    repeat split; constructor.
  - destruct (element_job_run e s)
      as (a1 & e1 & Hrun1 & Hrec1 & Hsrc1 & Hd1 & Herr1 & Hw1 & Hg1 & Hs1
          & Hsel1).
    destruct (IH (grown s a1 0 (List.length a1) e1))
      as (a2 & e2 & Hrun2 & Hrec2 & Hsrc2 & Hd2 & Herr2 & Hw2 & Hg2 & Hs2
          & Hsel2).
    exists (a1 ++ a2), (e1 ++ e2).
    split.
    + simpl. unfold bind. rewrite Hrun1, Hrun2, grown_grown.
      now rewrite length_app.
    + assert (Hlen2 : List.length a2 <= List.length els).
      { apply Forall2_length in Hrec2. rewrite <- Hrec2.
        apply filter_length_le. }
      split.
      { simpl. destruct (extractable e).
        - apply (Forall2_app Hrec1 Hrec2).
        - inversion Hrec1; subst. exact Hrec2. }
      split; [now apply Forall_app|].
      rewrite BackoffFacts.delays_app, BackoffFacts.extract_errors_app,
        TraceFacts.writes_app, BackoffFacts.gets_app,
        BackoffFacts.sleeps_app, ListingFacts.selects_app,
        !length_app, Hd1, Hd2, Herr1, Herr2, Hw1, Hw2, Hg1, Hg2, Hs1, Hs2,
        Hsel1, Hsel2.
      apply Forall2_length in Hrec1.
      repeat split.
      destruct (extractable e); rewrite <- Hrec1; cbn [List.length]; lia.
Qed.

(** One round of the fallback loop. *)
Lemma link_job_run (a : elem) (s : state) :
  match anchor_url a with
  | Ret u =>
      exists j,
        link_job w a s = (Ret tt, grown s [j] 0 1 []) /\ link_record a j
  | Raise x => link_job w a s = (Raise x, s)
  end.
Proof.
  unfold anchor_url, link_record, anchor_url.
  cbv [link_job bind href_of lift now ret raise append_job get_jobs
       set_jobs grown jobs http_calls clock_reads trace].
  rewrite !app_nil_r, !Nat.add_0_r, Nat.add_1_r.
  destruct (attr_href a) as [h|]; [|reflexivity].
  destruct (urljoin base_url h) as [u|x]; [|reflexivity].
  eexists. split; [reflexivity|]. simpl. repeat split.
Qed.

(** The fallback loop: one record per anchor up to the first anchor whose
    URL cannot be built; that failure ends the loop. *)
Lemma for_each_link_job (links : list elem) :
  forall s : state,
  exists added,
    for_each links (link_job w) s
    = (match first_error links with
       | None => Ret tt
       | Some x => Raise x
       end,
       grown s added 0 (List.length added) [])
    /\ Forall2 link_record (take_ok links) added.
Proof.
  induction links as [|a links IH]; intros s.
  - exists []. simpl. unfold ret. rewrite grown_nothing.
    split; [reflexivity|constructor].
  - pose proof (link_job_run a s) as H. simpl.
    destruct (anchor_url a) as [u|x].
    + destruct H as (j & Hrun & Hrec).
      destruct (IH (grown s [j] 0 1 [])) as (added & Hrun2 & Hrec2).
      exists (j :: added). split.
      * unfold bind. rewrite Hrun, Hrun2, grown_grown. reflexivity.
      * now constructor.
    + exists []. split.
      * unfold bind. rewrite H, grown_nothing. reflexivity.
      * constructor.
Qed.

(** The selector loop changes nothing but the trace, where it leaves
    [select] calls and at most one log line. *)
Lemma find_job_elements_quiet (page : soup) (sels : list pystr) :
  forall s : state,
  exists els evs,
    find_job_elements page sels s = (Ret els, grown s [] 0 0 evs)
    /\ writes evs = [] /\ gets evs = [] /\ sleeps evs = []
    /\ delays evs = 0 /\ extract_errors evs = [].
Proof.
  induction sels as [|sel sels IH]; intros s.
  - exists [], []. simpl. unfold ret. rewrite grown_nothing. repeat split.
  - simpl. unfold bind at 1. unfold soup_select, bind, emit, ret.
    cbn [jobs http_calls clock_reads trace].
    destruct (select page sel) as [|e es] eqn:E.
    + match goal with
      | |- context [find_job_elements page sels ?st] =>
          destruct (IH st) as (els & evs & Hrun & Hw & Hg & Hs & Hd & He)
      end.
      exists els, (EvSelect sel :: evs). rewrite Hrun.
      split.
      * unfold grown; simpl. rewrite !app_nil_r, !Nat.add_0_r.
        now rewrite <- app_assoc.
      * simpl. now repeat split.
    + exists (e :: es),
        [EvSelect sel; EvLog (LogFound sel (List.length (e :: es)))].
      split.
      * unfold log, emit, grown; simpl.
        rewrite !app_nil_r, !Nat.add_0_r. now rewrite <- app_assoc.
      * repeat split.
Qed.

End Loops.

End LoopFacts.


(* ------------------------------------------------------------------ *)
(** ** The paths of [scrape_job_listings] *)

Module ScrapeFacts.

Import Scraper.

Section Paths.

Context {soup elem : Type} {Q : HtmlQuery soup elem} {L : StrLib}.
Variable w : world.

(** The fetch raised: the exception is caught and logged. *)
Lemma scrape_fetch_raised (s s1 : state) (e : exn) :
  get_page w base_url default_retries s = (Raise e, s1) ->
  scrape_job_listings w s
  = (Ret tt, grown s1 [] 0 0 [EvLog (LogScrapeError e)]).
Proof.
  intros H. cbv [scrape_job_listings try_except bind]. rewrite H.
  cbv [log emit grown jobs http_calls clock_reads trace].
  now rewrite app_nil_r, !Nat.add_0_r.
Qed.

(** The fetch returned nothing: reading [response.text] fails. *)
Lemma scrape_fetch_none (s s1 : state) :
  get_page w base_url default_retries s = (Ret None, s1) ->
  scrape_job_listings w s
  = (Ret tt,
     grown s1 [] 0 0
       [EvLog (LogScrapeError (mkExn AttributeError (u8 "text")))]).
Proof.
  intros H. cbv [scrape_job_listings try_except bind]. rewrite H.
  cbv [raise log emit grown jobs http_calls clock_reads trace].
  now rewrite app_nil_r, !Nat.add_0_r.
Qed.

(** The primary path. *)
Lemma scrape_primary (s s1 s3 : state) (resp : response) (e : elem)
    (es : list elem) :
  get_page w base_url default_retries s = (Ret (Some resp), s1) ->
  find_job_elements (parse_html (text resp)) job_selectors
    (fetched_note s1 resp) = (Ret (e :: es), s3) ->
  exists added evs,
    scrape_job_listings w s
    = (Ret tt, grown s3 added 0 (List.length added) evs)
    /\ Forall2 (element_record w)
         (filter extractable (firstn 30 (e :: es))) added
    /\ Forall (fun j => source j = u8 "Reworker") added
    /\ delays evs = List.length (firstn 30 (e :: es))
    /\ List.length (extract_errors evs)
       = List.length (firstn 30 (e :: es)) - List.length added
    /\ writes evs = [] /\ gets evs = [] /\ sleeps evs = []
    /\ selects evs = [].
Proof.
  intros Hget Hfind.
  destruct (@LoopFacts.for_each_element_job _ _ Q L w (firstn 30 (e :: es)) s3)
    as (added & evs & Hrun & Hrec & Hsrc & Hd & Herr & Hw & Hg & Hs & Hsel).
  exists added,
    (evs ++ [EvLog (LogScraped (List.length (jobs s3 ++ added)))]).
  split.
  - cbv [scrape_job_listings try_except bind]. rewrite Hget.
    cbv [ret log emit jobs http_calls clock_reads trace].
    match goal with
    | |- context [find_job_elements _ _ ?st] =>
        replace st with (fetched_note s1 resp)
          by (unfold fetched_note, grown;
              now rewrite app_nil_r, !Nat.add_0_r)
    end.
    rewrite Hfind. rewrite Hrun.
    cbv [get_jobs grown jobs http_calls clock_reads trace].
    now rewrite <- app_assoc.
  - split; [exact Hrec|]. split; [exact Hsrc|].
    rewrite BackoffFacts.delays_app, BackoffFacts.extract_errors_app,
      TraceFacts.writes_app, BackoffFacts.gets_app,
      BackoffFacts.sleeps_app, ListingFacts.selects_app,
      Hd, Hw, Hg, Hs, Hsel.
    cbn [delays extract_errors writes gets sleeps selects app].
    rewrite app_nil_r, Nat.add_0_r, Herr. now repeat split.
Qed.

Lemma link_records_source (links : list elem) (added : list job) :
  Forall2 link_record links added ->
  Forall (fun j => source j = u8 "Reworker" /\ retained j = true) added.
Proof.
  induction 1 as [|a j links added Hj _ IH]; constructor; [|exact IH].
  destruct Hj as (_ & _ & _ & _ & _ & Hr & Hp & Hs).
  split; [exact Hs|]. unfold retained. now rewrite Hr, Hp.
Qed.

(** The fallback path. *)
Lemma scrape_fallback (s s1 s3 : state) (resp : response) :
  get_page w base_url default_retries s = (Ret (Some resp), s1) ->
  find_job_elements (parse_html (text resp)) job_selectors
    (fetched_note s1 resp) = (Ret [], s3) ->
  exists added evs,
    scrape_job_listings w s
    = (Ret tt, grown s3 added 0 (List.length added) evs)
    /\ Forall2 link_record (take_ok (job_links (parse_html (text resp))))
         added
    /\ delays evs = 0
    /\ extract_errors evs = []
    /\ writes evs = [] /\ gets evs = [] /\ sleeps evs = []
    /\ selects evs = []
    /\ (forall x, first_error (job_links (parse_html (text resp))) = Some x ->
                  In (EvLog (LogScrapeError x)) evs)
    /\ (first_error (job_links (parse_html (text resp))) = None ->
        In (EvLog (LogScraped (List.length (jobs s3 ++ added)))) evs).
Proof.
  intros Hget Hfind. unfold job_links.
  set (page := parse_html (text resp)) in *.
  set (all_links := find_all_a_href page).
  assert (Hbody :
      scrape_job_listings w s
      = try_except
          (fun s0 =>
             match
               (log (LogFallback (List.length all_links)) ;;
                match filter is_job_link all_links with
                | [] => ret tt
                | _ :: _ =>
                    log (LogJobLinks
                           (List.length (filter is_job_link all_links))) ;;
                    for_each (firstn 20 (filter is_job_link all_links))
                      (link_job w)
                end)%py s0
             with
             | (Ret _, s') =>
                 (js <- get_jobs ;; log (LogScraped (List.length js)))%py s'
             | (Raise x, s') => (Raise x, s')
             end)
          (fun x => log (LogScrapeError x)) s3).
  { cbv [scrape_job_listings try_except bind]. rewrite Hget.
    cbv [ret log emit jobs http_calls clock_reads trace].
    match goal with
    | |- context [find_job_elements _ _ ?st] =>
        replace st with (fetched_note s1 resp)
          by (unfold fetched_note, grown;
              now rewrite app_nil_r, !Nat.add_0_r)
    end.
    fold page. rewrite Hfind. fold all_links. reflexivity. }
  rewrite Hbody. clear Hbody.
  destruct (filter is_job_link all_links) as [|l0 ls] eqn:Efilter.
  - exists [], [EvLog (LogFallback (List.length all_links));
                EvLog (LogScraped (List.length (jobs s3 ++ [])))].
    split.
    + cbv [try_except bind log emit ret get_jobs grown
           jobs http_calls clock_reads trace].
      rewrite !app_nil_r, !Nat.add_0_r, <- app_assoc. reflexivity.
    + simpl. split; [constructor|].
      do 6 (split; [reflexivity|]). split.
      * intros x Hx. discriminate.
      * intros _. right. now left.
  - set (links := firstn 20 (l0 :: ls)).
    set (s4 := grown s3 [] 0 0
                 [EvLog (LogFallback (List.length all_links));
                  EvLog (LogJobLinks (List.length (l0 :: ls)))]).
    destruct (@LoopFacts.for_each_link_job _ _ Q L w links s4)
      as (added & Hrun & Hrec).
    assert (Hstep :
      (log (LogFallback (List.length all_links)) ;;
       log (LogJobLinks (List.length (l0 :: ls))) ;;
       for_each links (link_job w))%py s3
      = for_each links (link_job w) s4).
    { cbv [bind log emit s4 grown jobs http_calls clock_reads trace].
      now rewrite !app_nil_r, !Nat.add_0_r, <- app_assoc. }
    unfold try_except. rewrite Hstep, Hrun.
    destruct (first_error links) as [x|] eqn:Eerr.
    + exists added,
        [EvLog (LogFallback (List.length all_links));
         EvLog (LogJobLinks (List.length (l0 :: ls)));
         EvLog (LogScrapeError x)].
      split.
      * cbv [log emit s4 grown jobs http_calls clock_reads trace].
        rewrite !app_nil_r, !Nat.add_0_r, <- !app_assoc. reflexivity.
      * split; [exact Hrec|].
        do 6 (split; [reflexivity|]). split.
        -- intros y Hy. injection Hy as <-. right. right. now left.
        -- intros Hnone. discriminate.
    + exists added,
        [EvLog (LogFallback (List.length all_links));
         EvLog (LogJobLinks (List.length (l0 :: ls)));
         EvLog (LogScraped (List.length (jobs s3 ++ added)))].
      split.
      * cbv [bind get_jobs log emit s4 grown
             jobs http_calls clock_reads trace].
        rewrite !app_nil_r, !Nat.add_0_r, <- !app_assoc. reflexivity.
      * split; [exact Hrec|].
        do 6 (split; [reflexivity|]). split.
        -- intros y Hy. discriminate.
        -- intros _. right. right. now left.
Qed.

Lemma take_ok_length (links : list elem) :
  List.length (take_ok links) <= List.length links.
Proof.
  induction links as [|a links IH]; simpl; [lia|].
  destruct (anchor_url a); simpl; lia.
Qed.

Lemma first_error_none (links : list elem) :
  first_error links = None -> take_ok links = links.
Proof.
  induction links as [|a links IH]; simpl; [reflexivity|].
  destruct (anchor_url a); [|discriminate].
  intros H. now rewrite IH.
Qed.

(** What [scrape_job_listings] can change, whatever the world and the
    page. *)
Lemma scrape_effect (s : state) :
  exists added n evs,
    scrape_job_listings w s
    = (Ret tt, grown s added n (List.length added) evs)
    /\ List.length added <= 30
    /\ n <= 3
    /\ Forall (fun j => source j = u8 "Reworker") added
    /\ writes evs = []
    /\ gets evs = repeat base_url n
    /\ sleeps evs = backoff (pred n)
    /\ delays evs <= 30.
Proof.
  destruct (BackoffFacts.get_page_bounded w base_url default_retries s)
    as (r & n & evs0 & Hrun & Hn & Hg & Hs & Hw & Hsel & Hd & _).
  rewrite LoopFacts.after_grown in Hrun.
  change (Z.to_nat default_retries) with 3 in Hn.
  destruct r as [[resp|]|x].
  - destruct (@LoopFacts.find_job_elements_quiet _ _ Q
                (parse_html (text resp)) job_selectors
                (fetched_note (grown s [] n 0 evs0) resp))
      as (els & evs1 & Hfind & Hw1 & Hg1 & Hs1 & Hd1 & _).
    destruct els as [|e es].
    + destruct (scrape_fallback _ Hrun Hfind)
        as (added & evs2 & Hscr & Hrec & Hd2 & _ & Hw2 & Hg2 & Hs2 & _).
      exists added, n,
        (evs0 ++ [EvLog (LogMainPage (List.length (text resp)))]
         ++ evs1 ++ evs2).
      split.
      { rewrite Hscr. unfold fetched_note.
        rewrite !LoopFacts.grown_grown. simpl. now rewrite !Nat.add_0_r. }
      pose proof (Forall2_length Hrec) as Hlen.
      pose proof (take_ok_length (job_links (parse_html (text resp)))) as Hle.
      assert (List.length (job_links (parse_html (text resp))) <= 20)
        by (unfold job_links; rewrite length_firstn; lia).
      split; [lia|]. split; [exact Hn|].
      split.
      { eapply Forall_impl; [|apply (link_records_source Hrec)].
        intros j Hj. apply Hj. }
      rewrite !TraceFacts.writes_app, !BackoffFacts.gets_app,
        !BackoffFacts.sleeps_app, !BackoffFacts.delays_app,
        Hw, Hw1, Hw2, Hg, Hg1, Hg2, Hs, Hs1, Hs2, Hd, Hd1, Hd2.
      simpl. rewrite !app_nil_r. repeat split. lia.
    + destruct (scrape_primary _ Hrun Hfind)
        as (added & evs2 & Hscr & Hrec & Hsrc & Hd2 & _ & Hw2 & Hg2 & Hs2
            & _).
      exists added, n,
        (evs0 ++ [EvLog (LogMainPage (List.length (text resp)))]
         ++ evs1 ++ evs2).
      split.
      { rewrite Hscr. unfold fetched_note.
        rewrite !LoopFacts.grown_grown. simpl. now rewrite !Nat.add_0_r. }
      pose proof (Forall2_length Hrec) as Hlen.
      pose proof (filter_length_le extractable (firstn 30 (e :: es))) as Hle.
      assert (Hcap : List.length (firstn 30 (e :: es)) <= 30)
        by (rewrite length_firstn; lia).
      split; [lia|]. split; [exact Hn|]. split; [exact Hsrc|].
      rewrite !TraceFacts.writes_app, !BackoffFacts.gets_app,
        !BackoffFacts.sleeps_app, !BackoffFacts.delays_app,
        Hw, Hw1, Hw2, Hg, Hg1, Hg2, Hs, Hs1, Hs2, Hd, Hd1, Hd2.
      cbn [writes gets sleeps delays app Nat.add].
      rewrite !app_nil_r. repeat split. lia.
  - exists [], n,
      (evs0 ++ [EvLog (LogScrapeError (mkExn AttributeError (u8 "text")))]).
    split.
    { rewrite (scrape_fetch_none _ Hrun), LoopFacts.grown_grown.
      simpl. now rewrite Nat.add_0_r. }
    rewrite TraceFacts.writes_app, BackoffFacts.gets_app,
      BackoffFacts.sleeps_app, BackoffFacts.delays_app, Hw, Hg, Hs, Hd.
    simpl. rewrite !app_nil_r. repeat split; try lia. constructor.
  - exists [], n, (evs0 ++ [EvLog (LogScrapeError x)]).
    split.
    { rewrite (scrape_fetch_raised _ Hrun), LoopFacts.grown_grown.
      simpl. now rewrite Nat.add_0_r. }
    rewrite TraceFacts.writes_app, BackoffFacts.gets_app,
      BackoffFacts.sleeps_app, BackoffFacts.delays_app, Hw, Hg, Hs, Hd.
    simpl. rewrite !app_nil_r. repeat split; try lia. constructor.
Qed.

End Paths.

End ScrapeFacts.




(** X5. When all three attempts to fetch the page fail at the transport
    level, [scrape_job_listings] catches the failure: it returns
    normally after 3 requests and sleeps of 1 and 2 seconds, logs the
    last failure, queries no document and leaves the job list as it
    was. *)
Theorem scrape_without_network {soup elem : Type} {Q : HtmlQuery soup elem}
    {L : StrLib} (w : world) (s : Scraper.state) (e : nat -> exn) :
  (forall i, i < 3 ->
     transport_failure w (Scraper.http_calls s + i) Scraper.base_url (e i)) ->
  exists evs,
    Scraper.scrape_job_listings w s = (Ret tt, grown s [] 3 0 evs)
    /\ gets evs = repeat Scraper.base_url 3
    /\ sleeps evs = [1; 2]%Z
    /\ selects evs = []
    /\ writes evs = []
    /\ In (Scraper.EvLog (Scraper.LogScrapeError (e 2))) evs.
Proof.
  intros Hfail.
  destruct (@BackoffFacts.loop_exhausted w Scraper.base_url
              Scraper.default_retries 2 0%Z s e eq_refl Hfail)
    as (evs & Hrun & Hg & Hs & Hw & Hsel).
  exists (evs ++ [Scraper.EvLog (Scraper.LogScrapeError (e 2))]).
  split.
  - rewrite (@ScrapeFacts.scrape_fetch_raised _ _ Q L w s _ (e 2) Hrun).
    rewrite LoopFacts.after_grown, LoopFacts.grown_grown. reflexivity.
  - rewrite BackoffFacts.gets_app, BackoffFacts.sleeps_app,
      ListingFacts.selects_app, TraceFacts.writes_app, Hg, Hs, Hw, Hsel.
    repeat split. apply in_or_app. right. now left.
Qed.

Lemma scrape_without_network_witness :
  exists evs,
    Scraper.scrape_job_listings (Q := Toy.query (fun _ => Toy.remote_page))
      (L := Toy.strlib) Cases.not_found Scraper.initial
    = (Ret tt, grown Scraper.initial [] 3 0 evs)
    /\ sleeps evs = [1; 2]%Z
    /\ selects evs = [].
Proof.
  destruct (@scrape_without_network _ _
              (Toy.query (fun _ => Toy.remote_page)) Toy.strlib
              Cases.not_found Scraper.initial
              (fun _ => mkExn HTTPError (u8 "404")))
    as (evs & Hrun & _ & Hs & Hsel & _).
  - intros i _. split; reflexivity.
  - exists evs. now repeat split.
Defined.

(** X6. The primary path.  When the page is fetched and [selector] is
    the first of [job_selectors] with a match, the elements it matches,
    cut to the first 30, are processed in document order: each element
    whose link can be built contributes the record
    [extract_job_details] returns for it, each other element an error
    line and no record, and every element, built or not, is followed by
    one politeness delay.  No selector after the first match is
    evaluated. *)
Theorem primary_path {soup elem : Type} {Q : HtmlQuery soup elem}
    {L : StrLib} (w : world) (s s1 : Scraper.state) (resp : response)
    (pre post : list pystr) (selector : pystr) (e : elem) (es : list elem) :
  Scraper.get_page w Scraper.base_url Scraper.default_retries s
  = (Ret (Some resp), s1) ->
  Scraper.job_selectors = pre ++ selector :: post ->
  (forall x, In x pre -> select (parse_html (text resp)) x = []) ->
  select (parse_html (text resp)) selector = e :: es ->
  let processed := firstn 30 (e :: es) in
  exists added evs,
    Scraper.scrape_job_listings w s
    = (Ret tt, grown s1 added 0 (List.length added) evs)
    /\ Forall2 (element_record w) (filter extractable processed) added
    /\ delays evs = List.length processed
    /\ List.length (extract_errors evs)
       = List.length processed - List.length added
    /\ selects evs = pre ++ [selector]
    /\ gets evs = [] /\ sleeps evs = [] /\ writes evs = [].
Proof.
  intros Hget Hsplit Hpre Hsel processed.
  pose proof (@ListingFacts.find_job_elements_first _ _ Q
                (parse_html (text resp)) pre selector post
                (fetched_note s1 resp) Hpre) as Hfind.
  rewrite Hsel, <- Hsplit in Hfind.
  specialize (Hfind ltac:(discriminate)).
  rewrite LoopFacts.after_grown in Hfind.
  destruct (@ScrapeFacts.scrape_primary _ _ Q L w s s1 _ resp e es
              Hget Hfind)
    as (added & evs & Hrun & Hrec & _ & Hd & Herr & Hw & Hg & Hs & Hsl).
  exists added,
    ([Scraper.EvLog (Scraper.LogMainPage (List.length (text resp)))]
     ++ (map Scraper.EvSelect pre
         ++ [Scraper.EvSelect selector;
             Scraper.EvLog
               (Scraper.LogFound selector (List.length (e :: es)))])
     ++ evs).
  split.
  - rewrite Hrun. unfold fetched_note.
    rewrite !LoopFacts.grown_grown. reflexivity.
  - split; [exact Hrec|].
    rewrite !BackoffFacts.delays_app, !BackoffFacts.extract_errors_app,
      !ListingFacts.selects_app, !BackoffFacts.gets_app,
      !BackoffFacts.sleeps_app, !TraceFacts.writes_app,
      ListingFacts.selects_map, Hd, Hw, Hg, Hs, Hsl.
    assert (Hq : forall l : list pystr,
               delays (map Scraper.EvSelect l) = 0
               /\ extract_errors (map Scraper.EvSelect l) = []
               /\ gets (map Scraper.EvSelect l) = []
               /\ sleeps (map Scraper.EvSelect l) = []
               /\ writes (map Scraper.EvSelect l) = []).
    { induction l as [|x l IHl]; simpl; tauto. }
    destruct (Hq pre) as (-> & -> & -> & -> & ->).
    cbn [delays extract_errors selects gets sleeps writes app Nat.add
         List.length].
    rewrite app_nil_r, Herr. now repeat split.
Qed.

Lemma primary_path_witness :
  exists s1 added evs,
    Scraper.scrape_job_listings (Q := Toy.query (fun _ => Cases.mixed_page))
      (L := Toy.strlib) (Toy.flaky 0 (u8 "<html/>")) Scraper.initial
    = (Ret tt, grown s1 added 0 (List.length added) evs)
    /\ List.length added = 2
    /\ delays evs = 3
    /\ List.length (extract_errors evs) = 1
    /\ selects evs = [Scraper.class_contains (u8 "job")].
Proof.
  eexists.
  destruct (@primary_path _ _ (Toy.query (fun _ => Cases.mixed_page))
              Toy.strlib (Toy.flaky 0 (u8 "<html/>")) Scraper.initial _
              (mkResponse 200 (u8 "<html/>")) []
              (skipn 1 Scraper.job_selectors)
              (Scraper.class_contains (u8 "job"))
              (Cases.card (u8 "Remote editor") (u8 "/jobs/1"))
              (skipn 1 Cases.mixed_page)
              eq_refl eq_refl ltac:(intros x []) eq_refl)
    as (added & evs & Hrun & Hrec & Hd & Herr & Hsel & _).
  exists added, evs.
  apply Forall2_length in Hrec.
  split; [exact Hrun|].
  split; [rewrite <- Hrec; reflexivity|].
  split; [exact Hd|].
  split; [rewrite Herr, <- Hrec; reflexivity | exact Hsel].
Defined.


(** X7. The fallback path.  When the page is fetched and no selector of
    [job_selectors] matches, all seven selectors are evaluated in order
    and the anchors whose lower-cased text contains a job keyword, cut
    to the first 20, are turned into records one by one: title from the
    anchor text, placeholders for company and category, empty
    description, both flags true.  The first anchor whose URL cannot be
    built ends the loop: the records built before it are kept, the
    anchors after it are skipped and the error is logged.  The fallback
    never sleeps. *)
Theorem fallback_path {soup elem : Type} {Q : HtmlQuery soup elem}
    {L : StrLib} (w : world) (s s1 : Scraper.state) (resp : response) :
  Scraper.get_page w Scraper.base_url Scraper.default_retries s
  = (Ret (Some resp), s1) ->
  (forall x, In x Scraper.job_selectors ->
             select (parse_html (text resp)) x = []) ->
  let links := job_links (parse_html (text resp)) in
  exists added evs,
    Scraper.scrape_job_listings w s
    = (Ret tt, grown s1 added 0 (List.length added) evs)
    /\ Forall2 link_record (take_ok links) added
    /\ Forall (fun j => Scraper.retained j = true) added
    /\ selects evs = Scraper.job_selectors
    /\ delays evs = 0 /\ sleeps evs = [] /\ gets evs = []
    /\ writes evs = []
    /\ (forall x, first_error links = Some x ->
                  In (Scraper.EvLog (Scraper.LogScrapeError x)) evs)
    /\ (first_error links = None -> List.length added = List.length links).
Proof.
  intros Hget Hnone links.
  pose proof (@ListingFacts.find_job_elements_none _ _ Q
                (parse_html (text resp)) Scraper.job_selectors
                (fetched_note s1 resp) Hnone) as Hfind.
  rewrite LoopFacts.after_grown in Hfind.
  destruct (@ScrapeFacts.scrape_fallback _ _ Q L w s s1 _ resp Hget Hfind)
    as (added & evs & Hrun & Hrec & Hd & _ & Hw & Hg & Hs & Hsl & Herr & _).
  fold links in Hrec, Herr.
  exists added,
    ([Scraper.EvLog (Scraper.LogMainPage (List.length (text resp)))]
     ++ map Scraper.EvSelect Scraper.job_selectors ++ evs).
  split.
  - rewrite Hrun. unfold fetched_note.
    rewrite !LoopFacts.grown_grown. reflexivity.
  - split; [exact Hrec|].
    split.
    { eapply Forall_impl; [|apply (ScrapeFacts.link_records_source Hrec)].
      intros j Hj. apply Hj. }
    rewrite !BackoffFacts.delays_app, !ListingFacts.selects_app,
      !BackoffFacts.gets_app, !BackoffFacts.sleeps_app,
      !TraceFacts.writes_app, ListingFacts.selects_map, Hd, Hw, Hg, Hs, Hsl.
    split; [now rewrite app_nil_r|].
    do 4 (split; [reflexivity|]). split.
    + intros x Hx. apply in_or_app. right. apply in_or_app. right.
      now apply Herr.
    + intros Hok. apply Forall2_length in Hrec. rewrite <- Hrec.
      now rewrite (ScrapeFacts.first_error_none _ Hok).
Qed.

Lemma fallback_path_witness :
  exists s1 added evs,
    Scraper.scrape_job_listings (Q := Toy.query (fun _ => Cases.links_page))
      (L := Toy.strlib) (Toy.flaky 0 (u8 "<html/>")) Scraper.initial
    = (Ret tt, grown s1 added 0 (List.length added) evs)
    /\ map Scraper.title added
       = [u8 "Job: editor"; u8 "Career: tester"]
    /\ selects evs = Scraper.job_selectors
    /\ In (Scraper.EvLog (Scraper.LogScrapeError
                            (mkExn ValueError (u8 "http://[bad")))) evs.
Proof.
  eexists.
  destruct (@fallback_path _ _ (Toy.query (fun _ => Cases.links_page))
              Toy.strlib (Toy.flaky 0 (u8 "<html/>")) Scraper.initial _
              (mkResponse 200 (u8 "<html/>")) eq_refl)
    as (added & evs & Hrun & Hrec & _ & Hsel & _ & _ & _ & _ & Herr & _).
  - intros x Hx. simpl in Hx.
    repeat (destruct Hx as [<-|Hx]; [reflexivity|]). destruct Hx.
  - exists added, evs. split; [exact Hrun|].
    split; [|split; [exact Hsel|apply Herr; reflexivity]].
    change (take_ok _) with
      [Cases.link (u8 "Job: editor") (u8 "/e");
       Cases.link (u8 "Career: tester") (u8 "/t")] in Hrec.
    inversion Hrec as [|a1 j1 l1 r1 H1 Hrest]; subst.
    inversion Hrest as [|a2 j2 l2 r2 H2 Hrest2]; subst.
    inversion Hrest2; subst.
    destruct H1 as (E1 & _). destruct H2 as (E2 & _).
    cbn [map]. rewrite E1, E2. reflexivity.
Defined.

(** X8. Whatever the transport answers and whatever the page holds,
    [scrape_job_listings] returns normally; it only appends to the job
    list, at most 30 records, all with source ["Reworker"] and each with
    one reading of the clock; it sends at most 3 requests, all to the
    base URL, with the backoff sleeps between them; it makes at most 30
    politeness delays and writes no file. *)
Theorem scrape_job_listings_effect {soup elem : Type}
    {Q : HtmlQuery soup elem} {L : StrLib} (w : world)
    (s : Scraper.state) :
  exists added n evs,
    Scraper.scrape_job_listings w s
    = (Ret tt, grown s added n (List.length added) evs)
    /\ List.length added <= 30
    /\ n <= 3
    /\ Forall (fun j => Scraper.source j = u8 "Reworker") added
    /\ writes evs = []
    /\ gets evs = repeat Scraper.base_url n
    /\ sleeps evs = backoff (pred n)
    /\ delays evs <= 30.
Proof. apply ScrapeFacts.scrape_effect. Qed.


(* ------------------------------------------------------------------ *)
(** ** More on a run: what it changes and what it writes *)

Module RunEffect.

Import Scraper.

Lemma filter_keeps_samples (l : list job) (t1 t2 t3 : pystr) :
  filter retained (l ++ sample_jobs t1 t2 t3)
  = filter retained l ++ sample_jobs t1 t2 t3.
Proof. now rewrite filter_app. Qed.


Section Effect.

Context {soup elem : Type} {Q : HtmlQuery soup elem} {L : StrLib}.
Variable w : world.





End Effect.

End RunEffect.




(** X11. The sample records always pass the filter.  In a run that
    collected fewer than 3 records and reports success, the [jobs] array
    of the written file is the retained collected records followed by
    the 3 sample records, so it has between 3 and 5 entries. *)
Theorem samples_reach_output {soup elem : Type} {Q : HtmlQuery soup elem}
    {L : StrLib} (w : world) (s : Scraper.state) :
  let s1 := scraped w (started s) in
  List.length (Scraper.jobs s1) < 3 ->
  forall f s3,
    Scraper.run w s = (Ret (Some f), s3) ->
    exists content doc items,
      writes (Scraper.trace s3)
      = writes (Scraper.trace s1) ++ [(Scraper.default_filename, content)]
      /\ loads content = Some doc
      /\ jobs_array doc = Some items
      /\ map Scraper.job_of_dict items
         = map Some (filter Scraper.retained (Scraper.jobs s1)
                     ++ samples_at w s1)
      /\ 3 <= List.length items <= 5
      /\ total_jobs doc = Some (Z.of_nat (List.length items)).
Proof.
  intros s1 Hlt f s3 Hrun.
  rewrite RunFacts.run_run, RunFacts.collect_jobs_run in Hrun.
  fold s1 in Hrun. pose proof Hlt as Hlt'.
  apply Nat.ltb_lt in Hlt'. rewrite Hlt' in Hrun.
  cbn [snd] in Hrun. unfold Scraper.bind in Hrun.
  destruct (SaveFacts.save_to_json_returns w Scraper.default_filename
              (with_samples w s1)) as (r & s2 & Hsave).
  rewrite Hsave in Hrun.
  destruct (RunFacts.report_jobs r s2) as (_ & Hrw & Hrr).
  rewrite Hrun in Hrw, Hrr. cbn [fst snd] in Hrw, Hrr.
  injection Hrr as <-.
  destruct (@SaveFacts.saved_document w _ _ _ _ Hsave)
    as (content & doc & items & Hw & Hl & Hi & Hr & Ht).
  exists content, doc, items.
  split.
  { rewrite Hrw, Hw. f_equal. simpl.
    rewrite TraceFacts.writes_app. simpl. now rewrite app_nil_r. }
  split; [exact Hl|]. split; [exact Hi|].
  assert (Hfilter : filter Scraper.retained
                      (Scraper.jobs (with_samples w s1))
                    = filter Scraper.retained (Scraper.jobs s1)
                      ++ samples_at w s1).
  { apply RunEffect.filter_keeps_samples. }
  rewrite Hfilter in Hr.
  split; [exact Hr|]. split; [|exact Ht].
  assert (Hlen : List.length (map Scraper.job_of_dict items)
                 = List.length
                     (map Some (filter Scraper.retained (Scraper.jobs s1)
                                ++ samples_at w s1)))
    by now rewrite Hr.
  rewrite !length_map, length_app in Hlen.
  pose proof (filter_length_le Scraper.retained (Scraper.jobs s1)) as Hle.
  change (List.length (samples_at w s1)) with 3 in Hlen. lia.
Qed.

Lemma samples_reach_output_witness :
  exists s3 content doc items,
    Scraper.run (Q := Toy.query (fun _ => Toy.remote_page))
      (L := Toy.strlib) (Toy.flaky 0 (u8 "<html/>")) Scraper.initial
    = (Ret (Some Scraper.default_filename), s3)
    /\ writes (Scraper.trace s3) = [] ++ [(Scraper.default_filename, content)]
    /\ loads content = Some doc
    /\ jobs_array doc = Some items
    /\ 3 <= List.length items <= 5.
Proof.
  eexists.
  destruct (@samples_reach_output _ _
              (Toy.query (fun _ => Toy.remote_page)) Toy.strlib
              (Toy.flaky 0 (u8 "<html/>")) Scraper.initial
              ltac:(vm_compute; lia)
              Scraper.default_filename _ ltac:(vm_compute; reflexivity))
    as (content & doc & items & Hw & Hl & Hi & _ & Hlen & _).
  exists content, doc, items.
  split; [vm_compute; reflexivity|].
  split; [exact Hw|]. split; [exact Hl|]. split; [exact Hi | exact Hlen].
Defined.


(** X12. End to end without network.  From a scraper with an empty job
    list, when all three attempts to fetch the page fail at the
    transport level and the run reports success, the file written holds
    exactly the 3 sample records, stamped with three consecutive clock
    readings, and [metadata.total_jobs] is 3; the run sent 3 requests. *)
Theorem run_without_network {soup elem : Type} {Q : HtmlQuery soup elem}
    {L : StrLib} (w : world) (s : Scraper.state) (e : nat -> exn) :
  Scraper.jobs s = [] ->
  (forall i, i < 3 ->
     transport_failure w (Scraper.http_calls s + i) Scraper.base_url (e i)) ->
  forall f s3,
    Scraper.run w s = (Ret (Some f), s3) ->
    exists content doc items,
      writes (Scraper.trace s3)
      = writes (Scraper.trace s) ++ [(Scraper.default_filename, content)]
      /\ loads content = Some doc
      /\ jobs_array doc = Some items
      /\ map Scraper.job_of_dict items
         = map Some
             (Scraper.sample_jobs
                (now_iso w (Scraper.clock_reads s))
                (now_iso w (S (Scraper.clock_reads s)))
                (now_iso w (S (S (Scraper.clock_reads s)))))
      /\ total_jobs doc = Some 3%Z
      /\ Scraper.http_calls s3 = Scraper.http_calls s + 3.
Proof.
  intros Hempty Hfail f s3 Hrun.
  assert (Hfail' : forall i, i < 3 ->
            transport_failure w (Scraper.http_calls (started s) + i)
              Scraper.base_url (e i)).
  { intros i Hi. simpl. rewrite Nat.add_0_r. now apply Hfail. }
  destruct (@BackoffFacts.loop_exhausted w Scraper.base_url
              Scraper.default_retries 2 0%Z (started s) e eq_refl Hfail')
    as (evs & Hget & _ & _ & Hw0 & _).
  pose proof (@ScrapeFacts.scrape_fetch_raised _ _ Q L w (started s) _
                (e 2) Hget) as Hscrape.
  assert (Hs1 : scraped w (started s)
                = grown (after (started s) 3 evs) [] 0 0
                    [Scraper.EvLog (Scraper.LogScrapeError (e 2))]).
  { unfold scraped. now rewrite Hscrape. }
  rewrite RunFacts.run_run, RunFacts.collect_jobs_run, Hs1 in Hrun.
  set (s1 := grown (after (started s) 3 evs) [] 0 0
               [Scraper.EvLog (Scraper.LogScrapeError (e 2))]) in *.
  assert (Hjobs1 : Scraper.jobs s1 = []).
  { unfold s1. simpl. now rewrite Hempty. }
  rewrite Hjobs1 in Hrun. cbn [List.length Nat.ltb Nat.leb snd] in Hrun.
  unfold Scraper.bind in Hrun.
  destruct (SaveFacts.save_to_json_returns w Scraper.default_filename
              (with_samples w s1)) as (r & s2 & Hsave).
  pose proof (SaveFacts.save_to_json_run w Scraper.default_filename
                (with_samples w s1)) as Hshape.
  rewrite Hsave in Hrun, Hshape.
  destruct (RunFacts.report_jobs r s2) as (_ & Hrw & Hrr).
  assert (Hcalls : Scraper.http_calls s3 = Scraper.http_calls s2).
  { pose proof (f_equal (fun p => Scraper.http_calls (snd p)) Hrun) as Hc.
    cbn [snd] in Hc. rewrite <- Hc. destruct r; reflexivity. }
  rewrite Hrun in Hrw, Hrr. cbn [fst snd] in Hrw, Hrr.
  injection Hrr as <-.
  destruct (@SaveFacts.saved_document w _ _ _ _ Hsave)
    as (content & doc & items & Hw & Hl & Hi & Hr & Ht).
  exists content, doc, items.
  assert (Hfilter : filter Scraper.retained
                      (Scraper.jobs (with_samples w s1))
                    = samples_at w s1).
  { change (Scraper.jobs (with_samples w s1))
      with (Scraper.jobs s1 ++ samples_at w s1).
    rewrite Hjobs1. reflexivity. }
  rewrite Hfilter in Hr.
  assert (Hclock : Scraper.clock_reads s1 = Scraper.clock_reads s).
  { unfold s1. simpl. lia. }
  split.
  { rewrite Hrw, Hw. f_equal. unfold s1. simpl.
    rewrite !TraceFacts.writes_app, Hw0. simpl. now rewrite !app_nil_r. }
  split; [exact Hl|]. split; [exact Hi|].
  split.
  { rewrite Hr. unfold samples_at. now rewrite Hclock. }
  split.
  { rewrite Ht. f_equal.
    assert (Hlen : List.length (map Scraper.job_of_dict items) = 3)
      by now rewrite Hr.
    rewrite length_map in Hlen. now rewrite Hlen. }
  rewrite Hcalls.
  cbv zeta in Hshape.
  destruct (Scraper.utf8_encodable _);
    [destruct (fs_write _ _ _)|];
    injection Hshape as _ ->; unfold s1; simpl; lia.
Qed.

Lemma run_without_network_witness :
  exists s3 content doc items,
    Scraper.run (Q := Toy.query (fun _ => Toy.remote_page))
      (L := Toy.strlib) Toy.offline Scraper.initial
    = (Ret (Some Scraper.default_filename), s3)
    /\ writes (Scraper.trace s3) = [] ++ [(Scraper.default_filename, content)]
    /\ loads content = Some doc
    /\ jobs_array doc = Some items
    /\ map Scraper.job_of_dict items
       = map Some (Scraper.sample_jobs (Toy.clock 0) (Toy.clock 1)
                     (Toy.clock 2))
    /\ total_jobs doc = Some 3%Z.
Proof.
  eexists.
  destruct (@run_without_network _ _
              (Toy.query (fun _ => Toy.remote_page)) Toy.strlib
              Toy.offline Scraper.initial (fun _ => Toy.timeout_error)
              eq_refl ltac:(intros i _; split; reflexivity)
              Scraper.default_filename _ ltac:(vm_compute; reflexivity))
    as (content & doc & items & Hw & Hl & Hi & Hr & Ht & _).
  exists content, doc, items.
  split; [vm_compute; reflexivity|].
  split; [exact Hw|]. split; [exact Hl|]. split; [exact Hi|].
  split; [exact Hr | exact Ht].
Defined.


(* ------------------------------------------------------------------ *)
(** ** More on record building *)

Module KeywordFacts.

Import Scraper.

(** A text that contains a keyword contains every part of it. *)
Lemma contains_part (part whole t : pystr) :
  substring part whole ->
  contains whole t = true -> contains part t = true.
Proof.
  intros (a & b & ->) H.
  apply contains_spec in H as (pre & post & ->).
  apply contains_spec. exists (pre ++ a), (b ++ post).
  now rewrite <- !app_assoc.
Qed.

Lemma firstn_prefix_app (n : nat) (l m : pystr) :
  n <= List.length l -> firstn n (firstn n l ++ m) = firstn n l.
Proof.
  intros H.
  assert (Hlen : List.length (firstn n l) = n)
    by (rewrite length_firstn; lia).
  rewrite firstn_app, Hlen, Nat.sub_diag, firstn_firstn, Nat.min_id.
  change (firstn 0 m) with (@nil char). apply app_nil_r.
Qed.

Lemma truncate_twice (d : pystr) :
  truncate_description (truncate_description d) = truncate_description d.
Proof.
  destruct (Nat.lt_ge_cases 200 (List.length d)) as [H|H].
  - rewrite (@RecordFacts.truncate_long d H).
    rewrite RecordFacts.truncate_long.
    + f_equal. apply firstn_prefix_app. lia.
    + rewrite length_app, length_firstn.
      change (List.length marker) with 3. lia.
  - rewrite !(@RecordFacts.truncate_short d H). reflexivity.
Qed.

Lemma truncate_prefix (d : pystr) :
  firstn 200 (truncate_description d) = firstn 200 d.
Proof.
  destruct (Nat.lt_ge_cases 200 (List.length d)) as [H|H].
  - rewrite (@RecordFacts.truncate_long d H).
    apply firstn_prefix_app. lia.
  - now rewrite (@RecordFacts.truncate_short d H).
Qed.

End KeywordFacts.

(** X13. Two of the seven remote keywords are redundant: a text
    contains one of [remote_keywords] iff it contains one of the five
    keywords other than "フル在宅" and "完全在宅", which both contain
    "在宅".  Moreover a text that contains the own-PC keyword "自宅pc" or
    "自宅パソコン" contains the remote keyword "自宅", so it is classified
    as remote as well. *)
Theorem remote_keywords_redundant (full_text : pystr) :
  Scraper.classify_remote full_text
  = any (fun keyword => contains keyword full_text) core_remote_keywords
  /\ (contains (u8 "自宅pc") full_text = true
      \/ contains (u8 "自宅パソコン") full_text = true ->
      Scraper.classify_remote full_text = true).
Proof.
  assert (H1 : contains (u8 "フル在宅") full_text = true ->
               contains (u8 "在宅") full_text = true).
  { apply KeywordFacts.contains_part. now exists (u8 "フル"), []. }
  assert (H2 : contains (u8 "完全在宅") full_text = true ->
               contains (u8 "在宅") full_text = true).
  { apply KeywordFacts.contains_part. now exists (u8 "完全"), []. }
  assert (H3 : contains (u8 "自宅pc") full_text = true ->
               contains (u8 "自宅") full_text = true).
  { apply KeywordFacts.contains_part. now exists [], (u8 "pc"). }
  assert (H4 : contains (u8 "自宅パソコン") full_text = true ->
               contains (u8 "自宅") full_text = true).
  { apply KeywordFacts.contains_part. now exists [], (u8 "パソコン"). }
  unfold Scraper.classify_remote, Scraper.remote_keywords,
    core_remote_keywords, any.
  cbn [existsb].
  destruct (contains (u8 "在宅") full_text);
    destruct (contains (u8 "リモート") full_text);
    destruct (contains (u8 "remote") full_text);
    destruct (contains (u8 "テレワーク") full_text);
    destruct (contains (u8 "自宅") full_text);
    destruct (contains (u8 "フル在宅") full_text);
    destruct (contains (u8 "完全在宅") full_text);
    cbn [orb];
    try (split; [reflexivity | intros _; reflexivity]);
    try (specialize (H1 eq_refl); discriminate);
    try (specialize (H2 eq_refl); discriminate);
    split; try reflexivity;
    intros [H|H]; [apply H3 in H | apply H4 in H]; discriminate.
Qed.

(** X14. Truncating a description twice is the same as truncating it
    once, and truncation never changes the first 200 characters. *)
Theorem truncation_stable (d : pystr) :
  Scraper.truncate_description (Scraper.truncate_description d)
  = Scraper.truncate_description d
  /\ firstn 200 (Scraper.truncate_description d) = firstn 200 d.
Proof.
  split; [apply KeywordFacts.truncate_twice|apply KeywordFacts.truncate_prefix].
Qed.

(** X15. A malformed element never aborts the run.
    [extract_job_details] never raises: when the link of the element
    can be built it reads the clock once and returns a record with that
    link and that time stamp; when building the link raises, it returns
    [None], logs the error and does not read the clock.  Either way the
    job list is left as it was. *)
Theorem extract_job_details_contained {soup elem : Type}
    {Q : HtmlQuery soup elem} {L : StrLib} (w : world) (e : elem)
    (s : Scraper.state) :
  (forall l, link_outcome e = Ret l ->
     exists j,
       Scraper.extract_job_details w e s = (Ret (Some j), grown s [] 0 1 [])
       /\ Scraper.link j = l
       /\ Scraper.scraped_at j = now_iso w (Scraper.clock_reads s)
       /\ Scraper.source j = u8 "Reworker")
  /\ (forall x, link_outcome e = Raise x ->
        Scraper.extract_job_details w e s
        = (Ret None,
           grown s [] 0 0 [Scraper.EvLog (Scraper.LogExtractError x)]))
  /\ (forall x s', Scraper.extract_job_details w e s <> (Raise x, s')).
Proof.
  pose proof (LoopFacts.extract_job_details_run w e s) as H.
  split; [|split].
  - intros l Hl. rewrite Hl in H. exact H.
  - intros x Hx. rewrite Hx in H. exact H.
  - intros x s' Heq. destruct (link_outcome e) as [l|y].
    + destruct H as (j & Hrun & _). congruence.
    + congruence.
Qed.

Lemma extract_job_details_contained_witness :
  (exists j,
      Scraper.extract_job_details (Q := Toy.query (fun _ => []))
        (L := Toy.strlib) Toy.offline
        (Cases.card (u8 "Remote editor") (u8 "/jobs/1")) Scraper.initial
      = (Ret (Some j), grown Scraper.initial [] 0 1 [])
      /\ Scraper.link j = u8 "https://www.reworker.jp/jobs/1")
  /\ Scraper.extract_job_details (Q := Toy.query (fun _ => []))
       (L := Toy.strlib) Toy.offline
       (Cases.card (u8 "Remote tester") (u8 "http://[bad")) Scraper.initial
     = (Ret None,
        grown Scraper.initial [] 0 0
          [Scraper.EvLog
             (Scraper.LogExtractError
                (mkExn ValueError (u8 "http://[bad")))]).
Proof.
  split.
  - destruct (proj1 (@extract_job_details_contained _ _
                       (Toy.query (fun _ => [])) Toy.strlib Toy.offline
                       (Cases.card (u8 "Remote editor") (u8 "/jobs/1"))
                       Scraper.initial)
                (u8 "https://www.reworker.jp/jobs/1") eq_refl)
      as (j & Hrun & Hl & _).
    exists j. split; [exact Hrun | exact Hl].
  - apply (proj1 (proj2 (@extract_job_details_contained _ _
                           (Toy.query (fun _ => [])) Toy.strlib Toy.offline
                           (Cases.card (u8 "Remote tester")
                              (u8 "http://[bad"))
                           Scraper.initial))).
    reflexivity.
Defined.
